(** * CoachingConfig: the expectation store and its three mutations

    A shallow embedding of the server-side expectation code of the
    coaching configuration tool (Google Apps Script):

    - [validateExpectation], [checkForOverlap], [addNewExpectation],
      [updateExpectationData], [setExpectationStatus], [updateModifiedBy]
      and [getUserEmID] from the tool's server script;
    - [_withLock] and [_addRow] from [Coaching Config Sheet/APIv1.js].

    The sheet [tbl_coaching_expectations] is a grid of cells; a cell holds a
    JavaScript value.  Every call of the spreadsheet service is a step of a
    state-and-exception monad over the sheet, and is recorded in a trace.

    Around the store, the development embeds what calls it and what sits
    next to it in the same files:

    - [enqueue] and [processQueue] of [ServerQueueing.js], through which the
      client calls the operations;
    - the users and their roles: [getUsers], [authenticate],
      [validateAdmin], [validateOwner], [addNewUser], [editUser],
      [removeUser], [injectRole];
    - [populateData] and [getFormData], which join the sheets of the forms
      and of the questions;
    - [addForm], [removeForm], [getUnusedForms] and their helpers of
      [APIv1.js], over the sheets of the configuration;
    - the counter and the queue of the alerts of the page ([AlertBuilder]).

    Conventions of the model:
    - a JavaScript number is held as the integer that it is, or is [NaN] or
      one of the two infinities; a number with a fraction is not held.
      Above 2^53 not every integer is a number: the arithmetic rounds to the
      nearest number as the runtime does ([Number_value]), and the notation
      of a number is its shortest decimal ([Number_toString]);
    - what the runtime does with a string ([Number(s)], [parseInt(s)],
      [Date.parse(s)]) is a field of [Runtime]: every theorem holds for any
      such behaviour;
    - a cell reads back as the value that was written to it;
    - the script is initialised ([COACHING_SHEET] is set), and the calls of
      [Logger] are left out;
    - the rejection of a promise that nobody awaits is lost. *)

From Stdlib Require Import ZArith Ascii String Bool Lia.
From stdpp Require Import base tactics option list strings gmap pretty.

Local Open Scope Z_scope.

(* ================================================================== *)
(** ** JavaScript values *)
(* ================================================================== *)

Module JS.

(** Numbers. *)
Inductive num : Type :=
| NaN
| NegInf
| Fin (z : Z)
| PosInf.

(** The values a cell or an argument can hold.  A [Date] object carries
    its time value in milliseconds, [None] for an invalid date. *)
Inductive val : Type :=
| VUndef
| VNull
| VBool (b : bool)
| VNum (n : num)
| VStr (s : string)
| VDate (t : option Z).

(** What the runtime does with strings, who is signed in, what day it is,
    and whether the script lock can be obtained within the wait time. *)
Record Runtime : Type := {
  string_to_number : string -> num;      (* Number(s) *)
  string_parse_int : string -> num;      (* parseInt(s) *)
  date_parse : string -> option Z;       (* Date.parse(s), None for NaN *)
  employee_id : val;                     (* emIDCol[index], or null *)
  today : string;                        (* formatDate(new Date(), EST, yyyy-MM-dd) *)
  lock_obtainable : bool                 (* does waitLock return in time *)
}.

Definition num_eqb (a b : num) : bool :=
  match a, b with
  | NegInf, NegInf => true
  | PosInf, PosInf => true
  | Fin x, Fin y => (x =? y)%Z
  | _, _ => false
  end.

(** [a === b]: no conversion; [NaN] equals nothing; two [Date] objects
    obtained from different reads are different objects. *)
Definition strict_eq (a b : val) : bool :=
  match a, b with
  | VUndef, VUndef => true
  | VNull, VNull => true
  | VBool x, VBool y => Bool.eqb x y
  | VNum x, VNum y => num_eqb x y
  | VStr x, VStr y => String.eqb x y
  | _, _ => false
  end.

(** [a !== b] *)
Definition strict_neq (a b : val) : bool := negb (strict_eq a b).

(** The condition of an [if]. *)
Definition truthy (v : val) : bool :=
  match v with
  | VUndef | VNull => false
  | VBool b => b
  | VNum NaN => false
  | VNum (Fin z) => negb (z =? 0)%Z
  | VNum _ => true
  | VStr s => negb (String.eqb s "")
  | VDate _ => true
  end.

(** [typeof v === 'number'] *)
Definition typeof_number (v : val) : bool :=
  match v with VNum _ => true | _ => false end.

(** [n >= 0] on a number. *)
Definition num_ge0 (n : num) : bool :=
  match n with
  | Fin z => (0 <=? z)%Z
  | PosInf => true
  | NaN | NegInf => false
  end.

(** [v >= 0] for a value already known to be a number. *)
Definition ge0 (v : val) : bool :=
  match v with VNum n => num_ge0 n | _ => false end.

(** [Math.max(...l)]: minus infinity on no argument, [NaN] as soon as one
    argument is [NaN]. *)
Definition num_max (a b : num) : num :=
  match a, b with
  | NaN, _ | _, NaN => NaN
  | PosInf, _ | _, PosInf => PosInf
  | NegInf, x | x, NegInf => x
  | Fin x, Fin y => Fin (Z.max x y)
  end.

Definition Math_max (l : list num) : num := foldr num_max NegInf l.

(** The Number value for the integer [x]: [x] itself up to 2^53 in
    magnitude; beyond, the numbers are the multiples of a power of two that
    have 53 binary digits, and [x] is rounded to the nearest of them, to the
    even one of two that are as near, and to an infinity from
    2^1024 - 2^970 on. *)
Definition Number_value (x : Z) : num :=
  let a := Z.abs x in
  if a <=? 9007199254740992 then Fin x
  else
    let e := Z.log2 a - 52 in
    let q := a / 2 ^ e in
    let r := a mod 2 ^ e in
    let half := 2 ^ (e - 1) in
    let q' :=
      if r <? half then q
      else if half <? r then q + 1
      else if Z.even q then q else q + 1 in
    let a' := q' * 2 ^ e in
    if 2 ^ 1024 <=? a' then (if 0 <? x then PosInf else NegInf)
    else Fin (Z.sgn x * a').

(** [n + 1] *)
Definition add1 (n : num) : num :=
  match n with Fin z => Number_value (z + 1) | other => other end.

(** The notation of a number ([Number::toString]) is made of the digits of
    the shortest decimal whose Number value is the number, the nearest one
    if there are several, the even one of two that are as near.  For the
    integer [a] of [n] digits, the decimals of [k] significant digits
    nearest to it are the two multiples of 10^(n-k) around it. *)
Definition digits_count (a : Z) : Z := Z.of_nat (String.length (pretty a)).

Definition reads_as (r a : Z) : bool := num_eqb (Number_value r) (Fin a).

Definition shortest_with (a n k : Z) : option Z :=
  let p := 10 ^ (n - k) in
  let lo := a / p in
  match reads_as (lo * p) a, reads_as ((lo + 1) * p) a with
  | true, true =>
      let below := a - lo * p in
      let above := (lo + 1) * p - a in
      Some (if below <? above then lo * p
            else if above <? below then (lo + 1) * p
            else if Z.even lo then lo * p else (lo + 1) * p)
  | true, false => Some (lo * p)
  | false, true => Some ((lo + 1) * p)
  | false, false => None
  end.

Fixpoint shortest_from (a n k : Z) (more : nat) : Z :=
  match more with
  | O => a
  | S more' =>
      match shortest_with a n k with
      | Some r => r
      | None => shortest_from a n (k + 1) more'
      end
  end.

(** No number needs more than 17 significant digits. *)
Definition shortest_decimal (a : Z) : Z := shortest_from a (digits_count a) 1 17.

(** The digits without the zeros at their end. *)
Fixpoint without_final_zeros (digits : string) : string :=
  match digits with
  | EmptyString => EmptyString
  | String c rest =>
      match without_final_zeros rest with
      | EmptyString => if Ascii.eqb c "0" then EmptyString else String c EmptyString
      | kept => String c kept
      end
  end.

(** [1e+21], [1.1805916207174113e+21]: the notation of a decimal of 22
    digits or more. *)
Definition exponent_notation (digits : string) : string :=
  let exponent := pretty (Z.of_nat (String.length digits) - 1) in
  match without_final_zeros digits with
  | EmptyString => digits
  | String c EmptyString => String c ("e+" +:+ exponent)
  | String c fraction => String c ("." +:+ fraction +:+ "e+" +:+ exponent)
  end.

(** [String(x)] for the number that is the integer [x].  Up to 2^53 every
    integer is a number and the shortest decimal is the integer itself;
    from 10^21 on the notation has an exponent. *)
Definition Number_toString (x : Z) : string :=
  if Z.abs x <=? 9007199254740992 then pretty x
  else
    let r := shortest_decimal (Z.abs x) in
    let sign := if x <? 0 then "-" else "" in
    if r <? 1000000000000000000000 then sign +:+ pretty r
    else sign +:+ exponent_notation (pretty r).

(** The digits that [parseInt] reads in the notation of a number: all of
    them below 10^21, and they read back as the number; from 10^21 on the
    first digit only, for a point or the letter of the exponent follows. *)
Definition Number_parseInt (x : Z) : num :=
  if Z.abs x <? 1000000000000000000000 then Fin x
  else
    let r := shortest_decimal (Z.abs x) in
    Fin (Z.sgn x * (r / 10 ^ (digits_count r - 1))).

(** [arr.findIndex(p)]: the index of the first element that satisfies
    [p], and -1 when there is none. *)
Fixpoint findIndex_from {A : Type} (p : A -> bool) (i : Z) (l : list A) : Z :=
  match l with
  | [] => -1
  | x :: l' => if p x then i else findIndex_from p (i + 1) l'
  end.

Definition findIndex {A : Type} (p : A -> bool) (l : list A) : Z :=
  findIndex_from p 0 l.

(** [arr[i]] *)
Definition at_index (arr : list val) (i : nat) : val := nth i arr VUndef.

(** Comparison of two [Date] objects: each is converted to its time
    value, and every comparison with [NaN] is false. *)
Definition date_ge (a b : option Z) : bool :=
  match a, b with
  | Some x, Some y => (y <=? x)%Z
  | _, _ => false
  end.

Definition date_le (a b : option Z) : bool := date_ge b a.

Section WithRuntime.

Variable rt : Runtime.

(** [Number(v)] *)
Definition Number (v : val) : num :=
  match v with
  | VUndef => NaN
  | VNull => Fin 0
  | VBool b => Fin (if b then 1 else 0)
  | VNum n => n
  | VStr s => string_to_number rt s
  | VDate (Some t) => Fin t
  | VDate None => NaN
  end.

(** [parseInt(v)]: the value is first turned into a string; the string
    of a number is its notation, and the strings of the other values that are
    not strings start with a letter. *)
Definition parseInt (v : val) : num :=
  match v with
  | VNum (Fin z) => Number_parseInt z
  | VStr s => string_parse_int rt s
  | _ => NaN
  end.

(** [new Date(v)], as the time value of the new object. *)
Definition new_Date (v : val) : option Z :=
  match v with
  | VDate t => t
  | VStr s => date_parse rt s
  | VNum (Fin z) =>
      if (Z.abs z <=? 8640000000000000)%Z then Some z else None
  | VNum _ => None
  | VUndef => None
  | VNull => Some 0
  | VBool b => Some (if b then 1 else 0)
  end.

End WithRuntime.

End JS.

Import JS.

(* ================================================================== *)
(** ** The sheet [tbl_coaching_expectations] *)
(* ================================================================== *)

(** One row of the sheet: thirteen columns, numbered from 1 as the
    spreadsheet service numbers them. *)
Record Row : Type := {
  r_id : val;                (* column 1  (row[0]) *)
  r_resourceId : val;        (* column 2  (row[1]) *)
  r_performance : val;       (* column 3 *)
  r_oneToOne : val;          (* column 4 *)
  r_sideBySide : val;        (* column 5 *)
  r_startDate : val;         (* column 6  (row[5]) *)
  r_endDate : val;           (* column 7  (row[6]) *)
  r_expectationType : val;   (* column 8  (row[7]) *)
  r_active : val;            (* column 9  (row[8]) *)
  r_createdBy : val;         (* column 10 *)
  r_createdDate : val;       (* column 11 *)
  r_modifiedBy : val;        (* column 12 *)
  r_modifiedDate : val       (* column 13 *)
}.

(** An empty cell reads as the empty string. *)
Definition blank : val := VStr "".

Definition blank_row : Row :=
  {| r_id := blank; r_resourceId := blank; r_performance := blank;
     r_oneToOne := blank; r_sideBySide := blank; r_startDate := blank;
     r_endDate := blank; r_expectationType := blank; r_active := blank;
     r_createdBy := blank; r_createdDate := blank; r_modifiedBy := blank;
     r_modifiedDate := blank |}.

Definition get_cell (r : Row) (col : Z) : val :=
  match col with
  | 1 => r_id r
  | 2 => r_resourceId r
  | 3 => r_performance r
  | 4 => r_oneToOne r
  | 5 => r_sideBySide r
  | 6 => r_startDate r
  | 7 => r_endDate r
  | 8 => r_expectationType r
  | 9 => r_active r
  | 10 => r_createdBy r
  | 11 => r_createdDate r
  | 12 => r_modifiedBy r
  | 13 => r_modifiedDate r
  | _ => blank
  end.

Definition set_cell (col : Z) (v : val) (r : Row) : Row :=
  let f (c : Z) : val := if (c =? col)%Z then v else get_cell r c in
  {| r_id := f 1; r_resourceId := f 2; r_performance := f 3;
     r_oneToOne := f 4; r_sideBySide := f 5; r_startDate := f 6;
     r_endDate := f 7; r_expectationType := f 8; r_active := f 9;
     r_createdBy := f 10; r_createdDate := f 11; r_modifiedBy := f 12;
     r_modifiedDate := f 13 |}.

(** Writing the values [vs] into a row from column [col] on. *)
Fixpoint set_cells (col : Z) (vs : list val) (r : Row) : Row :=
  match vs with
  | [] => r
  | v :: vs' => set_cells (col + 1) vs' (set_cell col v r)
  end.

(** The cells of a row from column [col] on, [n] of them. *)
Definition cells (r : Row) (col : Z) (n : nat) : list val :=
  map (fun j => get_cell r (col + Z.of_nat j)) (seq 0 n).

(** The sheet is the list of its rows down to the last row with content:
    row [n] of the spreadsheet is at index [n - 1].  The first two rows are
    headers (the code reads data from row 3 on). *)
Abbreviation Sheet := (list Row).

Definition HEADER_ROWS : nat := 2.

(** The expectations that the sheet stores. *)
Definition expectations (s : Sheet) : list Row := drop HEADER_ROWS s.

(** Row [n] of the grid; below the last row the grid is blank. *)
Definition sheet_row (s : Sheet) (n : Z) : Row :=
  default blank_row (s !! Z.to_nat (n - 1)).

(** [sheet.getLastRow()] *)
Definition lastRow (s : Sheet) : Z := Z.of_nat (List.length s).

(** The values of the range of [numRows] rows and [numCols] columns whose
    top left cell is at ([row], [col]). *)
Definition range_values (s : Sheet) (row col numRows numCols : Z)
  : list (list val) :=
  map (fun i => cells (sheet_row s (row + Z.of_nat i)) col (Z.to_nat numCols))
      (seq 0 (Z.to_nat numRows)).

(** Replacing row [n] of the grid by its image under [f]; rows that the
    write skips over come into being blank. *)
Definition write_row (s : Sheet) (n : Z) (f : Row -> Row) : Sheet :=
  let i := Z.to_nat (n - 1) in
  match s !! i with
  | Some r => <[i := f r]> s
  | None => s ++ replicate (i - List.length s)%nat blank_row ++ [f blank_row]
  end.

(* ================================================================== *)
(** ** Calls of the services, errors, and the monad of the script *)
(* ================================================================== *)

(** The calls a run makes, in the order it makes them. *)
Inductive Event : Type :=
| EGetLastRow
| EGetValues (row col numRows numCols : Z)
| ESetValue (row col : Z) (v : val)
| ESetValues (row col : Z) (vs : list val)
| EAppendRow (vs : list val)
| EWaitLock (timeoutInMillis : Z)
| EReleaseLock.

Inductive Operation : Type := OpAdd | OpUpdate | OpStatus.

(** The errors a run can end with. *)
Inductive Error : Type :=
| ValidationFailed
    (* 'Validation failed.' *)
| ConflictingExpectation (op : Operation) (forId : val) (conflictingId : val)
    (* 'Could not ... for ID: forId due to conflicting expectation.
        Search id{conflictingId}' *)
| ExpectationNotFound (expectationId : val)
    (* 'Expectation ID (expectationId) not found.' *)
| EmployeeIdNotFound
    (* 'Employee ID not found.' *)
| RangeException
    (* the spreadsheet service refuses a range without rows or columns *)
| LockTimeout.
    (* waitLock did not obtain the lock in time *)

Inductive Result (A : Type) : Type :=
| Ok (a : A)
| Throw (e : Error).

Arguments Ok {A} a.
Arguments Throw {A} e.

Record World : Type := {
  sheet : Sheet;
  trace : list Event
}.

Definition M (A : Type) : Type := World -> Result A * World.

#[global] Instance M_ret : MRet M := fun A a w => (Ok a, w).

#[global] Instance M_bind : MBind M := fun A B f m w =>
  match m w with
  | (Ok a, w') => f a w'
  | (Throw e, w') => (Throw e, w')
  end.

Definition throw {A : Type} (e : Error) : M A := fun w => (Throw e, w).

(** The world after one more call. *)
Definition record (e : Event) (w : World) : World :=
  {| sheet := sheet w; trace := trace w ++ [e] |}.

Definition with_sheet (s : Sheet) (w : World) : World :=
  {| sheet := s; trace := trace w |}.

(** [sheet.getLastRow()] *)
Definition getLastRow : M Z := fun w =>
  (Ok (lastRow (sheet w)), record EGetLastRow w).

(** [sheet.getRange(row, col, numRows, numCols).getValues()].  The service
    raises an exception for a range that starts before row 1 or column 1, or
    that has no row or no column. *)
Definition getValues (row col numRows numCols : Z) : M (list (list val)) :=
  fun w =>
    if (1 <=? row) && (1 <=? col) && (1 <=? numRows) && (1 <=? numCols)
    then (Ok (range_values (sheet w) row col numRows numCols),
          record (EGetValues row col numRows numCols) w)
    else (Throw RangeException, w).

(** [sheet.getRange(row, col).setValue(v)] *)
Definition setValue (row col : Z) (v : val) : M unit := fun w =>
  if (1 <=? row) && (1 <=? col)
  then (Ok tt, record (ESetValue row col v)
                 (with_sheet (write_row (sheet w) row (set_cell col v)) w))
  else (Throw RangeException, w).

(** [sheet.getRange(row, col, 1, vs.length).setValues([vs])] *)
Definition setValues (row col : Z) (vs : list val) : M unit := fun w =>
  if (1 <=? row) && (1 <=? col) && (1 <=? Z.of_nat (List.length vs))
  then (Ok tt, record (ESetValues row col vs)
                 (with_sheet (write_row (sheet w) row (set_cells col vs)) w))
  else (Throw RangeException, w).

(** [sheet.appendRow(vs)]: a new row below the last row with content. *)
Definition appendRow (vs : list val) : M unit := fun w =>
  (Ok tt, record (EAppendRow vs)
            (with_sheet (sheet w ++ [set_cells 1 vs blank_row]) w)).

(** A call of an [async] function whose promise nobody awaits: the body
    runs, and a rejection is lost. *)
Definition not_awaited (m : M unit) : M unit := fun w =>
  match m w with
  | (_, w') => (Ok tt, w')
  end.

(* ================================================================== *)
(** ** The expectation code *)
(* ================================================================== *)

(** The object a caller passes to the add and update operations. *)
Record Expectation : Type := {
  resourceId : val;
  performance : val;
  oneToOne : val;
  sideBySide : val;
  startDate : val;
  endDate : val;
  expectationType : val;
  active : val
}.

(** A parameter with a default value takes it when the argument is
    missing, that is [undefined]. *)
Definition or_default (arg dflt : val) : val :=
  match arg with VUndef => dflt | _ => arg end.

Definition minus_one : val := VNum (Fin (-1)).

(** The test of [checkForOverlap] on the dates of the new expectation and
    of an existing row. *)
Definition overlap_test (newStartDate newEndDate existingStartDate existingEndDate : option Z)
  : bool :=
  (date_ge newStartDate existingStartDate && date_le newStartDate existingEndDate)
  || (date_ge newEndDate existingStartDate && date_le newEndDate existingEndDate)
  || (date_le newStartDate existingStartDate && date_ge newEndDate existingEndDate).

Section Script.

Variable rt : Runtime.

(** [getUserEmID]: the employee id of the signed-in user, looked up in
    the sheet of employees (another sheet, whose reads are not traced). *)
Definition getUserEmID : M val :=
  let emID := employee_id rt in
  if negb (truthy emID) then throw EmployeeIdNotFound else mret emID.

(** [updateModifiedBy(sheet, rowToEdit, emIdColumn, dateColumn)] *)
Definition updateModifiedBy (rowToEdit emIdColumn dateColumn : Z) : M unit :=
  let currentDate := VStr (today rt) in
  emId ← getUserEmID;
  setValue rowToEdit emIdColumn emId;;
  setValue rowToEdit dateColumn currentDate.

(** [validateExpectation(expectation)] *)
Definition validateExpectation (expectation : Expectation) : M unit :=
  if typeof_number (performance expectation) && ge0 (performance expectation)
     && typeof_number (oneToOne expectation) && ge0 (oneToOne expectation)
     && typeof_number (sideBySide expectation) && ge0 (sideBySide expectation)
     && date_ge (new_Date rt (startDate expectation))
                (new_Date rt (VStr "1/1/1990"))
     && date_le (new_Date rt (endDate expectation))
                (new_Date rt (VStr "12/31/3000"))
     && date_ge (new_Date rt (endDate expectation))
                (new_Date rt (startDate expectation))
  then mret tt
  else throw ValidationFailed.

(** The loop of [checkForOverlap] over the rows it has read. *)
Fixpoint checkForOverlap_loop (resourceId expectationType : val)
    (newStartDate newEndDate : option Z) (newIgnoreId : num)
    (data : list (list val)) : val :=
  match data with
  | [] => minus_one
  | row :: rest =>
      let expectationId := at_index row 0 in
      let existingResourceId := at_index row 1 in
      let existingStartDate := new_Date rt (at_index row 5) in
      let existingEndDate := new_Date rt (at_index row 6) in
      let existingExpectationType := at_index row 7 in
      let isActive := at_index row 8 in
      if truthy isActive
         && strict_eq existingResourceId resourceId
         && strict_eq existingExpectationType expectationType
         && strict_neq expectationId (VNum newIgnoreId)
         && overlap_test newStartDate newEndDate existingStartDate existingEndDate
      then expectationId
      else checkForOverlap_loop resourceId expectationType
             newStartDate newEndDate newIgnoreId rest
  end.

(** [checkForOverlap(resourceId, expectationType, startDate, endDate,
    ignoreId = -1)] *)
Definition checkForOverlap (resourceId expectationType startDate endDate ignoreId : val)
  : M val :=
  let ignoreId := or_default ignoreId minus_one in
  last ← getLastRow;
  data ← getValues 3 1 (last - 2) 9;
  let newIgnoreId := parseInt rt ignoreId in
  let newStartDate := new_Date rt startDate in
  let newEndDate := new_Date rt endDate in
  mret (checkForOverlap_loop resourceId expectationType
          newStartDate newEndDate newIgnoreId data).

(** [sheet.getRange(3, 1, sheet.getLastRow() - 2).getValues().flat()] *)
Definition read_idColumn : M (list val) :=
  last ← getLastRow;
  values ← getValues 3 1 (last - 2) 1;
  mret (concat values).

(** [idColumn.findIndex(id => Number(id) === Number(expectationId)) + 3] *)
Definition find_rowToEdit (idColumn : list val) (expectationId : val) : Z :=
  findIndex (fun id => num_eqb (Number rt id) (Number rt expectationId)) idColumn + 3.

(** [addNewExpectation(expectation)] *)
Definition addNewExpectation (expectation : Expectation) : M val :=
  isValid ← checkForOverlap (resourceId expectation) (expectationType expectation)
              (startDate expectation) (endDate expectation) VUndef;
  if strict_neq isValid minus_one
  then throw (ConflictingExpectation OpAdd (resourceId expectation) isValid)
  else
    idColumn ← read_idColumn;
    let newId := VNum (add1 (Math_max (map (Number rt) idColumn))) in
    let newRow :=
      [newId; resourceId expectation; performance expectation;
       oneToOne expectation; sideBySide expectation; startDate expectation;
       endDate expectation; expectationType expectation; active expectation] in
    appendRow newRow;;
    last ← getLastRow;
    not_awaited (updateModifiedBy last 10 11);;
    mret newId.

(** [updateExpectationData(expectationId, expectation)] *)
Definition updateExpectationData (expectationId : val) (expectation : Expectation)
  : M unit :=
  validateExpectation expectation;;
  idColumn ← read_idColumn;
  let rowToEdit := find_rowToEdit idColumn expectationId in
  if 3 <=? rowToEdit
  then
    let updatedRow :=
      [resourceId expectation; performance expectation; oneToOne expectation;
       sideBySide expectation; startDate expectation; endDate expectation;
       expectationType expectation; active expectation] in
    isValid ← checkForOverlap (resourceId expectation) (expectationType expectation)
                (startDate expectation) (endDate expectation) expectationId;
    if strict_neq isValid minus_one
    then throw (ConflictingExpectation OpUpdate (resourceId expectation) isValid)
    else
      setValues rowToEdit 2 updatedRow;;
      not_awaited (updateModifiedBy rowToEdit 12 13)
  else throw (ExpectationNotFound expectationId).

(** [setExpectationStatus(expectationId, isActive)] *)
Definition setExpectationStatus (expectationId isActive : val) : M unit :=
  idColumn ← read_idColumn;
  let rowToEdit := find_rowToEdit idColumn expectationId in
  (if truthy isActive
   then
     expectationDetails ← getValues rowToEdit 2 1 7;
     let details := nth 0 expectationDetails [] in
     isValid ← checkForOverlap (at_index details 0) (at_index details 6)
                 (at_index details 4) (at_index details 5) VUndef;
     if strict_neq isValid minus_one
     then throw (ConflictingExpectation OpStatus (at_index details 0) isValid)
     else mret tt
   else mret tt);;
  if 3 <=? rowToEdit
  then
    setValue rowToEdit 9 isActive;;
    not_awaited (updateModifiedBy rowToEdit 12 13)
  else throw (ExpectationNotFound expectationId).

(** *** The lock of [Coaching Config Sheet/APIv1.js] *)

Definition LOCK_WAIT_TIME : Z := 180000.

(** [_withLock(callback)]: wait for the script lock, run the callback,
    and release the lock whatever happened. *)
Definition _withLock {A : Type} (callback : M A) : M A := fun w =>
  let w1 := record (EWaitLock LOCK_WAIT_TIME) w in
  if lock_obtainable rt
  then
    match callback w1 with
    | (r, w2) => (r, record EReleaseLock w2)
    end
  else (Throw LockTimeout, record EReleaseLock w1).

(** [_addRow(sheet, data)]: the promise of [_withLock] is neither returned
    nor awaited. *)
Definition _addRow (data : list val) : M unit :=
  not_awaited (_withLock (appendRow data)).

End Script.

(** *** Reading a trace *)

(** Does every access to the sheet in the trace happen between a
    [waitLock] and the [releaseLock] that follows it?  [held] tells whether
    the lock is held when the trace starts. *)
Fixpoint under_lock (held : bool) (tr : list Event) : bool :=
  match tr with
  | [] => true
  | EWaitLock _ :: tr' => under_lock true tr'
  | EReleaseLock :: tr' => under_lock false tr'
  | _ :: tr' => held && under_lock held tr'
  end.

(** A world with the given sheet and nothing done yet. *)
Definition start (s : Sheet) : World := {| sheet := s; trace := [] |}.

(** The outcome, the final sheet and the calls of running [m] on [s]. *)
Definition outcome {A : Type} (m : M A) (s : Sheet) : Result A := fst (m (start s)).
Definition sheet_after {A : Type} (m : M A) (s : Sheet) : Sheet := sheet (snd (m (start s))).
Definition calls {A : Type} (m : M A) (s : Sheet) : list Event := trace (snd (m (start s))).

(* ================================================================== *)
(** ** A runtime to run the code on *)
(* ================================================================== *)

(** A runtime in the time zone UTC that understands plain decimal
    notation and the date notations [M/D/YYYY] and [YYYY-MM-DD].  The
    examples run on it; the theorems do not depend on it. *)
Module Demo.

Definition digit_of (c : Ascii.ascii) : option Z :=
  let n := Z.of_nat (Ascii.nat_of_ascii c) in
  if (48 <=? n) && (n <=? 57) then Some (n - 48) else None.

Fixpoint digits_from (acc : Z) (s : string) : option Z :=
  match s with
  | EmptyString => Some acc
  | String c s' =>
      match digit_of c with
      | Some d => digits_from (10 * acc + d) s'
      | None => None
      end
  end.

(** The number a non-empty string of digits denotes. *)
Definition natural (s : string) : option Z :=
  match s with
  | EmptyString => None
  | _ => digits_from 0 s
  end.

Definition integer (s : string) : option Z :=
  match s with
  | String "-" s' => Z.opp <$> natural s'
  | _ => natural s
  end.

Fixpoint leading_digits (s : string) : string :=
  match s with
  | EmptyString => EmptyString
  | String c s' =>
      match digit_of c with
      | Some _ => String c (leading_digits s')
      | None => EmptyString
      end
  end.

Fixpoint split_on (sep : Ascii.ascii) (s : string) : list string :=
  match s with
  | EmptyString => [EmptyString]
  | String c s' =>
      let parts := split_on sep s' in
      if Ascii.eqb c sep then EmptyString :: parts
      else match parts with
           | p :: ps => String c p :: ps
           | [] => [String c EmptyString]
           end
  end.

(** Days between 1970-01-01 and the given day of the civil calendar. *)
Definition days_from_civil (y m d : Z) : Z :=
  let y' := if m <=? 2 then y - 1 else y in
  let era := y' / 400 in
  let yoe := y' - era * 400 in
  let doy := (153 * (m + (if 2 <? m then -3 else 9)) + 2) / 5 + d - 1 in
  let doe := yoe * 365 + yoe / 4 - yoe / 100 + doy in
  era * 146097 + doe - 719468.

Definition ms_per_day : Z := 86400000.

Definition civil (y m d : Z) : option Z :=
  if (1 <=? m) && (m <=? 12) && (1 <=? d) && (d <=? 31)
  then Some (days_from_civil y m d * ms_per_day)
  else None.

Definition parse_date (s : string) : option Z :=
  match split_on "/" s with
  | [m; d; y] =>
      m ← natural m; d ← natural d; y ← natural y; civil y m d
  | _ =>
      match split_on "-" s with
      | [y; m; d] =>
          y ← natural y; m ← natural m; d ← natural d; civil y m d
      | _ => None
      end
  end.

Definition to_number (s : string) : num :=
  match s with
  | EmptyString => Fin 0
  | _ => match integer s with Some z => Fin z | None => NaN end
  end.

Definition parse_int (s : string) : num :=
  match s with
  | String "-" s' =>
      match natural (leading_digits s') with
      | Some z => Fin (- z)
      | None => NaN
      end
  | _ =>
      match natural (leading_digits s) with
      | Some z => Fin z
      | None => NaN
      end
  end.

(** Employee 7 is signed in on 2024-03-01, and the lock is free. *)
Definition runtime : Runtime :=
  {| string_to_number := to_number;
     string_parse_int := parse_int;
     date_parse := parse_date;
     employee_id := VNum (Fin 7);
     today := "2024-03-01";
     lock_obtainable := true |}.

(** The values of a few dates. *)
Definition date (y m d : Z) : val := VDate (civil y m d).

Definition header : Row :=
  {| r_id := VStr "id"; r_resourceId := VStr "resource_id";
     r_performance := VStr "performance"; r_oneToOne := VStr "one_to_one";
     r_sideBySide := VStr "side_by_side"; r_startDate := VStr "start_date";
     r_endDate := VStr "end_date"; r_expectationType := VStr "expectation_type";
     r_active := VStr "active"; r_createdBy := VStr "created_by";
     r_createdDate := VStr "created_date"; r_modifiedBy := VStr "modified_by";
     r_modifiedDate := VStr "modified_date" |}.

(** A stored expectation without cadence counts and audit cells. *)
Definition stored (id resource : Z) (type : string) (start finish act : val) : Row :=
  {| r_id := VNum (Fin id); r_resourceId := VNum (Fin resource);
     r_performance := VNum (Fin 0); r_oneToOne := VNum (Fin 1);
     r_sideBySide := VNum (Fin 0); r_startDate := start; r_endDate := finish;
     r_expectationType := VStr type; r_active := act;
     r_createdBy := VNum (Fin 7); r_createdDate := VStr "2024-01-01";
     r_modifiedBy := blank; r_modifiedDate := blank |}.

(** The object a client sends. *)
Definition candidate (resource : Z) (type : string) (start finish act : val)
  : Expectation :=
  {| resourceId := VNum (Fin resource); performance := VNum (Fin 0);
     oneToOne := VNum (Fin 1); sideBySide := VNum (Fin 0);
     startDate := start; endDate := finish;
     expectationType := VStr type; active := act |}.

(** A sheet: the two header rows, then the given rows. *)
Definition sheet_of (rows : list Row) : Sheet := header :: header :: rows.

(** Expectation 1: agent 42, from 2024-01-01 to 2024-06-30, active. *)
Definition first_half : Row :=
  stored 1 42 "Agent" (date 2024 1 1) (date 2024 6 30) (VBool true).

(** Expectation 2: agent 42, from 2024-07-01 to 2024-12-31, active. *)
Definition second_half : Row :=
  stored 2 42 "Agent" (date 2024 7 1) (date 2024 12 31) (VBool true).

(** Expectation 3: agent 42, the whole of 2024, active: it overlaps
    expectations 1 and 2. *)
Definition whole_year : Row :=
  stored 3 42 "Agent" (date 2024 1 1) (date 2024 12 31) (VBool true).

(** Two rows that share the id 5, for the agents 41 and 42. *)
Definition twin_41 : Row :=
  stored 5 41 "Agent" (date 2024 1 1) (date 2024 6 30) (VBool true).
Definition twin_42 : Row :=
  stored 5 42 "Agent" (date 2024 1 1) (date 2024 6 30) (VBool true).

(** A row with the id -1. *)
Definition sentinel_row : Row :=
  stored (-1) 42 "Agent" (date 2024 1 1) (date 2024 6 30) (VBool true).

(** Expectation 10: agent 42, from 2024-07-01 to 2024-12-31, active. *)
Definition tenth : Row :=
  stored 10 42 "Agent" (date 2024 7 1) (date 2024 12 31) (VBool true).

(** Expectation 10^21: agent 42, from 2024-07-01 to 2024-12-31, active.
    The notation of its id is [1e+21]. *)
Definition sextillionth : Row :=
  stored 1000000000000000000000 42 "Agent" (date 2024 7 1) (date 2024 12 31)
    (VBool true).

(** The runtime, reading the string 1e1 as JavaScript does: [Number]
    takes the exponent and gives 10, [parseInt] stops at the letter and
    gives 1. *)
Definition runtime_with_exponent : Runtime :=
  {| string_to_number := fun s => if String.eqb s "1e1" then Fin 10 else to_number s;
     string_parse_int := parse_int;
     date_parse := parse_date;
     employee_id := VNum (Fin 7);
     today := "2024-03-01";
     lock_obtainable := true |}.

(** Candidates for agent 42. *)
Definition january_to_june : Expectation :=
  candidate 42 "Agent" (VStr "2024-01-01") (VStr "2024-06-30") (VBool true).
Definition march_to_april : Expectation :=
  candidate 42 "Agent" (VStr "2024-03-01") (VStr "2024-04-30") (VBool true).
Definition july_to_december : Expectation :=
  candidate 42 "Agent" (VStr "2024-07-01") (VStr "2024-12-31") (VBool true).
Definition year_2025 : Expectation :=
  candidate 42 "Agent" (VStr "2025-01-01") (VStr "2025-12-31") (VBool true).

(** Candidates that start the day before 1990 begins, end the day after
    3000 ends, or give a count as a text. *)
Definition starts_in_1989 : Expectation :=
  candidate 42 "Agent" (VStr "1989-12-31") (VStr "2025-12-31") (VBool true).
Definition ends_in_3001 : Expectation :=
  candidate 42 "Agent" (VStr "2025-01-01") (VStr "3001-01-01") (VBool true).
Definition count_as_text : Expectation :=
  {| resourceId := VNum (Fin 42); performance := VNum (Fin 0);
     oneToOne := VStr "1"; sideBySide := VNum (Fin 0);
     startDate := VStr "2025-01-01"; endDate := VStr "2025-12-31";
     expectationType := VStr "Agent"; active := VBool true |}.

(** A candidate with a negative count, and one that ends before it
    starts. *)
Definition negative_count : Expectation :=
  {| resourceId := VNum (Fin 42); performance := VNum (Fin (-1));
     oneToOne := VNum (Fin 1); sideBySide := VNum (Fin 0);
     startDate := VStr "2025-01-01"; endDate := VStr "2025-12-31";
     expectationType := VStr "Agent"; active := VBool true |}.
Definition ends_before_start : Expectation :=
  candidate 42 "Agent" (VStr "2025-12-31") (VStr "2025-01-01") (VBool true).

End Demo.

(* ================================================================== *)
(** ** What the claims speak of *)
(* ================================================================== *)

(** The rows that [checkForOverlap] compares a new expectation with. *)
Definition conflicts (rt : Runtime) (resourceId expectationType : val)
    (newStartDate newEndDate : option Z) (newIgnoreId : num) (r : Row) : bool :=
  truthy (r_active r)
  && strict_eq (r_resourceId r) resourceId
  && strict_eq (r_expectationType r) expectationType
  && strict_neq (r_id r) (VNum newIgnoreId)
  && overlap_test newStartDate newEndDate
       (new_Date rt (r_startDate r)) (new_Date rt (r_endDate r)).

(** The id of the first row that conflicts, -1 when there is none. *)
Definition first_conflict (rt : Runtime) (resourceId expectationType : val)
    (newStartDate newEndDate : option Z) (newIgnoreId : num) (rows : list Row) : val :=
  match List.find (conflicts rt resourceId expectationType
                     newStartDate newEndDate newIgnoreId) rows with
  | Some r => r_id r
  | None => minus_one
  end.

(** Two inclusive intervals of dates intersect when a date lies in both.
    An invalid date bounds no interval. *)
Definition intersecting (start1 end1 start2 end2 : option Z) : Prop :=
  exists a b c d t : Z,
    start1 = Some a /\ end1 = Some b /\ start2 = Some c /\ end2 = Some d /\
    a <= t <= b /\ c <= t <= d.

(** The dates of a row are in order when, both being valid, the start is
    not after the end. *)
Definition in_order (start finish : option Z) : Prop :=
  forall a b : Z, start = Some a -> finish = Some b -> a <= b.

Definition row_in_order (rt : Runtime) (r : Row) : Prop :=
  in_order (new_Date rt (r_startDate r)) (new_Date rt (r_endDate r)).

(** Two rows are for the same resource and of the same type. *)
Definition same_target (a b : Row) : bool :=
  strict_eq (r_resourceId a) (r_resourceId b)
  && strict_eq (r_expectationType a) (r_expectationType b).

Definition rows_intersect (rt : Runtime) (a b : Row) : Prop :=
  intersecting (new_Date rt (r_startDate a)) (new_Date rt (r_endDate a))
               (new_Date rt (r_startDate b)) (new_Date rt (r_endDate b)).

(** The invariant of the store: no two active expectations for the same
    resource and of the same type have intersecting intervals. *)
Definition no_overlap (rt : Runtime) (rows : list Row) : Prop :=
  forall (i j : nat) (a b : Row),
    i <> j -> rows !! i = Some a -> rows !! j = Some b ->
    truthy (r_active a) = true -> truthy (r_active b) = true ->
    same_target a b = true ->
    ~ rows_intersect rt a b.

(** No two rows have ids that are the same number. *)
Definition distinct_ids (rt : Runtime) (rows : list Row) : Prop :=
  forall (i j : nat) (a b : Row),
    i <> j -> rows !! i = Some a -> rows !! j = Some b ->
    num_eqb (Number rt (r_id a)) (Number rt (r_id b)) = false.

(** No row has the id -1, which [checkForOverlap] uses for "nothing to
    ignore" and for "no conflict". *)
Definition no_sentinel_id (rows : list Row) : Prop :=
  Forall (fun r => strict_eq (r_id r) minus_one = false) rows.

(** Does the call read the nine columns that [checkForOverlap] reads? *)
Definition is_overlap_read (e : Event) : bool :=
  match e with
  | EGetValues 3 1 _ 9 => true
  | _ => false
  end.

(** The candidate passes the checks of the validator. *)
Definition valid_fields (rt : Runtime) (e : Expectation) : Prop :=
  (exists n, performance e = VNum n /\ num_ge0 n = true) /\
  (exists n, oneToOne e = VNum n /\ num_ge0 n = true) /\
  (exists n, sideBySide e = VNum n /\ num_ge0 n = true) /\
  (exists s lo, new_Date rt (startDate e) = Some s /\
                new_Date rt (VStr "1/1/1990") = Some lo /\ lo <= s) /\
  (exists f hi, new_Date rt (endDate e) = Some f /\
                new_Date rt (VStr "12/31/3000") = Some hi /\ f <= hi) /\
  (exists s f, new_Date rt (startDate e) = Some s /\
               new_Date rt (endDate e) = Some f /\ s <= f).


(** The world after the two calls by which a function reads the rows below
    the headers. *)
Definition after_read (numCols : Z) (w : World) : World :=
  record (EGetValues 3 1 (lastRow (sheet w) - 2) numCols) (record EGetLastRow w).

(** A row is a conflict for a query when it is active, is for the same
    resource and of the same type, has another id than the one to ignore, and
    its interval intersects the interval of the query. *)
Definition is_conflict (rt : Runtime) (resourceId expectationType : val)
    (newStartDate newEndDate : option Z) (excludeId : val) (r : Row) : Prop :=
  truthy (r_active r) = true /\
  strict_eq (r_resourceId r) resourceId = true /\
  strict_eq (r_expectationType r) expectationType = true /\
  strict_neq (r_id r) (VNum (parseInt rt (or_default excludeId minus_one))) = true /\
  intersecting newStartDate newEndDate
    (new_Date rt (r_startDate r)) (new_Date rt (r_endDate r)).

(** The condition of [validateExpectation]. *)
Definition validation_condition (rt : Runtime) (e : Expectation) : bool :=
  typeof_number (performance e) && ge0 (performance e)
  && typeof_number (oneToOne e) && ge0 (oneToOne e)
  && typeof_number (sideBySide e) && ge0 (sideBySide e)
  && date_ge (new_Date rt (startDate e)) (new_Date rt (VStr "1/1/1990"))
  && date_le (new_Date rt (endDate e)) (new_Date rt (VStr "12/31/3000"))
  && date_ge (new_Date rt (endDate e)) (new_Date rt (startDate e)).

(** The world after [updateModifiedBy] has run without being awaited. *)
Definition stamp (rt : Runtime) (rowToEdit emIdColumn dateColumn : Z) (w : World)
  : World :=
  snd (not_awaited (updateModifiedBy rt rowToEdit emIdColumn dateColumn) w).

(** What [updateModifiedBy] does to the row it edits. *)
Definition stamp_row (rt : Runtime) (emIdColumn dateColumn : Z) (r : Row) : Row :=
  if truthy (employee_id rt)
  then set_cell dateColumn (VStr (today rt)) (set_cell emIdColumn (employee_id rt) r)
  else r.

(** The cells that the overlap check and the search by id read. *)
Definition core (r : Row) : list val := cells r 1 9.

(** The values that [addNewExpectation] appends for the id [newId]. *)
Definition newRow_of (newId : val) (e : Expectation) : list val :=
  [newId; resourceId e; performance e; oneToOne e; sideBySide e;
   startDate e; endDate e; expectationType e; active e].

(** The values that [updateExpectationData] writes from column 2 on. *)
Definition updatedRow_of (e : Expectation) : list val :=
  [resourceId e; performance e; oneToOne e; sideBySide e;
   startDate e; endDate e; expectationType e; active e].

(** The id that [addNewExpectation] computes from the column of ids. *)
Definition newId_of (rt : Runtime) (rows : list Row) : val :=
  VNum (add1 (Math_max (map (Number rt) (map r_id rows)))).

(** The conflict that [addNewExpectation] looks for. *)
Definition add_conflict (rt : Runtime) (e : Expectation) (rows : list Row) : val :=
  first_conflict rt (resourceId e) (expectationType e)
    (new_Date rt (startDate e)) (new_Date rt (endDate e)) (Fin (-1)) rows.

(** The conflict that [updateExpectationData] looks for. *)
Definition update_conflict (rt : Runtime) (expectationId : val) (e : Expectation)
    (rows : list Row) : val :=
  first_conflict rt (resourceId e) (expectationType e)
    (new_Date rt (startDate e)) (new_Date rt (endDate e))
    (parseInt rt (or_default expectationId minus_one)) rows.

(** The conflict that [setExpectationStatus] looks for, for the row [r] that
    it read the details of. *)
Definition status_conflict (rt : Runtime) (r : Row) (rows : list Row) : val :=
  first_conflict rt (r_resourceId r) (r_expectationType r)
    (new_Date rt (r_startDate r)) (new_Date rt (r_endDate r)) (Fin (-1)) rows.

(** The calls of [updateModifiedBy]. *)
Definition stamp_calls (rt : Runtime) (rowToEdit emIdColumn dateColumn : Z)
  : list Event :=
  if truthy (employee_id rt)
  then [ESetValue rowToEdit emIdColumn (employee_id rt);
        ESetValue rowToEdit dateColumn (VStr (today rt))]
  else [].

(** The row [c] is clear of the row [a]: if both are active, for the same
    resource and of the same type, their intervals do not intersect. *)
Definition clear_of (rt : Runtime) (c a : Row) : Prop :=
  truthy (r_active a) = true -> truthy (r_active c) = true ->
  same_target a c = true -> ~ rows_intersect rt a c.

(** The id argument is read alike by [parseInt] and [Number], or is not
    read as a number by [parseInt] at all. *)
Definition id_read_alike (rt : Runtime) (expectationId : val) : Prop :=
  parseInt rt expectationId = Number rt expectationId \/
  parseInt rt expectationId = NaN.

(** The ids of the rows are distinct integers, none of them negative. *)
Definition proper_ids (rows : list Row) : Prop :=
  exists ids : list Z,
    map r_id rows = map (fun z => VNum (Fin z)) ids /\
    NoDup ids /\ Forall (fun z => 0 <= z) ids.

(* ================================================================== *)
(** ** The rows that the three operations leave behind *)
(* ================================================================== *)

(** The employee id and the date that [updateModifiedBy] writes, or what
    the cells held when the user has no employee id. *)
Definition stamped_by (rt : Runtime) (before : val) : val :=
  if truthy (employee_id rt) then employee_id rt else before.

Definition stamped_on (rt : Runtime) (before : val) : val :=
  if truthy (employee_id rt) then VStr (today rt) else before.

(** The row of a new expectation. *)
Definition added_row (rt : Runtime) (newId : val) (e : Expectation) : Row :=
  {| r_id := newId;
     r_resourceId := resourceId e;
     r_performance := performance e;
     r_oneToOne := oneToOne e;
     r_sideBySide := sideBySide e;
     r_startDate := startDate e;
     r_endDate := endDate e;
     r_expectationType := expectationType e;
     r_active := active e;
     r_createdBy := stamped_by rt blank;
     r_createdDate := stamped_on rt blank;
     r_modifiedBy := blank;
     r_modifiedDate := blank |}.

(** The row [r] after an update with the candidate [e]. *)
Definition updated_row (rt : Runtime) (e : Expectation) (r : Row) : Row :=
  {| r_id := r_id r;
     r_resourceId := resourceId e;
     r_performance := performance e;
     r_oneToOne := oneToOne e;
     r_sideBySide := sideBySide e;
     r_startDate := startDate e;
     r_endDate := endDate e;
     r_expectationType := expectationType e;
     r_active := active e;
     r_createdBy := r_createdBy r;
     r_createdDate := r_createdDate r;
     r_modifiedBy := stamped_by rt (r_modifiedBy r);
     r_modifiedDate := stamped_on rt (r_modifiedDate r) |}.

(** The row [r] after its status has been set to [isActive]. *)
Definition toggled_row (rt : Runtime) (isActive : val) (r : Row) : Row :=
  {| r_id := r_id r;
     r_resourceId := r_resourceId r;
     r_performance := r_performance r;
     r_oneToOne := r_oneToOne r;
     r_sideBySide := r_sideBySide r;
     r_startDate := r_startDate r;
     r_endDate := r_endDate r;
     r_expectationType := r_expectationType r;
     r_active := isActive;
     r_createdBy := r_createdBy r;
     r_createdDate := r_createdDate r;
     r_modifiedBy := stamped_by rt (r_modifiedBy r);
     r_modifiedDate := stamped_on rt (r_modifiedDate r) |}.

(** The row at index [i] of the expectations is the first whose id is the
    number that [expectationId] is. *)
Definition first_with_id (rt : Runtime) (expectationId : val) (rows : list Row)
    (i : nat) (r : Row) : Prop :=
  rows !! i = Some r /\
  num_eqb (Number rt (r_id r)) (Number rt expectationId) = true /\
  forall (j : nat) (r' : Row),
    (j < i)%nat -> rows !! j = Some r' ->
    num_eqb (Number rt (r_id r')) (Number rt expectationId) = false.

(** No row has an id that is the number that [expectationId] is. *)
Definition unknown_id (rt : Runtime) (expectationId : val) (rows : list Row) : Prop :=
  Forall (fun r => num_eqb (Number rt (r_id r)) (Number rt expectationId) = false) rows.

(** The two dates of the row are valid, and the start is not after the
    end. *)
Definition dated (rt : Runtime) (r : Row) : Prop :=
  exists a b : Z,
    new_Date rt (r_startDate r) = Some a /\
    new_Date rt (r_endDate r) = Some b /\ a <= b.

(** Expectation 2 of the examples with a text in the cell of its id. *)
Definition lettered : Row := set_cell 1 (VStr "A-2") Demo.second_half.



(* ================================================================== *)
(** ** The queue of [ServerQueueing.js] *)
(* ================================================================== *)

(** The client calls the operations through [enqueue], by name.  The two
    globals of the file are the state of the server next to the sheet. *)

(** The errors that [processQueue] throws: its own, and the error of the
    function it called, which it throws again. *)
Inductive QueueError : Type :=
| FunctionDoesNotExist (functionName : string)
    (* 'Function functionName does not exist.' *)
| Rethrown (error : Error).

Section Queue.

(** The arguments and the results of the functions of the script. *)
Variables Arg Ret : Type.

(** [this[functionName]], when it is a function: the functions of the
    script by name.  They work on the sheet, and do not call [enqueue]
    themselves. *)
Variable globals : string -> option (list Arg -> M Ret).

(** An entry of the queue: [{ functionName, params }]. *)
Record Call : Type := {
  functionName : string;
  params : list Arg
}.

Record Server : Type := {
  functionQueue : list Call;
  isProcessing : bool;
  world : World
}.

(** The loop of [processQueue]: take the first entry off the queue and
    call its function, until the queue is empty or a call fails.  The value
    that the function returns is not used. *)
Fixpoint processQueue_loop (queue : list Call) (w : World)
  : option QueueError * list Call * World :=
  match queue with
  | [] => (None, [], w)
  | call :: rest =>
      match globals (functionName call) with
      | Some f =>
          match f (params call) w with
          | (Ok _, w') => processQueue_loop rest w'
          | (Throw error, w') => (Some (Rethrown error), rest, w')
          end
      | None => (Some (FunctionDoesNotExist (functionName call)), rest, w)
      end
  end.

(** [processQueue()] *)
Definition processQueue (sv : Server) : option QueueError * Server :=
  match processQueue_loop (functionQueue sv) (world sv) with
  | (result, queue, w) =>
      (result,
       {| functionQueue := queue; isProcessing := isProcessing sv; world := w |})
  end.

(** [enqueue(functionName, ...params)]; [None] when it returns. *)
Definition enqueue (functionName : string) (params : list Arg) (sv : Server)
  : option QueueError * Server :=
  let pushed :=
    {| functionQueue :=
         functionQueue sv ++ [{| functionName := functionName; params := params |}];
       isProcessing := isProcessing sv;
       world := world sv |} in
  if negb (isProcessing pushed)
  then
    match processQueue {| functionQueue := functionQueue pushed;
                          isProcessing := true;
                          world := world pushed |} with
    | (None, sv') =>
        (None, {| functionQueue := functionQueue sv';
                  isProcessing := false;
                  world := world sv' |})
    | (Some error, sv') => (Some error, sv')
    end
  else (None, pushed).

(** One call of [enqueue] after the other, as long as they return. *)
Fixpoint enqueue_all (entries : list Call) (sv : Server) : option QueueError * Server :=
  match entries with
  | [] => (None, sv)
  | call :: rest =>
      match enqueue (functionName call) (params call) sv with
      | (None, sv') => enqueue_all rest sv'
      | (Some error, sv') => (Some error, sv')
      end
  end.

(** The server when the script starts: nothing queued, nothing being
    processed. *)
Definition idle (w : World) : Server :=
  {| functionQueue := []; isProcessing := false; world := w |}.

(** What the queue is for, said without the loop.  The functions of the
    entries are called one after the other, each on the sheet as the call
    before has left it, and all of them return. *)
Inductive all_return : list Call -> World -> World -> Prop :=
| all_return_nil (w : World) : all_return [] w w
| all_return_cons (call : Call) (rest : list Call) (f : list Arg -> M Ret)
    (v : Ret) (w w1 w2 : World) :
    globals (functionName call) = Some f ->
    f (params call) w = (Ok v, w1) ->
    all_return rest w1 w2 ->
    all_return (call :: rest) w w2.

(** The call of an entry fails: its name is no function of the script,
    and the sheet is untouched; or the function throws, and leaves the sheet
    as it does. *)
Inductive call_fails (call : Call) (w : World) : QueueError -> World -> Prop :=
| call_fails_no_function :
    globals (functionName call) = None ->
    call_fails call w (FunctionDoesNotExist (functionName call)) w
| call_fails_thrown (f : list Arg -> M Ret) (error : Error) (w' : World) :
    globals (functionName call) = Some f ->
    f (params call) w = (Throw error, w') ->
    call_fails call w (Rethrown error) w'.

End Queue.

Arguments functionName {Arg} c.
Arguments params {Arg} c.
Arguments functionQueue {Arg} s.
Arguments isProcessing {Arg} s.
Arguments world {Arg} s.
Arguments idle {Arg} w.
Arguments all_return {Arg Ret} globals queue w w'.
Arguments call_fails {Arg Ret} globals call w error w'.

(** Two of the functions of the script, for the examples: those that
    take values only.  The other functions of the script are not in this
    table. *)
Definition value_functions (rt : Runtime) (name : string)
  : option (list val -> M val) :=
  if String.eqb name "setExpectationStatus"
  then Some (fun ps =>
               setExpectationStatus rt (nth 0 ps VUndef) (nth 1 ps VUndef);;
               mret VUndef)
  else if String.eqb name "checkForOverlap"
  then Some (fun ps =>
               checkForOverlap rt (nth 0 ps VUndef) (nth 1 ps VUndef)
                 (nth 2 ps VUndef) (nth 3 ps VUndef) (nth 4 ps VUndef))
  else None.

(* ================================================================== *)
(** ** The users and their roles *)
(* ================================================================== *)

(** The roles of the users are kept in the script property [users], the
    JSON text of an object that has the email of a user as a key and the
    role as the value.  The object is modelled by the map of its own
    properties; writing the object as JSON and reading it back gives the
    same map.  The arguments of the functions are strings, as the client
    sends them. *)

(** [ROLES]: an owner, admins and editors.  There is no property
    [ROLES.VIEWER]. *)
Definition ROLES_OWNER : string := "owner".
Definition ROLES_ADMIN : string := "admin".
Definition ROLES_EDITOR : string := "editor".

(** [Object.values(ROLES)] *)
Definition ROLES_values : list string := [ROLES_OWNER; ROLES_ADMIN; ROLES_EDITOR].

Abbreviation Users := (gmap string string).

(** The properties that every object has from [Object.prototype]. *)
Definition Object_prototype : list string :=
  ["constructor"; "hasOwnProperty"; "isPrototypeOf"; "propertyIsEnumerable";
   "toLocaleString"; "toString"; "valueOf"; "__proto__";
   "__defineGetter__"; "__defineSetter__"; "__lookupGetter__"; "__lookupSetter__"].

Definition inherited (name : string) : bool :=
  existsb (String.eqb name) Object_prototype.

(** What reading a property of the object gives. *)
Inductive Looked : Type :=
| Role (role : string)        (* the string stored under the key *)
| Inherited (name : string)   (* the property of that name of [Object.prototype] *)
| Undefined.

(** [users[email]] *)
Definition get_user (users : Users) (email : string) : Looked :=
  match users !! email with
  | Some role => Role role
  | None => if inherited email then Inherited email else Undefined
  end.

(** [users[email] = role].  The key [__proto__], unless the object has it
    as a property of its own, names the setter of the prototype, which does
    nothing with a string. *)
Definition set_user (users : Users) (email role : string) : Users :=
  match users !! email with
  | Some _ => <[email := role]> users
  | None => if String.eqb email "__proto__" then users else <[email := role]> users
  end.

(** The condition of an [if] on what was read: an object is true, a
    string is true unless it is empty. *)
Definition truthy_looked (v : Looked) : bool :=
  match v with
  | Role role => negb (String.eqb role "")
  | Inherited _ => true
  | Undefined => false
  end.

(** [v === role], for a string [role]. *)
Definition looked_is (v : Looked) (role : string) : bool :=
  match v with
  | Role r => String.eqb r role
  | _ => false
  end.

Inductive UserError : Type :=
| EmailRequiredForAuthentication   (* 'Email is required for authentication' *)
| OnlyAdmins                       (* 'Only admins can perform this action' *)
| BothEmailAndRoleRequired         (* 'Both email and role are required' *)
| BothEmailAndNewRoleRequired      (* 'Both email and newRole are required' *)
| InvalidRole                      (* 'Invalid role specified' *)
| OnlyOwner                        (* 'Only the current owner can modify owners' *)
| UserDoesNotExist                 (* 'User does not exist' *)
| EmailRequired.                   (* 'Email is required' *)

Inductive Reply (A : Type) : Type :=
| Returned (a : A)
| Thrown (e : UserError).

Arguments Returned {A} a.
Arguments Thrown {A} e.

(** The state is the script property [users]: [None] as long as it has
    not been set. *)
Definition P (A : Type) : Type := option Users -> Reply A * option Users.

#[global] Instance P_ret : MRet P := fun A a property => (Returned a, property).

#[global] Instance P_bind : MBind P := fun A B f m property =>
  match m property with
  | (Returned a, property') => f a property'
  | (Thrown e, property') => (Thrown e, property')
  end.

Definition fail {A : Type} (e : UserError) : P A := fun property => (Thrown e, property).

(** [properties.setProperty('users', JSON.stringify(users))] *)
Definition setProperty (users : Users) : P unit := fun _ => (Returned tt, Some users).

(** [getUsers()]: the object of the property, the empty object when the
    property is not set. *)
Definition getUsers : P Users := fun property =>
  (Returned (default ∅ property), property).

Section Authentication.

(** [Session.getActiveUser().getEmail()] *)
Variable activeUser : string.

(** [authenticate(email)] *)
Definition authenticate (email : string) : P Looked :=
  if String.eqb email ""
  then fail EmailRequiredForAuthentication
  else
    users ← getUsers;
    let role := get_user users email in
    (* role = ROLES.VIEWER *)
    mret (if negb (truthy_looked role) then Undefined else role).

(** [getUserRole()] *)
Definition getUserRole : P Looked := authenticate activeUser.

(** [validateAdmin()] *)
Definition validateAdmin : P unit :=
  adminRole ← authenticate activeUser;
  if negb (looked_is adminRole ROLES_ADMIN) && negb (looked_is adminRole ROLES_OWNER)
  then fail OnlyAdmins
  else mret tt.

(** [validateOwner()] *)
Definition validateOwner : P bool :=
  role ← authenticate activeUser;
  mret (if looked_is role ROLES_OWNER then true else false).

(** The flags [isOwner], [isAdmin] and [isEditor] that [injectRole] sets
    on the template. *)
Definition injectRole : P (bool * bool * bool) :=
  role ← authenticate activeUser;
  let isOwner := looked_is role ROLES_OWNER in
  let isAdmin := isOwner || looked_is role ROLES_ADMIN in
  let isEditor := isAdmin || looked_is role ROLES_EDITOR in
  mret (isOwner, isAdmin, isEditor).

(** [role === ROLES.OWNER && !validateOwner()] *)
Definition owner_by_other (role : string) : P bool :=
  if String.eqb role ROLES_OWNER
  then isOwner ← validateOwner; mret (negb isOwner)
  else mret false.

(** [addNewUser(email, role)] *)
Definition addNewUser (email role : string) : P unit :=
  validateAdmin;;
  if String.eqb email "" || String.eqb role ""
  then fail BothEmailAndRoleRequired
  else if negb (existsb (String.eqb role) ROLES_values)
  then fail InvalidRole
  else
    refused ← owner_by_other role;
    if (refused : bool)
    then fail OnlyOwner
    else
      users ← getUsers;
      setProperty (set_user users email role).

(** [editUser(email, newRole)] *)
Definition editUser (email newRole : string) : P unit :=
  validateAdmin;;
  if String.eqb email "" || String.eqb newRole ""
  then fail BothEmailAndNewRoleRequired
  else if negb (existsb (String.eqb newRole) ROLES_values)
  then fail InvalidRole
  else
    refused ← owner_by_other newRole;
    if (refused : bool)
    then fail OnlyOwner
    else
      users ← getUsers;
      if negb (truthy_looked (get_user users email))
      then fail UserDoesNotExist
      else setProperty (set_user users email newRole).

(** [removeUser(email)] *)
Definition removeUser (email : string) : P unit :=
  validateAdmin;;
  if String.eqb email ""
  then fail EmailRequired
  else
    users ← getUsers;
    if negb (truthy_looked (get_user users email))
    then fail UserDoesNotExist
    else setProperty (delete email users).

End Authentication.

(** The user is in the list with the role. *)
Definition has_role (property : option Users) (email role : string) : Prop :=
  default ∅ property !! email = Some role.

(** The user who is signed in is an admin or the owner, or is the
    owner. *)
Definition is_admin (activeUser : string) (property : option Users) : Prop :=
  activeUser <> "" /\
  (has_role property activeUser ROLES_ADMIN \/ has_role property activeUser ROLES_OWNER).

Definition is_owner (activeUser : string) (property : option Users) : Prop :=
  activeUser <> "" /\ has_role property activeUser ROLES_OWNER.

(** A list of users for the examples. *)
Definition some_users : option Users :=
  Some (<["owner@example.com" := "owner"]>
          (<["admin@example.com" := "admin"]>
             (<["editor@example.com" := "editor"]> ∅))).

(* ================================================================== *)
(** ** The data of the forms: [populateData] and [getFormData] *)
(* ================================================================== *)

(** The sheets of the forms and of the questions are read and joined into
    one object.  A sheet is the list of its rows down to its last row with
    content, a row the list of its cells; a cell that the row does not reach
    is blank.  An object that is used as a table is the map of its own
    properties. *)
Abbreviation Grid := (list (list val)).

Inductive LoadError : Type :=
| NoSuchRange
    (* the spreadsheet service refuses a range without rows or columns *)
| NotAForm (key : string)
    (* TypeError: the key names a property of [Object.prototype], which has
       no [questions] *)
| PrototypeKey.
    (* no exception of the code: a first cell is the text [__proto__], the
       assignment replaces the prototype of the table, and the model does
       not follow the code further *)

Inductive Load (A : Type) : Type :=
| Loaded (a : A)
| Failed (e : LoadError).

Arguments Loaded {A} a.
Arguments Failed {A} e.

#[global] Instance Load_ret : MRet Load := fun A a => Loaded a.

#[global] Instance Load_bind : MBind Load := fun A B f m =>
  match m with
  | Loaded a => f a
  | Failed e => Failed e
  end.

(** A question of a form, and a form, as [getFormData] builds them. *)
Record Question : Type := {
  q_id : val;
  q_version : val;
  q_rank : val;
  q_text : val;
  q_type : val;
  q_category : val;
  q_hidden : val;
  q_modifiedBy : val;
  q_modifiedDate : val
}.

Record Form : Type := {
  f_id : val;
  f_name : val;
  f_versions : list val;
  f_performanceCoaching : val;
  f_oneToOne : val;
  f_sideBySide : val;
  f_modifiedBy : val;
  f_modifiedDate : val;
  f_questions : list Question
}.

(** [form.questions.push(question)] and [form.versions = versions] *)
Definition push_question (form : Form) (question : Question) : Form :=
  {| f_id := f_id form; f_name := f_name form; f_versions := f_versions form;
     f_performanceCoaching := f_performanceCoaching form;
     f_oneToOne := f_oneToOne form; f_sideBySide := f_sideBySide form;
     f_modifiedBy := f_modifiedBy form; f_modifiedDate := f_modifiedDate form;
     f_questions := f_questions form ++ [question] |}.

Definition set_versions (form : Form) (versions : list val) : Form :=
  {| f_id := f_id form; f_name := f_name form; f_versions := versions;
     f_performanceCoaching := f_performanceCoaching form;
     f_oneToOne := f_oneToOne form; f_sideBySide := f_sideBySide form;
     f_modifiedBy := f_modifiedBy form; f_modifiedDate := f_modifiedDate form;
     f_questions := f_questions form |}.

(** The equality of the elements of a [Set]: as [===], but [NaN] is equal
    to itself.  Two [Date] objects of two cells are two objects. *)
Definition same_value_zero (a b : val) : bool :=
  match a, b with
  | VNum NaN, VNum NaN => true
  | _, _ => strict_eq a b
  end.

(** [set.add(v)], the set as the list of its elements in the order in
    which they came. *)
Definition Set_add (set : list val) (v : val) : list val :=
  if existsb (same_value_zero v) set then set else set ++ [v].

(** The cells of a row of a range of [columnCount] columns. *)
Definition range_row (columnCount : nat) (row : list val) : list val :=
  take columnCount (row ++ replicate columnCount blank).

(** [sheet.getRange(skipRows + 1, 1, sheet.getLastRow() - skipRows,
    columnCount).getValues()] *)
Definition getRows (sheet : Grid) (skipRows columnCount : nat) : Load (list (list val)) :=
  if (List.length sheet <=? skipRows)%nat || (columnCount =? 0)%nat
  then Failed NoSuchRange
  else Loaded (map (range_row columnCount) (drop skipRows sheet)).

(** The loop of [populateData]: the callback is called with every row. *)
Fixpoint each_row {S : Type} (callback : S -> list val -> Load S) (data : S)
    (rows : list (list val)) : Load S :=
  match rows with
  | [] => Loaded data
  | row :: rest =>
      match callback data row with
      | Loaded data' => each_row callback data' rest
      | Failed e => Failed e
      end
  end.

(** [populateData(sheetName, skipRows, columnCount, callback)].  [data] is
    the object that the callback fills: the new object of [populateData], or
    an object of the caller. *)
Definition populateData {S : Type} (sheet : Grid) (skipRows columnCount : nat)
    (callback : S -> list val -> Load S) (data : S) : Load S :=
  rows ← getRows sheet skipRows columnCount;
  each_row callback data rows.

Section Projector.

(** [String(d)] for a [Date] object [d], by its time value. *)
Variable date_to_string : option Z -> string.

(** The key that a value is as the name of a property. *)
Definition to_key (v : val) : string :=
  match v with
  | VUndef => "undefined"
  | VNull => "null"
  | VBool true => "true"
  | VBool false => "false"
  | VNum NaN => "NaN"
  | VNum PosInf => "Infinity"
  | VNum NegInf => "-Infinity"
  | VNum (Fin z) => Number_toString z
  | VStr s => s
  | VDate t => date_to_string t
  end.

(** [data[key] = value], for an object [value], as long as the key is not
    [__proto__].  For that key the assignment calls the setter of
    [Object.prototype] and replaces the prototype of [data]: the code goes
    on, and the model stops with [PrototypeKey], which stands for no
    exception of the code. *)
Definition put {A : Type} (data : gmap string A) (key : val) (value : A)
  : Load (gmap string A) :=
  if String.eqb (to_key key) "__proto__"
  then Failed PrototypeKey
  else Loaded (<[to_key key := value]> data).

(** [data[key] || []], for a table of rows: what the table does not have
    as its own is [undefined], or a function of [Object.prototype], which
    has no element either. *)
Definition row_of (data : gmap string (list val)) (key : val) : list val :=
  default [] (data !! to_key key).

(** The callback for the sheets [tbl_coaching_forms] and
    [tbl_coaching_questions]: [data[row[0]] = row]. *)
Definition by_first_cell (data : gmap string (list val)) (row : list val)
  : Load (gmap string (list val)) :=
  put data (at_index row 0) row.

(** The form of a row of the sheet [forms]. *)
Definition form_of (tblCoachingFormsData : gmap string (list val)) (row : list val)
  : Form :=
  let id := at_index row 0 in
  let tblRow := row_of tblCoachingFormsData id in
  {| f_id := id;
     f_name := at_index row 1;
     f_versions := [];
     f_performanceCoaching := at_index tblRow 2;
     f_oneToOne := at_index tblRow 3;
     f_sideBySide := at_index tblRow 4;
     f_modifiedBy := at_index tblRow 5;
     f_modifiedDate := at_index tblRow 6;
     f_questions := [] |}.

(** The question of a row of the sheet [questions]. *)
Definition question_of (tblCoachingQuestionsData : gmap string (list val))
    (row : list val) : Question :=
  let tblRow := row_of tblCoachingQuestionsData (at_index row 2) in
  {| q_id := at_index row 2;
     q_version := at_index row 1;
     q_rank := at_index row 3;
     q_text := at_index tblRow 2;
     q_type := at_index row 4;
     q_category := at_index tblRow 3;
     q_hidden := at_index tblRow 4;
     q_modifiedBy := at_index tblRow 5;
     q_modifiedDate := at_index tblRow 6 |}.

(** The callback for the sheet [questions]:
    [if (formData[formId]) formData[formId].questions.push(question)]. *)
Definition add_question (tblCoachingQuestionsData : gmap string (list val))
    (formData : gmap string Form) (row : list val) : Load (gmap string Form) :=
  let formId := at_index row 0 in
  let question := question_of tblCoachingQuestionsData row in
  match formData !! to_key formId with
  | Some form => Loaded (<[to_key formId := push_question form question]> formData)
  | None =>
      if inherited (to_key formId)
      then Failed (NotAForm (to_key formId))
      else Loaded formData
  end.

(** The versions of a form: the set of the versions of its questions. *)
Definition versions_of (form : Form) : list val :=
  foldl Set_add [] (map q_version (f_questions form)).

(** [getFormData()], on the four sheets that it reads. *)
Definition getFormData (tbl_coaching_forms forms tbl_coaching_questions questions : Grid)
  : Load (gmap string Form) :=
  tblCoachingFormsData ← populateData tbl_coaching_forms 2 7 by_first_cell ∅;
  formData ← populateData (S := gmap string Form) forms 1 2
                (fun data row =>
                   put data (at_index row 0) (form_of tblCoachingFormsData row)) ∅;
  tblCoachingQuestionsData ← populateData tbl_coaching_questions 2 7 by_first_cell ∅;
  formData ← populateData (S := gmap string Form) questions 1 5
                (add_question tblCoachingQuestionsData) formData;
  mret ((fun form => set_versions form (versions_of form))
        <$> (formData : gmap string Form)).

(** The rows whose first cell is the key [k], and the last of them. *)
Definition has_key (k : string) (row : list val) : bool :=
  String.eqb (to_key (at_index row 0)) k.

Definition last_with_key (k : string) (rows : list (list val)) : option (list val) :=
  last (filter (fun row => has_key k row = true) rows).

(** The table of the rows by their first cell, the last row of a key
    taken. *)
Definition table_of (rows : list (list val)) (key : val) : list val :=
  default [] (last_with_key (to_key key) rows).

(** The form of the key [k] in the join of the four lists of rows. *)
Definition joined_form (tblForms forms tblQuestions questions : list (list val))
    (k : string) : option Form :=
  row ← last_with_key k forms;
  let tblRow := table_of tblForms (at_index row 0) in
  let asked :=
    map (fun q =>
           let tblRow := table_of tblQuestions (at_index q 2) in
           {| q_id := at_index q 2;
              q_version := at_index q 1;
              q_rank := at_index q 3;
              q_text := at_index tblRow 2;
              q_type := at_index q 4;
              q_category := at_index tblRow 3;
              q_hidden := at_index tblRow 4;
              q_modifiedBy := at_index tblRow 5;
              q_modifiedDate := at_index tblRow 6 |})
        (filter (fun q => has_key k q = true) questions) in
  Some {| f_id := at_index row 0;
          f_name := at_index row 1;
          f_versions := foldl Set_add [] (map q_version asked);
          f_performanceCoaching := at_index tblRow 2;
          f_oneToOne := at_index tblRow 3;
          f_sideBySide := at_index tblRow 4;
          f_modifiedBy := at_index tblRow 5;
          f_modifiedDate := at_index tblRow 6;
          f_questions := asked |}.

End Projector.

(** The rows of a sheet below its header rows. *)
Definition data_rows (sheet : Grid) (skipRows columnCount : nat) : list (list val) :=
  map (range_row columnCount) (drop skipRows sheet).

(** No version is a [Date]. *)
Definition no_date (v : val) : Prop :=
  match v with VDate _ => False | _ => True end.

(** Four sheets for the examples: the forms 1 and 2, of which the tool
    knows form 1; question 10 in the versions 1 and 2 of form 1, and a
    question for a form 9 that is not in the sheet of the forms. *)
Module Sheets.

Definition heading (names : list string) : list val := map VStr names.

Definition tbl_coaching_forms : Grid :=
  [ heading ["Forms"];
    heading ["id"; "name"; "performance"; "one_to_one"; "side_by_side";
             "modified_by"; "modified_date"];
    [VNum (Fin 1); VStr "Quality"; VBool true; VBool false; VBool true;
     VNum (Fin 7); VStr "2024-01-15"] ].

Definition forms : Grid :=
  [ heading ["id"; "name"];
    [VNum (Fin 1); VStr "Quality"];
    [VNum (Fin 2); VStr "Sales"] ].

Definition tbl_coaching_questions : Grid :=
  [ heading ["Questions"];
    heading ["id"; "form_id"; "text"; "category"; "hidden";
             "modified_by"; "modified_date"];
    [VNum (Fin 10); VNum (Fin 1); VStr "Did the agent greet the customer?";
     VStr "Soft skills"; VBool false; VNum (Fin 7); VStr "2024-01-15"] ].

Definition questions : Grid :=
  [ heading ["form_id"; "version"; "question_id"; "rank"; "type"];
    [VNum (Fin 1); VNum (Fin 1); VNum (Fin 10); VNum (Fin 1); VStr "yes/no"];
    [VNum (Fin 1); VNum (Fin 2); VNum (Fin 10); VNum (Fin 1); VStr "yes/no"];
    [VStr "1"; VNum (Fin 2); VNum (Fin 11); VNum (Fin 2); VStr "text"];
    [VNum (Fin 9); VNum (Fin 1); VNum (Fin 12); VNum (Fin 1); VStr "text"] ].

(** No cell of the examples holds a date. *)
Definition date_to_string (t : option Z) : string := "Invalid Date".

(** What [getFormData] returns on them. *)
Definition formData : gmap string Form :=
  match getFormData date_to_string tbl_coaching_forms forms
          tbl_coaching_questions questions with
  | Loaded formData => formData
  | Failed _ => ∅
  end.

End Sheets.

(* ================================================================== *)
(** ** The forms of the sheet of the configuration: [APIv1.js] *)
(* ================================================================== *)

(** The second script works on another spreadsheet, with the sheets
    [tbl_coaching_forms], [forms] and [User IDs] among others, and takes the
    script lock by [_withLock] for every access.  Its functions [addForm],
    [removeForm] and [getUnusedForms], and what they call, are embedded
    here, over a state of its own: the three sheets and the calls of the
    services made so far.  The functions that build their promise with
    [new Promise] ([_updateForm], [_updateQuestion], [_addQuestion]) are left
    out. *)
Module Config.

Inductive SheetName : Type :=
| tbl_coaching_forms   (* FORMS.SHEET_NAME *)
| forms                (* FORMS_DB.SHEET_NAME *)
| User_IDs.

#[global] Instance SheetName_eq_dec : EqDecision SheetName.
Proof. solve_decision. Defined.

(** A sheet: its rows down to the last row with content, and the number
    of the empty rows of the grid below them. *)
Record Tab : Type := {
  content : Grid;
  emptyRows : nat
}.

(** The calls of the services. *)
Inductive Step : Type :=
| WaitLock (timeoutInMillis : Z)
| ReleaseLock
| GetLastRow (name : SheetName)
| GetValues (name : SheetName)
| AppendRow (name : SheetName) (rowContents : list val)
| DeleteRow (name : SheetName) (rowPosition : Z).

Inductive ApiError : Type :=
| MissingFormID                    (* 'Missing Form ID' *)
| InvalidFormID                    (* 'Invalid Form ID.' *)
| FormAlreadyExists (id : num)     (* 'Form ID id already exists.' *)
| FormDoesNotExist (id : num)      (* 'Form ID id does not exist.' *)
| NoUserID (email : string)        (* 'No user ID found for email: email' *)
| LockNotObtained                  (* waitLock did not obtain the lock in time *)
| OutOfRange                       (* the spreadsheet service refuses the range or the row *)
| TypeError.                       (* a property of undefined is read *)

Inductive Answer (A : Type) : Type :=
| Fine (a : A)
| Raise (e : ApiError).

Arguments Fine {A} a.
Arguments Raise {A} e.

Record Book : Type := {
  tabs : SheetName -> Tab;
  steps : list Step
}.

Definition Api (A : Type) : Type := Book -> Answer A * Book.

#[global] Instance Api_ret : MRet Api := fun A a b => (Fine a, b).

#[global] Instance Api_bind : MBind Api := fun A B f m b =>
  match m b with
  | (Fine a, b') => f a b'
  | (Raise e, b') => (Raise e, b')
  end.

Definition raise {A : Type} (e : ApiError) : Api A := fun b => (Raise e, b).

Definition note (step : Step) (b : Book) : Book :=
  {| tabs := tabs b; steps := steps b ++ [step] |}.

Definition with_tab (name : SheetName) (t : Tab) (b : Book) : Book :=
  {| tabs := fun n => if decide (n = name) then t else tabs b n; steps := steps b |}.

(** *** The spreadsheet service *)

(** The cell at a row and a column of the grid, both counted from 1;
    outside the content the grid is blank. *)
Definition grid_cell (g : Grid) (row col : Z) : val :=
  nth (Z.to_nat (col - 1)) (nth (Z.to_nat (row - 1)) g []) blank.

Definition grid_values (g : Grid) (row col numRows numCols : Z) : list (list val) :=
  map (fun i =>
         map (fun j => grid_cell g (row + Z.of_nat i) (col + Z.of_nat j))
             (seq 0 (Z.to_nat numCols)))
      (seq 0 (Z.to_nat numRows)).

Definition maxRows (t : Tab) : Z := Z.of_nat (List.length (content t) + emptyRows t).

(** [sheet.getLastRow()] *)
Definition getLastRow (name : SheetName) : Api Z := fun b =>
  (Fine (Z.of_nat (List.length (content (tabs b name)))), note (GetLastRow name) b).

(** [sheet.getRange(row, col, numRows, numCols).getValues()]: an
    exception for a range that has no row or no column, or that does not
    lie in the grid. *)
Definition getValues (name : SheetName) (row col numRows numCols : Z)
  : Api (list (list val)) := fun b =>
  if (1 <=? row) && (1 <=? col) && (1 <=? numRows) && (1 <=? numCols)
     && (row + numRows - 1 <=? maxRows (tabs b name))
  then (Fine (grid_values (content (tabs b name)) row col numRows numCols),
        note (GetValues name) b)
  else (Raise OutOfRange, b).

(** [sheet.getRange("A3:A").getValues()]: column A from row 3 down to the
    last row of the grid. *)
Definition getValues_A3_A (name : SheetName) : Api (list (list val)) := fun b =>
  getValues name 3 1 (maxRows (tabs b name) - 2) 1 b.

(** Is the cell blank? *)
Definition is_blank (v : val) : bool := strict_eq v blank.

(** The column of the last cell with content of a row, and of a sheet. *)
Fixpoint last_content (row : list val) : nat :=
  match row with
  | [] => 0
  | v :: rest =>
      match last_content rest with
      | 0%nat => if is_blank v then 0%nat else 1%nat
      | S n => S (S n)
      end
  end.

Definition lastColumn (g : Grid) : nat := foldr Nat.max 0%nat (map last_content g).

(** [sheet.getDataRange().getValues()]: from the cell A1 to the last row
    and the last column with content; the one cell A1 for an empty sheet. *)
Definition getDataRange_getValues (name : SheetName) : Api (list (list val)) := fun b =>
  let g := content (tabs b name) in
  (Fine (grid_values g 1 1 (Z.max 1 (Z.of_nat (List.length g)))
                           (Z.max 1 (Z.of_nat (lastColumn g)))),
   note (GetValues name) b).

(** The rows without the blank rows at the end. *)
Fixpoint trim (g : Grid) : Grid :=
  match g with
  | [] => []
  | row :: rest =>
      match trim rest with
      | [] => if forallb is_blank row then [] else [row]
      | rest' => row :: rest'
      end
  end.

(** [sheet.appendRow(rowContents)] *)
Definition appendRow (name : SheetName) (rowContents : list val) : Api unit := fun b =>
  let t := tabs b name in
  (Fine tt,
   note (AppendRow name rowContents)
     (with_tab name {| content := content t ++ [rowContents];
                       emptyRows := Nat.pred (emptyRows t) |} b)).

(** [sheet.deleteRow(rowPosition)]: the rows below move up. *)
Definition deleteRow (name : SheetName) (rowPosition : Z) : Api unit := fun b =>
  let t := tabs b name in
  if (1 <=? rowPosition) && (rowPosition <=? maxRows t) && (2 <=? maxRows t)
  then
    let kept := delete (Z.to_nat (rowPosition - 1)) (content t) in
    (Fine tt,
     note (DeleteRow name rowPosition)
       (with_tab name
          {| content := trim kept;
             emptyRows := Z.to_nat (maxRows t - 1) - List.length (trim kept) |} b))
  else (Raise OutOfRange, b).

(** *** The script *)

(** What [Number] gives for the cells of a column. *)
Definition numbers (rt : Runtime) (column : list val) : list num :=
  map (Number rt) column.

(** [array.includes(x)] for numbers: [NaN] is found. *)
Definition num_same (a b : num) : bool :=
  match a, b with
  | NaN, NaN => true
  | _, _ => num_eqb a b
  end.

Definition includes (array : list num) (x : num) : bool := existsb (num_same x) array.

(** [array.includes(v)] for an array of numbers and the value of a
    cell. *)
Definition includes_value (array : list num) (v : val) : bool :=
  match v with
  | VNum n => includes array n
  | _ => false
  end.

(** The promise of an [async] function that nobody awaits. *)
Inductive Promise (A : Type) : Type :=
| Resolved (a : A)
| Rejected (e : ApiError).

Arguments Resolved {A} a.
Arguments Rejected {A} e.

(** A promise is an object: the condition of an [if] on it holds. *)
Definition truthy_promise {A : Type} (p : Promise A) : bool := true.

(** Calling an [async] function without [await]: its body runs, and the
    caller gets the promise. *)
Definition promise_of {A : Type} (m : Api A) : Api (Promise A) := fun b =>
  match m b with
  | (Fine a, b') => (Fine (Resolved a), b')
  | (Raise e, b') => (Fine (Rejected e), b')
  end.

Section Script.

Variable rt : Runtime.

(** [Session.getActiveUser().getEmail()] *)
Variable email : string.

(** [_withLock(callback)] *)
Definition _withLock {A : Type} (callback : Api A) : Api A := fun b =>
  let b1 := note (WaitLock LOCK_WAIT_TIME) b in
  if lock_obtainable rt
  then
    match callback b1 with
    | (answer, b2) => (answer, note ReleaseLock b2)
    end
  else (Raise LockNotObtained, note ReleaseLock b1).

(** [_getSheetData(sheet)]: the promise of [_withLock] is dropped, and
    [data] stays [undefined] when the callback did not run to its end. *)
Definition _getSheetData (name : SheetName) : Api (option (list (list val))) := fun b =>
  match _withLock (getDataRange_getValues name) b with
  | (Fine data, b') => (Fine (Some data), b')
  | (Raise _, b') => (Fine None, b')
  end.

(** [_getCurrentUserID()] *)
Definition _getCurrentUserID : Api num :=
  data ← _getSheetData User_IDs;
  match data with
  | None => raise TypeError
  | Some data =>
      match List.find (fun row => strict_eq (at_index row 1) (VStr email)) data with
      | Some row => mret (parseInt rt (at_index row 0))
      | None => raise (NoUserID email)
      end
  end.

(** [_getFormIDs()] *)
Definition _getFormIDs : Api (list num) :=
  _withLock (values ← getValues_A3_A tbl_coaching_forms;
             mret (numbers rt (concat values))).

(** [FormIdValidator.validate(value)], an [async] method. *)
Definition FormIdValidator_validate (value : num) : Api bool :=
  let ID := parseInt rt (VNum value) in
  IDs ← _getFormIDs;
  mret (includes IDs ID).

(** [validateValue('Form ID', value)]: the promise of the validator. *)
Definition validateValue_Form_ID (value : num) : Api (Promise bool) :=
  promise_of (FormIdValidator_validate value).

(** [_getUnusedForms()]: the pairs of the id and the name. *)
Definition _getUnusedForms : Api (list (val * val)) :=
  activeForms ← _getFormIDs;
  formData ← _withLock (last ← getLastRow forms;
                        getValues forms 2 1 (last - 1) 2);
  mret (filter (fun form => includes_value activeForms (fst form) = false)
               (map (fun row => (at_index row 0, at_index row 1)) formData)).

(** [getUnusedForms()] *)
Definition getUnusedForms : Api (list (val * val)) := _getUnusedForms.

(** The callback that [_addForm] runs under the lock. *)
Definition _addForm_callback (parsedFormId : num) : Api unit :=
  last ← getLastRow forms;
  values ← getValues forms 2 1 (last - 1) 2;
  match List.filter (fun row => strict_eq (at_index row 0) (VNum parsedFormId))
          values with
  | [] => raise TypeError
  | forminfo :: _ =>
      let name := at_index forminfo 1 in
      updatedBy ← _getCurrentUserID;
      let newRow :=
        [VNum parsedFormId; name; VBool false; VBool false; VBool false;
         VNum updatedBy; VStr (today rt)] in
      appendRow tbl_coaching_forms newRow
  end.

(** [_addForm(formId)] *)
Definition _addForm (formId : val) : Api unit :=
  let parsedFormId := parseInt rt formId in
  valid ← validateValue_Form_ID parsedFormId;
  if negb (truthy_promise valid)
  then raise InvalidFormID
  else
    existingFormIds ← _getFormIDs;
    if includes existingFormIds parsedFormId
    then raise (FormAlreadyExists parsedFormId)
    else _withLock (_addForm_callback parsedFormId).

(** [addForm(formId)] *)
Definition addForm (formId : val) : Api unit :=
  if negb (truthy formId) then raise MissingFormID else _addForm formId.

(** The callback that [_removeForm] runs under the lock. *)
Definition _removeForm_callback (parsedFormId : num) : Api unit :=
  last ← getLastRow tbl_coaching_forms;
  values ← getValues tbl_coaching_forms 3 1 (last - 2) 1;
  let IDs := map (fun row => at_index row 0) values in
  let row := findIndex (fun id => strict_eq id (VNum parsedFormId)) IDs + 2 + 1 in
  deleteRow tbl_coaching_forms row.

(** [_removeForm(formId)] *)
Definition _removeForm (formId : val) : Api unit :=
  let parsedFormId := parseInt rt formId in
  valid ← validateValue_Form_ID parsedFormId;
  if negb (truthy_promise valid)
  then raise InvalidFormID
  else
    existingFormIds ← _getFormIDs;
    if negb (includes existingFormIds parsedFormId)
    then raise (FormDoesNotExist parsedFormId)
    else _withLock (_removeForm_callback parsedFormId).

(** [removeForm(formId)] *)
Definition removeForm (formId : val) : Api unit :=
  if negb (truthy formId) then raise MissingFormID else _removeForm formId.

End Script.

(** Does every access to a sheet in the steps happen while the lock is
    held?  A [releaseLock] gives the lock up, whoever took it. *)
Fixpoint locked (held : bool) (log : list Step) : bool :=
  match log with
  | [] => true
  | WaitLock _ :: log' => locked true log'
  | ReleaseLock :: log' => locked false log'
  | _ :: log' => held && locked held log'
  end.

(** What the functions read: column A of a sheet from row 3 down to the
    end of the grid, column A of the rows with content from row 3 on, and
    the two columns of the sheet [forms] below its header. *)
Definition column_A3_A (t : Tab) : list val :=
  concat (grid_values (content t) 3 1 (maxRows t - 2) 1).

Definition id_column (t : Tab) : list val :=
  map (fun row => at_index row 0)
      (grid_values (content t) 3 1 (Z.of_nat (List.length (content t)) - 2) 1).

Definition forms_rows (t : Tab) : list (list val) :=
  grid_values (content t) 2 1 (Z.of_nat (List.length (content t)) - 1) 2.

Definition data_range (t : Tab) : list (list val) :=
  grid_values (content t) 1 1 (Z.max 1 (Z.of_nat (List.length (content t))))
    (Z.max 1 (Z.of_nat (lastColumn (content t)))).

(** The steps of a successful [addForm] that appends the row [newRow]. *)
Definition addForm_steps (newRow : list val) : list Step :=
  [ WaitLock LOCK_WAIT_TIME; GetValues tbl_coaching_forms; ReleaseLock;
    WaitLock LOCK_WAIT_TIME; GetValues tbl_coaching_forms; ReleaseLock;
    WaitLock LOCK_WAIT_TIME; GetLastRow forms; GetValues forms;
    WaitLock LOCK_WAIT_TIME; GetValues User_IDs; ReleaseLock;
    AppendRow tbl_coaching_forms newRow;
    ReleaseLock ].

(** A book with the three sheets and no step made yet. *)
Definition book (forms_tool forms_database user_ids : Tab) : Book :=
  {| tabs := fun name =>
               match name with
               | tbl_coaching_forms => forms_tool
               | forms => forms_database
               | User_IDs => user_ids
               end;
     steps := [] |}.

(** The sheets of the examples: the tool knows form 1; the database has
    the forms 1 and 2; the user has the id 7. *)
Definition tool_forms : Tab :=
  {| content := Sheets.tbl_coaching_forms; emptyRows := 997 |}.

Definition database_forms : Tab :=
  {| content := Sheets.forms; emptyRows := 0 |}.

Definition user_ids : Tab :=
  {| content := [ [VStr "id"; VStr "email"];
                  [VNum (Fin 7); VStr "coach@example.com"] ];
     emptyRows := 998 |}.

(** The runtime of the examples while another execution holds the lock
    for longer than the wait. *)
Definition busy_runtime : Runtime :=
  {| string_to_number := Demo.to_number;
     string_parse_int := Demo.parse_int;
     date_parse := Demo.parse_date;
     employee_id := VNum (Fin 7);
     today := "2024-03-01";
     lock_obtainable := false |}.

End Config.

(* ================================================================== *)
(** ** The alerts of the page: [AlertBuilder] *)
(* ================================================================== *)

(** The page shows the errors of the server, and the warning before an
    expectation is archived, as alerts, three at a time.  The class keeps a
    counter of the alerts that are shown and a queue of those that wait.
    The document is modelled by the alerts in the container of the alerts,
    in their order, and the line that tells how many more wait.  The
    countdown of an alert to acknowledge is left out: its button is there
    when the countdown is over. *)
Module Alerts.

Inductive AlertType : Type := Error_ | Warning_ | Success | Info | Acknowledge.

(** An alert as [build] finds it: the type that [setType] has accepted
    ([None] for the empty string), the message, the timer and whether there
    is a callback. *)
Record Alert : Type := {
  type : option AlertType;
  message : string;
  timer : option Z;
  callback : bool
}.

Record Page : Type := {
  activeAlerts : Z;                  (* AlertBuilder.activeAlerts *)
  alertQueue : list Alert;           (* AlertBuilder.alertQueue *)
  alertContainer : list Alert;       (* the alerts in the element alertContainer *)
  additionalAlerts : option nat      (* 'There are n additional alerts.' *)
}.

Inductive BuildError : Type :=
| TypeAndMessageRequired       (* 'Type and Message are required to build an alert.' *)
| TimerAndCallbackRequired.    (* 'Timer and Callback are required for Acknowledge alerts.' *)

Definition is_acknowledge (a : Alert) : bool :=
  match type a with Some Acknowledge => true | _ => false end.

(** [AlertBuilder.updateDisplay()] *)
Definition updateDisplay (p : Page) : Page :=
  let shown :=
    match alertQueue p with
    | nextAlert :: rest =>
        if activeAlerts p <? 3
        then {| activeAlerts := activeAlerts p + 1;
                alertQueue := rest;
                alertContainer := alertContainer p ++ [nextAlert];
                additionalAlerts := additionalAlerts p |}
        else p
    | [] => p
    end in
  {| activeAlerts := activeAlerts shown;
     alertQueue := alertQueue shown;
     alertContainer := alertContainer shown;
     additionalAlerts :=
       match alertQueue shown with
       | [] => None
       | waiting => Some (List.length waiting)
       end |}.

(** [alert.build()] *)
Definition build (a : Alert) (p : Page) : BuildError + Page :=
  match type a with
  | None => inl TypeAndMessageRequired
  | Some t =>
      if String.eqb (message a) ""
      then inl TypeAndMessageRequired
      else if is_acknowledge a && (negb (bool_decide (is_Some (timer a))) || negb (callback a))
      then inl TimerAndCallbackRequired
      else inr (updateDisplay
                  {| activeAlerts := activeAlerts p;
                     alertQueue := alertQueue p ++ [a];
                     alertContainer := alertContainer p;
                     additionalAlerts := additionalAlerts p |})
  end.

(** [alert.remove()], for the alert at the index [i] of the container:
    what the button to close it does. *)
Definition remove (i : nat) (p : Page) : Page :=
  updateDisplay
    {| activeAlerts := activeAlerts p - 1;
       alertQueue := alertQueue p;
       alertContainer := delete i (alertContainer p);
       additionalAlerts := additionalAlerts p |}.

(** What the button to acknowledge does: the alert is taken out of the
    document and its callback is called. *)
Definition acknowledge (i : nat) (p : Page) : Page :=
  {| activeAlerts := activeAlerts p;
     alertQueue := alertQueue p;
     alertContainer := delete i (alertContainer p);
     additionalAlerts := additionalAlerts p |}.

(** What happens on the page: an alert is built, or the user clicks the
    button of an alert that is shown. *)
Inductive Event : Type :=
| Build (a : Alert)
| Close (i : nat)
| Acknowledged (i : nat).

(** The page after the event; [None] when the page has no such button.
    An alert to acknowledge has no button to close it. *)
Definition step (e : Event) (p : Page) : option Page :=
  match e with
  | Build a =>
      match build a p with
      | inr p' => Some p'
      | inl _ => Some p
      end
  | Close i =>
      match alertContainer p !! i with
      | Some a => if is_acknowledge a then None else Some (remove i p)
      | None => None
      end
  | Acknowledged i =>
      match alertContainer p !! i with
      | Some a => if is_acknowledge a then Some (acknowledge i p) else None
      | None => None
      end
  end.

Fixpoint run (events : list Event) (p : Page) : option Page :=
  match events with
  | [] => Some p
  | e :: rest =>
      match step e p with
      | Some p' => run rest p'
      | None => None
      end
  end.

(** The page when it is loaded. *)
Definition loaded : Page :=
  {| activeAlerts := 0; alertQueue := []; alertContainer := [];
     additionalAlerts := None |}.

(** How often the user has acknowledged an alert. *)
Definition acknowledgements (events : list Event) : nat :=
  List.length (List.filter (fun e => match e with Acknowledged _ => true | _ => false end)
                 events).

(** The counter counts the alerts in the container and the alerts that
    were acknowledged; it is at most 3, and it is 3 when an alert waits. *)
Definition counted (acknowledged : nat) (p : Page) : Prop :=
  activeAlerts p = Z.of_nat (List.length (alertContainer p)) + Z.of_nat acknowledged /\
  activeAlerts p <= 3 /\
  (alertQueue p <> [] -> activeAlerts p = 3).

(** The warning before an expectation is archived, and the alert of an
    error. *)
Definition archive_warning : Alert :=
  {| type := Some Acknowledge;
     message := "Archiving should be considered a last resort.";
     timer := Some 15;
     callback := true |}.

Definition error_alert (text : string) : Alert :=
  {| type := Some Error_; message := text; timer := None; callback := false |}.

End Alerts.
(* ================================================================== *)
(** ** JavaScript values: facts *)
(* ================================================================== *)

Lemma num_eqb_eq (a b : num) : num_eqb a b = true -> a = b.
Proof.
  destruct a, b; simpl; try discriminate; try reflexivity.
  intros H. apply Z.eqb_eq in H. by subst.
Qed.

Lemma num_eqb_sym (a b : num) : num_eqb a b = num_eqb b a.
Proof. destruct a, b; simpl; try reflexivity. apply Z.eqb_sym. Qed.

Lemma strict_eq_eq (a b : val) : strict_eq a b = true -> a = b.
Proof.
  destruct a, b; simpl; try discriminate; try reflexivity; intros H.
  - apply Bool.eqb_prop in H. by subst.
  - apply num_eqb_eq in H. by subst.
  - apply String.eqb_eq in H. by subst.
Qed.

Lemma strict_eq_sym (a b : val) : strict_eq a b = strict_eq b a.
Proof.
  destruct a, b; simpl; try reflexivity.
  - by destruct b, b0.
  - apply num_eqb_sym.
  - apply String.eqb_sym.
Qed.

Lemma strict_neq_false (a b : val) : strict_neq a b = false -> a = b.
Proof.
  unfold strict_neq. intros H. apply negb_false_iff in H. by apply strict_eq_eq.
Qed.

Lemma date_ge_spec (a b : option Z) :
  date_ge a b = true <-> exists x y, a = Some x /\ b = Some y /\ y <= x.
Proof.
  destruct a as [x|], b as [y|]; simpl; split; try discriminate.
  - intros H. exists x, y. repeat split. by apply Z.leb_le.
  - intros (x' & y' & [= ->] & [= ->] & H). by apply Z.leb_le.
  - intros (x' & y' & _ & [=] & _).
  - intros (x' & y' & [=] & _).
  - intros (x' & y' & [=] & _).
Qed.

Lemma date_le_spec (a b : option Z) :
  date_le a b = true <-> exists x y, a = Some x /\ b = Some y /\ x <= y.
Proof.
  unfold date_le. rewrite date_ge_spec. split.
  - intros (x & y & -> & -> & H). by exists y, x.
  - intros (x & y & -> & -> & H). by exists y, x.
Qed.

(** The test on two valid pairs of dates, as arithmetic. *)
Lemma overlap_test_Some (a b c d : Z) :
  overlap_test (Some a) (Some b) (Some c) (Some d) = true <->
  (c <= a <= d) \/ (c <= b <= d) \/ (a <= c /\ d <= b).
Proof.
  unfold overlap_test, date_le, date_ge.
  rewrite !orb_true_iff, !andb_true_iff, !Z.leb_le. lia.
Qed.

(** On dates in order, the test of the code decides whether the two
    intervals intersect. *)
Lemma overlap_test_intersecting (ns ne : Z) (es ee : option Z) :
  ns <= ne -> in_order es ee ->
  overlap_test (Some ns) (Some ne) es ee = true <->
  intersecting (Some ns) (Some ne) es ee.
Proof.
  intros Hq Hr. destruct es as [c|], ee as [d|].
  - specialize (Hr c d eq_refl eq_refl). rewrite overlap_test_Some. split.
    + intros H. exists ns, ne, c, d.
      destruct (Z_le_gt_dec c ns) as [Hc|Hc].
      * exists ns. repeat split; try reflexivity; lia.
      * exists c. repeat split; try reflexivity; lia.
    + intros (a' & b' & c' & d' & t & [= <-] & [= <-] & [= <-] & [= <-] & H1 & H2).
      lia.
  - split.
    + unfold overlap_test, date_le, date_ge. simpl.
      rewrite !andb_false_r. discriminate.
    + intros (a' & b' & c' & d' & t & _ & _ & _ & [=] & _).
  - split.
    + unfold overlap_test, date_le, date_ge. simpl. discriminate.
    + intros (a' & b' & c' & d' & t & _ & _ & [=] & _).
  - split.
    + unfold overlap_test, date_le, date_ge. simpl. discriminate.
    + intros (a' & b' & c' & d' & t & _ & _ & [=] & _).
Qed.

(** Whatever the order of the dates, two intervals that intersect pass
    the test. *)
Lemma intersecting_overlap_test (ns ne es ee : option Z) :
  intersecting ns ne es ee -> overlap_test ns ne es ee = true.
Proof.
  intros (a & b & c & d & t & -> & -> & -> & -> & H1 & H2).
  apply overlap_test_Some. lia.
Qed.

Lemma intersecting_sym (s1 e1 s2 e2 : option Z) :
  intersecting s1 e1 s2 e2 -> intersecting s2 e2 s1 e1.
Proof.
  intros (a & b & c & d & t & -> & -> & -> & -> & H1 & H2).
  by exists c, d, a, b, t.
Qed.

(* ================================================================== *)
(** ** The sheet: facts *)
(* ================================================================== *)

Lemma cells_9 (r : Row) :
  cells r 1 9 =
  [r_id r; r_resourceId r; r_performance r; r_oneToOne r; r_sideBySide r;
   r_startDate r; r_endDate r; r_expectationType r; r_active r].
Proof. reflexivity. Qed.

Lemma lastRow_expectations (s : Sheet) :
  3 <= lastRow s <-> expectations s <> [].
Proof.
  unfold lastRow, expectations, HEADER_ROWS.
  destruct s as [|h1 [|h2 [|r rows]]]; simpl; split; try lia; try congruence.
Qed.

Lemma length_expectations (s : Sheet) :
  3 <= lastRow s -> Z.of_nat (List.length (expectations s)) = lastRow s - 2.
Proof.
  unfold lastRow, expectations, HEADER_ROWS. rewrite length_drop. lia.
Qed.

(** Reading all the rows below the headers. *)
Lemma range_values_data (s : Sheet) (numCols : Z) :
  3 <= lastRow s ->
  range_values s 3 1 (lastRow s - 2) numCols =
  map (fun r => cells r 1 (Z.to_nat numCols)) (expectations s).
Proof.
  intros Hlast. unfold range_values, expectations, HEADER_ROWS, lastRow in *.
  apply list_eq. intros i. rewrite !list_lookup_fmap, lookup_drop.
  destruct (decide (i < List.length s - 2)%nat) as [Hi|Hi].
  - rewrite lookup_seq_lt by lia. simpl.
    destruct (s !! S (S i)) as [r|] eqn:Hr.
    + unfold sheet_row.
      replace (Z.to_nat (3 + Z.of_nat i - 1)) with (S (S i)) by lia.
      by rewrite Hr.
    + apply lookup_ge_None in Hr. lia.
  - rewrite lookup_seq_ge by lia. simpl.
    destruct (s !! S (S i)) as [r|] eqn:Hr; [|reflexivity].
    apply lookup_lt_Some in Hr. lia.
Qed.

Lemma sheet_row_data (s : Sheet) (i : nat) (r : Row) :
  expectations s !! i = Some r -> sheet_row s (Z.of_nat i + 3) = r.
Proof.
  unfold expectations, sheet_row, HEADER_ROWS. rewrite lookup_drop. intros H.
  replace (Z.to_nat (Z.of_nat i + 3 - 1)) with (2 + i)%nat by lia.
  by rewrite H.
Qed.

(** Writing to a row below the headers. *)
Lemma write_row_data (s : Sheet) (i : nat) (r : Row) (f : Row -> Row) :
  expectations s !! i = Some r ->
  expectations (write_row s (Z.of_nat i + 3) f) = <[i := f r]> (expectations s).
Proof.
  unfold expectations, write_row, HEADER_ROWS. rewrite lookup_drop. intros H.
  replace (Z.to_nat (Z.of_nat i + 3 - 1)) with (2 + i)%nat by lia.
  rewrite H. rewrite drop_insert_ge by lia. f_equal. lia.
Qed.

Lemma write_row_length (s : Sheet) (i : nat) (r : Row) (f : Row -> Row) :
  expectations s !! i = Some r ->
  lastRow (write_row s (Z.of_nat i + 3) f) = lastRow s.
Proof.
  unfold expectations, write_row, HEADER_ROWS, lastRow. rewrite lookup_drop.
  intros H. replace (Z.to_nat (Z.of_nat i + 3 - 1)) with (2 + i)%nat by lia.
  rewrite H. by rewrite length_insert.
Qed.

Lemma lastRow_snoc (s : Sheet) (r : Row) : lastRow (s ++ [r]) = lastRow s + 1.
Proof. unfold lastRow. rewrite length_app. simpl. lia. Qed.

Lemma expectations_app (s : Sheet) (r : Row) :
  3 <= lastRow s -> expectations (s ++ [r]) = expectations s ++ [r].
Proof.
  unfold expectations, HEADER_ROWS, lastRow. intros H.
  rewrite drop_app_le by lia. reflexivity.
Qed.

(* ================================================================== *)
(** ** [findIndex] *)
(* ================================================================== *)

Lemma findIndex_from_range {A : Type} (p : A -> bool) (l : list A) (k : Z) :
  findIndex_from p k l = -1 \/
  k <= findIndex_from p k l < k + Z.of_nat (List.length l).
Proof.
  revert k. induction l as [|x l IH]; intros k; simpl; [by left|].
  destruct (p x); [right; lia|].
  destruct (IH (k + 1)) as [H|H]; [by left | right; lia].
Qed.

(** The index found is that of the first element that satisfies [p]. *)
Lemma findIndex_from_found {A : Type} (p : A -> bool) (l : list A) (k : Z) (i : nat) :
  0 <= k ->
  findIndex_from p k l = k + Z.of_nat i ->
  exists x, l !! i = Some x /\ p x = true /\
            forall j y, (j < i)%nat -> l !! j = Some y -> p y = false.
Proof.
  revert k i. induction l as [|x l IH]; intros k i Hk; simpl.
  - lia.
  - destruct (p x) eqn:Hx.
    + intros H. assert (i = 0%nat) as -> by lia. exists x. split; [done|].
      split; [done|]. intros j y Hj. lia.
    + intros H.
      destruct (findIndex_from_range p l (k + 1)) as [Hr|Hr]; [lia|].
      destruct i as [|i]; [lia|].
      destruct (IH (k + 1) i) as (y & Hy & Hpy & Hfirst); [lia|lia|].
      exists y. split; [done|]. split; [done|].
      intros j z Hj. destruct j as [|j]; simpl.
      * intros [= <-]. done.
      * intros Hz. apply (Hfirst j z); [lia|done].
Qed.

Lemma findIndex_from_none {A : Type} (p : A -> bool) (l : list A) (k : Z) :
  0 <= k -> findIndex_from p k l = -1 -> Forall (fun x => p x = false) l.
Proof.
  revert k. induction l as [|x l IH]; intros k Hk; simpl; [constructor|].
  destruct (p x) eqn:Hx; [lia|]. intros H. constructor; [done|].
  apply (IH (k + 1)); [lia|done].
Qed.

(* ================================================================== *)
(** ** What a run of each function does *)
(* ================================================================== *)

Lemma sheet_record (e : Event) (w : World) : sheet (record e w) = sheet w.
Proof. reflexivity. Qed.

Lemma sheet_with_sheet (s : Sheet) (w : World) : sheet (with_sheet s w) = s.
Proof. reflexivity. Qed.

Lemma sheet_after_read (numCols : Z) (w : World) :
  sheet (after_read numCols w) = sheet w.
Proof. reflexivity. Qed.

Lemma sheet_start (s : Sheet) : sheet (start s) = s.
Proof. reflexivity. Qed.

Create Rewrite HintDb world.

#[global] Hint Rewrite sheet_record sheet_with_sheet sheet_after_read sheet_start
  lastRow_snoc : world.

Lemma range_guard (x numCols : Z) :
  1 <= numCols ->
  (1 <=? 3) && (1 <=? 1) && (1 <=? x - 2) && (1 <=? numCols) = (3 <=? x).
Proof.
  intros H. simpl. rewrite (proj2 (Z.leb_le 1 numCols) H), andb_true_r.
  destruct (3 <=? x) eqn:E.
  - apply Z.leb_le in E. apply Z.leb_le. lia.
  - apply Z.leb_gt in E. apply Z.leb_gt. lia.
Qed.

Lemma concat_singletons {A B : Type} (f : A -> B) (l : list A) :
  concat (map (fun x => [f x]) l) = map f l.
Proof. induction l as [|x l IH]; simpl; [done|]. by rewrite IH. Qed.

Section ScriptFacts.

Variable rt : Runtime.

Lemma checkForOverlap_loop_first (res ty : val) (ns ne : option Z) (ig : num)
    (rows : list Row) :
  checkForOverlap_loop rt res ty ns ne ig (map (fun r => cells r 1 9) rows) =
  first_conflict rt res ty ns ne ig rows.
Proof.
  unfold first_conflict.
  induction rows as [|r rows IH]; simpl; [reflexivity|].
  unfold conflicts at 1. unfold at_index. simpl.
  destruct (truthy (r_active r) && strict_eq (r_resourceId r) res
            && strict_eq (r_expectationType r) ty
            && strict_neq (r_id r) (VNum ig)
            && overlap_test ns ne (new_Date rt (r_startDate r))
                 (new_Date rt (r_endDate r))); [reflexivity|].
  apply IH.
Qed.

Lemma read_idColumn_run (w : World) :
  read_idColumn w =
  if 3 <=? lastRow (sheet w)
  then (Ok (map r_id (expectations (sheet w))), after_read 1 w)
  else (Throw RangeException, record EGetLastRow w).
Proof.
  unfold read_idColumn, after_read, mbind, M_bind, getLastRow, getValues, mret, M_ret.
  cbn [sheet record]. rewrite range_guard by lia.
  destruct (3 <=? lastRow (sheet w)) eqn:E; [|reflexivity].
  apply Z.leb_le in E. rewrite range_values_data by done.
  change (Z.to_nat 1) with 1%nat.
  by rewrite <- (concat_singletons r_id).
Qed.

Lemma checkForOverlap_run (res ty sd ed ig : val) (w : World) :
  checkForOverlap rt res ty sd ed ig w =
  if 3 <=? lastRow (sheet w)
  then (Ok (first_conflict rt res ty (new_Date rt sd) (new_Date rt ed)
              (parseInt rt (or_default ig minus_one)) (expectations (sheet w))),
        after_read 9 w)
  else (Throw RangeException, record EGetLastRow w).
Proof.
  unfold checkForOverlap, after_read, mbind, M_bind, getLastRow, getValues, mret, M_ret.
  cbn [sheet record]. rewrite range_guard by lia.
  destruct (3 <=? lastRow (sheet w)) eqn:E; [|reflexivity].
  apply Z.leb_le in E. rewrite range_values_data by done.
  change (Z.to_nat 9) with 9%nat.
  by rewrite checkForOverlap_loop_first.
Qed.

End ScriptFacts.

Lemma find_first {A : Type} (p : A -> bool) (l : list A) (x : A) :
  List.find p l = Some x ->
  exists i, l !! i = Some x /\ p x = true /\
            forall j y, (j < i)%nat -> l !! j = Some y -> p y = false.
Proof.
  induction l as [|a l IH]; simpl; [discriminate|].
  destruct (p a) eqn:Ha.
  - intros [= <-]. exists 0%nat. split; [done|]. split; [done|]. intros j y Hj. lia.
  - intros H. destruct (IH H) as (i & Hi & Hx & Hfirst).
    exists (S i). split; [done|]. split; [done|].
    intros [|j] y Hj; simpl.
    + by intros [= <-].
    + intros Hy. apply (Hfirst j y); [lia|done].
Qed.

Lemma find_none {A : Type} (p : A -> bool) (l : list A) :
  List.find p l = None -> Forall (fun y => p y = false) l.
Proof.
  induction l as [|a l IH]; simpl; [constructor|].
  destruct (p a) eqn:Ha; [discriminate|]. intros H. constructor; [done|]. by apply IH.
Qed.

Section OverlapDetector.

Variable rt : Runtime.

(** On dates in order, the rows that the code takes for conflicts are
    the conflicts. *)
Lemma conflicts_is_conflict (res ty excl : val) (ns ne : Z) (r : Row) :
  ns <= ne -> row_in_order rt r ->
  conflicts rt res ty (Some ns) (Some ne)
    (parseInt rt (or_default excl minus_one)) r = true <->
  is_conflict rt res ty (Some ns) (Some ne) excl r.
Proof.
  intros Hq Hr. unfold conflicts, is_conflict.
  rewrite !andb_true_iff, overlap_test_intersecting by done. tauto.
Qed.

(** C4 (as amended).  On a sheet with at least one expectation whose rows
    have their dates in order, and for a query with valid dates in order,
    [checkForOverlap] returns a value and leaves the sheet as it is; the
    value is the id of the first row, in the order of the sheet, that is
    active, is for the same resource and of the same type, has another id
    than the one to ignore, and whose inclusive interval intersects that of
    the query; it is -1 when there is no such row. *)
Theorem checkForOverlap_first_conflict
    (s : Sheet) (resourceId expectationType startDate endDate excludeId : val)
    (ns ne : Z) :
  expectations s <> [] ->
  Forall (row_in_order rt) (expectations s) ->
  new_Date rt startDate = Some ns ->
  new_Date rt endDate = Some ne ->
  ns <= ne ->
  let run := checkForOverlap rt resourceId expectationType startDate endDate excludeId in
  let hit := is_conflict rt resourceId expectationType (Some ns) (Some ne) excludeId in
  sheet_after run s = s /\
  (exists v, outcome run s = Ok v) /\
  (forall (i : nat) (r : Row),
      expectations s !! i = Some r -> hit r ->
      (forall j r', (j < i)%nat -> expectations s !! j = Some r' -> ~ hit r') ->
      outcome run s = Ok (r_id r)) /\
  ((forall r, r ∈ expectations s -> ~ hit r) -> outcome run s = Ok minus_one).
Proof.
  intros Hne Hrows Hs He Hq run hit.
  apply lastRow_expectations in Hne.
  assert (forall r, r ∈ expectations s ->
            conflicts rt resourceId expectationType (Some ns) (Some ne)
              (parseInt rt (or_default excludeId minus_one)) r = true <-> hit r)
    as Hhit.
  { intros r Hr. apply conflicts_is_conflict; [done|].
    eapply Forall_forall in Hrows; [exact Hrows|done]. }
  unfold sheet_after, outcome, run. rewrite checkForOverlap_run.
  cbn [start sheet]. rewrite (proj2 (Z.leb_le _ _) Hne).
  cbn [fst snd after_read record sheet].
  split; [reflexivity|]. split; [by eexists|].
  rewrite Hs, He. unfold first_conflict.
  destruct (List.find _ (expectations s)) as [r0|] eqn:Hfind.
  - apply find_first in Hfind as (i0 & Hi0 & Hr0 & Hfirst). split.
    + intros i r Hi Hr Hbefore.
      apply Hhit in Hr; [|by eapply list_elem_of_lookup_2].
      destruct (Nat.lt_trichotomy i i0) as [Hlt|[->|Hgt]].
      * rewrite (Hfirst i r Hlt Hi) in Hr. discriminate.
      * rewrite Hi0 in Hi. by injection Hi as ->.
      * destruct (Hbefore i0 r0 Hgt Hi0). apply Hhit; [|done].
        by eapply list_elem_of_lookup_2.
    + intros Hnone. destruct (Hnone r0); [by eapply list_elem_of_lookup_2|].
      apply Hhit; [|done]. by eapply list_elem_of_lookup_2.
  - apply find_none in Hfind. split; [|done].
    intros i r Hi Hr _.
    apply Hhit in Hr; [|by eapply list_elem_of_lookup_2].
    eapply Forall_forall in Hfind; [|by eapply list_elem_of_lookup_2].
    simpl in Hfind. congruence.
Qed.

End OverlapDetector.

(** The witness of C4: expectation 1 runs to 2024-06-30, and a query from
    that very day on is in conflict with it: the answer is its id. *)
Lemma checkForOverlap_first_conflict_witness :
  outcome (checkForOverlap Demo.runtime (VNum (Fin 42)) (VStr "Agent")
             (VStr "2024-06-30") (VStr "2024-12-31") VUndef)
    (Demo.sheet_of [Demo.first_half]) = Ok (r_id Demo.first_half).
Proof.
  refine (proj1 (proj2 (proj2
    (checkForOverlap_first_conflict Demo.runtime
       (Demo.sheet_of [Demo.first_half]) (VNum (Fin 42)) (VStr "Agent")
       (VStr "2024-06-30") (VStr "2024-12-31") VUndef
       1719705600000 1735603200000 _ _ _ _ _))) 0%nat Demo.first_half _ _ _).
  - discriminate.
  - repeat constructor. intros a b Ha Hb. vm_compute in Ha, Hb.
    injection Ha as <-. injection Hb as <-. lia.
  - reflexivity.
  - reflexivity.
  - lia.
  - reflexivity.
  - repeat split; try reflexivity.
    exists 1719705600000, 1735603200000, 1704067200000, 1719705600000, 1719705600000.
    repeat split; try reflexivity; lia.
  - intros j r' Hj. lia.
Defined.

(** On that sheet the answer is the id 1; for a query that starts the day
    after, it is -1. *)
Example shared_boundary_conflicts :
  outcome (checkForOverlap Demo.runtime (VNum (Fin 42)) (VStr "Agent")
             (VStr "2024-06-30") (VStr "2024-12-31") VUndef)
    (Demo.sheet_of [Demo.first_half]) = Ok (VNum (Fin 1)) /\
  outcome (checkForOverlap Demo.runtime (VNum (Fin 42)) (VStr "Agent")
             (VStr "2024-07-01") (VStr "2024-12-31") VUndef)
    (Demo.sheet_of [Demo.first_half]) = Ok minus_one.
Proof. split; reflexivity. Qed.

(** C4 as the specification states it fails twice.  On a sheet without
    expectations the function ends with the exception of the range instead of
    returning -1.  And for a query whose start is after its end it returns
    the id of expectation 1, although no date lies in both intervals. *)
Lemma checkForOverlap_counterexample :
  outcome (checkForOverlap Demo.runtime (VNum (Fin 42)) (VStr "Agent")
             (VStr "2024-01-01") (VStr "2024-12-31") VUndef)
          (Demo.sheet_of []) = Throw RangeException
  /\
  (outcome (checkForOverlap Demo.runtime (VNum (Fin 42)) (VStr "Agent")
              (VStr "2024-09-01") (VStr "2024-03-01") VUndef)
           (Demo.sheet_of [Demo.first_half]) = Ok (VNum (Fin 1))
   /\
   ~ is_conflict Demo.runtime (VNum (Fin 42)) (VStr "Agent")
       (new_Date Demo.runtime (VStr "2024-09-01"))
       (new_Date Demo.runtime (VStr "2024-03-01")) VUndef Demo.first_half).
Proof.
  split; [reflexivity|]. split; [reflexivity|].
  intros (_ & _ & _ & _ & (a & b & c & d & t & Ha & Hb & Hc & Hd & H1 & H2)).
  vm_compute in Ha, Hb. injection Ha as <-. injection Hb as <-. lia.
Qed.

(* ================================================================== *)
(** ** The validator *)
(* ================================================================== *)

Lemma number_ge0_spec (v : val) :
  typeof_number v && ge0 v = true <-> exists n, v = VNum n /\ num_ge0 n = true.
Proof.
  destruct v; simpl; split; try discriminate;
    try (intros (n' & [=] & _); fail).
  - intros H. by exists n.
  - by intros (n' & [= <-] & H).
Qed.

Section Validator.

Variable rt : Runtime.

Lemma validation_condition_spec (e : Expectation) :
  validation_condition rt e = true <-> valid_fields rt e.
Proof.
  unfold validation_condition, valid_fields.
  rewrite !andb_true_iff, !date_ge_spec, date_le_spec.
  rewrite <- !number_ge0_spec, !andb_true_iff.
  split.
  - intros ((((((((H1 & H2) & H3) & H4) & H5) & H6) & H7) & H8) & (f & s & Hf & Hs & H)).
    repeat split; try done. by exists s, f.
  - intros ((H1 & H2) & (H3 & H4) & (H5 & H6) & H7 & H8 & (s & f & Hs & Hf & H)).
    repeat split; try done. by exists f, s.
Qed.

Lemma validateExpectation_run (e : Expectation) (w : World) :
  validateExpectation rt e w =
  (if validation_condition rt e then Ok tt else Throw ValidationFailed, w).
Proof.
  unfold validateExpectation. fold (validation_condition rt e).
  by destruct (validation_condition rt e).
Qed.

(** C3.  [validateExpectation] succeeds exactly when the three counts are
    numbers that are at least 0, the start is a valid date not before the
    date of '1/1/1990', the end is a valid date not after the date of
    '12/31/3000', and the end is not before the start; otherwise it fails
    with the validation error.  Either way it makes no call and leaves the
    sheet as it is. *)
Theorem validateExpectation_spec (e : Expectation) (w : World) :
  (validateExpectation rt e w = (Ok tt, w) <-> valid_fields rt e) /\
  (validateExpectation rt e w = (Throw ValidationFailed, w) <-> ~ valid_fields rt e).
Proof.
  rewrite validateExpectation_run, <- validation_condition_spec.
  destruct (validation_condition rt e); split; split; congruence.
Qed.

End Validator.

(** The validator on the candidates of the examples. *)
Example validateExpectation_examples :
  outcome (validateExpectation Demo.runtime Demo.year_2025) [] = Ok tt /\
  outcome (validateExpectation Demo.runtime Demo.negative_count) []
    = Throw ValidationFailed /\
  outcome (validateExpectation Demo.runtime Demo.count_as_text) []
    = Throw ValidationFailed /\
  outcome (validateExpectation Demo.runtime Demo.ends_before_start) []
    = Throw ValidationFailed /\
  outcome (validateExpectation Demo.runtime Demo.starts_in_1989) []
    = Throw ValidationFailed /\
  outcome (validateExpectation Demo.runtime Demo.ends_in_3001) []
    = Throw ValidationFailed /\
  outcome (validateExpectation Demo.runtime
             (Demo.candidate 42 "Agent" (VStr "1/1/1990") (VStr "12/31/3000")
                (VBool true))) [] = Ok tt.
Proof. repeat split; reflexivity. Qed.

(* ================================================================== *)
(** ** The three operations, run *)
(* ================================================================== *)

Section Runs.

Variable rt : Runtime.

Lemma find_rowToEdit_ge2 (idColumn : list val) (eid : val) :
  2 <= find_rowToEdit rt idColumn eid.
Proof.
  unfold find_rowToEdit, findIndex.
  destruct (findIndex_from_range
              (fun id => num_eqb (Number rt id) (Number rt eid)) idColumn 0); lia.
Qed.

Lemma addNewExpectation_run (e : Expectation) (w : World) :
  addNewExpectation rt e w =
  if 3 <=? lastRow (sheet w)
  then
    let rows := expectations (sheet w) in
    let isValid := add_conflict rt e rows in
    if strict_neq isValid minus_one
    then (Throw (ConflictingExpectation OpAdd (resourceId e) isValid), after_read 9 w)
    else
      let newRow := newRow_of (newId_of rt rows) e in
      (Ok (newId_of rt rows),
       stamp rt (lastRow (sheet w) + 1) 10 11
         (record EGetLastRow
            (record (EAppendRow newRow)
               (with_sheet (sheet w ++ [set_cells 1 newRow blank_row])
                  (after_read 1 (after_read 9 w))))))
  else (Throw RangeException, record EGetLastRow w).
Proof.
  unfold addNewExpectation, mbind, M_bind. rewrite checkForOverlap_run.
  destruct (3 <=? lastRow (sheet w)) eqn:E; [|reflexivity].
  cbn zeta. change (parseInt rt (or_default VUndef minus_one)) with (Fin (-1)).
  fold (add_conflict rt e (expectations (sheet w))).
  destruct (strict_neq _ minus_one); [reflexivity|].
  rewrite read_idColumn_run. cbn [after_read record sheet]. rewrite E.
  unfold appendRow, getLastRow, mret, M_ret, stamp, not_awaited, newId_of, newRow_of.
  autorewrite with world.
  destruct (updateModifiedBy rt _ 10 11 _) as [res w']. reflexivity.
Qed.

Lemma updateExpectationData_run (eid : val) (e : Expectation) (w : World) :
  updateExpectationData rt eid e w =
  if validation_condition rt e
  then
    if 3 <=? lastRow (sheet w)
    then
      let rows := expectations (sheet w) in
      let rowToEdit := find_rowToEdit rt (map r_id rows) eid in
      if 3 <=? rowToEdit
      then
        let isValid := update_conflict rt eid e rows in
        if strict_neq isValid minus_one
        then (Throw (ConflictingExpectation OpUpdate (resourceId e) isValid),
              after_read 9 (after_read 1 w))
        else
          (Ok tt,
           stamp rt rowToEdit 12 13
             (record (ESetValues rowToEdit 2 (updatedRow_of e))
                (with_sheet
                   (write_row (sheet w) rowToEdit (set_cells 2 (updatedRow_of e)))
                   (after_read 9 (after_read 1 w)))))
      else (Throw (ExpectationNotFound eid), after_read 1 w)
    else (Throw RangeException, record EGetLastRow w)
  else (Throw ValidationFailed, w).
Proof.
  unfold updateExpectationData, mbind, M_bind. rewrite validateExpectation_run.
  destruct (validation_condition rt e); [|reflexivity].
  rewrite read_idColumn_run.
  destruct (3 <=? lastRow (sheet w)) eqn:E; [|reflexivity].
  cbn zeta.
  destruct (3 <=? find_rowToEdit rt (map r_id (expectations (sheet w))) eid)
    eqn:Efound; [|reflexivity].
  rewrite checkForOverlap_run. autorewrite with world. rewrite E.
  fold (update_conflict rt eid e (expectations (sheet w))).
  destruct (strict_neq _ minus_one); [reflexivity|].
  fold (updatedRow_of e). unfold setValues. autorewrite with world.
  apply Z.leb_le in Efound.
  rewrite (proj2 (Z.leb_le 1 _)) by lia. cbn [andb].
  change ((1 <=? 2) && (1 <=? Z.of_nat (List.length (updatedRow_of e)))) with true.
  cbv iota.
  unfold stamp, not_awaited.
  destruct (updateModifiedBy rt _ 12 13 _) as [res w']. reflexivity.
Qed.

(** The row whose details [setExpectationStatus] reads. *)
Lemma details_row (s : Sheet) (rowToEdit : Z) :
  nth 0 (range_values s rowToEdit 2 1 7) [] = cells (sheet_row s rowToEdit) 2 7.
Proof.
  unfold range_values. simpl. by rewrite Z.add_0_r.
Qed.

Lemma setExpectationStatus_run (eid isActive : val) (w : World) :
  setExpectationStatus rt eid isActive w =
  if 3 <=? lastRow (sheet w)
  then
    let rows := expectations (sheet w) in
    let rowToEdit := find_rowToEdit rt (map r_id rows) eid in
    let written (w' : World) : World :=
      stamp rt rowToEdit 12 13
        (record (ESetValue rowToEdit 9 isActive)
           (with_sheet (write_row (sheet w) rowToEdit (set_cell 9 isActive)) w')) in
    if truthy isActive
    then
      let r := sheet_row (sheet w) rowToEdit in
      let w2 := after_read 9 (record (EGetValues rowToEdit 2 1 7) (after_read 1 w)) in
      let isValid := status_conflict rt r rows in
      if strict_neq isValid minus_one
      then (Throw (ConflictingExpectation OpStatus (r_resourceId r) isValid), w2)
      else if 3 <=? rowToEdit
           then (Ok tt, written w2)
           else (Throw (ExpectationNotFound eid), w2)
    else if 3 <=? rowToEdit
         then (Ok tt, written (after_read 1 w))
         else (Throw (ExpectationNotFound eid), after_read 1 w)
  else (Throw RangeException, record EGetLastRow w).
Proof.
  unfold setExpectationStatus, mbind, M_bind. rewrite read_idColumn_run.
  destruct (3 <=? lastRow (sheet w)) eqn:E; [|reflexivity].
  cbn zeta.
  set (rowToEdit := find_rowToEdit rt (map r_id (expectations (sheet w))) eid).
  assert (2 <= rowToEdit) as Hge by apply find_rowToEdit_ge2.
  assert (forall w', sheet w' = sheet w ->
            (if 3 <=? rowToEdit
             then mbind (fun _ : unit => not_awaited (updateModifiedBy rt rowToEdit 12 13))
                        (setValue rowToEdit 9 isActive)
             else throw (ExpectationNotFound eid)) w' =
            if 3 <=? rowToEdit
            then (Ok tt,
                  stamp rt rowToEdit 12 13
                    (record (ESetValue rowToEdit 9 isActive)
                       (with_sheet (write_row (sheet w) rowToEdit (set_cell 9 isActive)) w')))
            else (Throw (ExpectationNotFound eid), w')) as Hwrite.
  { intros w' Hw'. destruct (3 <=? rowToEdit) eqn:Efound; [|reflexivity].
    apply Z.leb_le in Efound. unfold mbind, M_bind, setValue.
    rewrite (proj2 (Z.leb_le 1 _)) by lia. cbn [andb].
    change (1 <=? 9) with true. cbv iota.
    rewrite Hw'. unfold stamp, not_awaited.
    destruct (updateModifiedBy rt _ 12 13 _) as [res w'']. reflexivity. }
  destruct (truthy isActive).
  - unfold getValues at 1. rewrite (proj2 (Z.leb_le 1 _)) by lia.
    cbn [andb]. change ((1 <=? 2) && (1 <=? 1) && (1 <=? 7)) with true. cbv iota.
    autorewrite with world. rewrite details_row.
    rewrite checkForOverlap_run. autorewrite with world. rewrite E.
    change (parseInt rt (or_default VUndef minus_one)) with (Fin (-1)).
    change (at_index (cells (sheet_row (sheet w) rowToEdit) 2 7) 0)
      with (r_resourceId (sheet_row (sheet w) rowToEdit)).
    change (at_index (cells (sheet_row (sheet w) rowToEdit) 2 7) 6)
      with (r_expectationType (sheet_row (sheet w) rowToEdit)).
    change (at_index (cells (sheet_row (sheet w) rowToEdit) 2 7) 4)
      with (r_startDate (sheet_row (sheet w) rowToEdit)).
    change (at_index (cells (sheet_row (sheet w) rowToEdit) 2 7) 5)
      with (r_endDate (sheet_row (sheet w) rowToEdit)).
    fold (status_conflict rt (sheet_row (sheet w) rowToEdit) (expectations (sheet w))).
    destruct (strict_neq _ minus_one); [reflexivity|].
    cbn [mret M_ret]. apply Hwrite. reflexivity.
  - cbn [mret M_ret]. apply Hwrite. reflexivity.
Qed.

(** [updateModifiedBy], not awaited, on a row below the headers: the row
    gets its two audit cells when the user has an employee id, and nothing
    happens otherwise. *)
Lemma stamp_run (i : nat) (r : Row) (c1 c2 : Z) (w : World) :
  expectations (sheet w) !! i = Some r -> 1 <= c1 -> 1 <= c2 ->
  expectations (sheet (stamp rt (Z.of_nat i + 3) c1 c2 w)) =
    <[i := stamp_row rt c1 c2 r]> (expectations (sheet w)) /\
  lastRow (sheet (stamp rt (Z.of_nat i + 3) c1 c2 w)) = lastRow (sheet w) /\
  trace (stamp rt (Z.of_nat i + 3) c1 c2 w) =
    trace w ++ stamp_calls rt (Z.of_nat i + 3) c1 c2.
Proof.
  intros Hr Hc1 Hc2.
  unfold stamp, not_awaited, updateModifiedBy, getUserEmID, stamp_row, stamp_calls,
    mbind, M_bind, mret, M_ret, throw.
  destruct (truthy (employee_id rt)); cbn [negb].
  - unfold setValue.
    rewrite (proj2 (Z.leb_le 1 (Z.of_nat i + 3))) by lia.
    rewrite (proj2 (Z.leb_le 1 c1)), (proj2 (Z.leb_le 1 c2)) by lia.
    cbn [andb snd sheet record with_sheet trace].
    pose proof (write_row_data (sheet w) i r (set_cell c1 (employee_id rt)) Hr) as H1.
    assert (expectations (write_row (sheet w) (Z.of_nat i + 3)
                            (set_cell c1 (employee_id rt))) !! i
            = Some (set_cell c1 (employee_id rt) r)) as Hr'.
    { rewrite H1. apply list_lookup_insert_eq. by eapply lookup_lt_Some. }
    split; [|split].
    + rewrite (write_row_data _ i _ _ Hr'), H1. by rewrite list_insert_insert_eq.
    + rewrite (write_row_length _ i _ _ Hr'). by rewrite (write_row_length _ i _ _ Hr).
    + by rewrite <- app_assoc.
  - cbn [snd]. split; [|split].
    + by rewrite list_insert_id.
    + reflexivity.
    + by rewrite app_nil_r.
Qed.

(** The audit cells are not among the cells that the checks read. *)
Lemma core_stamp_row (c1 c2 : Z) (r : Row) :
  (c1 = 10 /\ c2 = 11) \/ (c1 = 12 /\ c2 = 13) ->
  core (stamp_row rt c1 c2 r) = core r.
Proof.
  unfold stamp_row. destruct (truthy (employee_id rt)); [|reflexivity].
  by intros [[-> ->]|[-> ->]].
Qed.

End Runs.

(** Take the cases of the conditions of a run. *)
Ltac run_cases :=
  repeat match goal with
         | |- context [if ?c then _ else _] => destruct c eqn:?
         | H : context [if ?c then _ else _] |- _ => destruct c eqn:?
         end.

(* ================================================================== *)
(** ** Failures write nothing *)
(* ================================================================== *)

(** C8.  Whenever [addNewExpectation], [updateExpectationData] or
    [setExpectationStatus] ends with an error (the validation error, the
    error of a conflicting expectation, the error of an id that is not found,
    or any other), the sheet is what it was before: no row is appended and no
    cell is changed. *)
Theorem failure_leaves_sheet (rt : Runtime) (s : Sheet) :
  (forall (e : Expectation) (err : Error),
      outcome (addNewExpectation rt e) s = Throw err ->
      sheet_after (addNewExpectation rt e) s = s) /\
  (forall (expectationId : val) (e : Expectation) (err : Error),
      outcome (updateExpectationData rt expectationId e) s = Throw err ->
      sheet_after (updateExpectationData rt expectationId e) s = s) /\
  (forall (expectationId isActive : val) (err : Error),
      outcome (setExpectationStatus rt expectationId isActive) s = Throw err ->
      sheet_after (setExpectationStatus rt expectationId isActive) s = s).
Proof.
  unfold outcome, sheet_after. split; [|split].
  - intros e err. rewrite addNewExpectation_run. cbn zeta.
    run_cases; cbn [fst snd]; try discriminate; reflexivity.
  - intros eid e err. rewrite updateExpectationData_run. cbn zeta.
    run_cases; cbn [fst snd]; try discriminate; reflexivity.
  - intros eid isActive err. rewrite setExpectationStatus_run. cbn zeta.
    run_cases; cbn [fst snd]; try discriminate; reflexivity.
Qed.

(* ================================================================== *)
(** ** The search by id *)
(* ================================================================== *)

Section Search.

Variable rt : Runtime.

(** Either no row has the id, and the row to edit is the header row 2;
    or the row to edit is the first row with the id. *)
Lemma find_rowToEdit_cases (rows : list Row) (eid : val) :
  let same r := num_eqb (Number rt (r_id r)) (Number rt eid) in
  (find_rowToEdit rt (map r_id rows) eid = 2 /\
   Forall (fun r => same r = false) rows)
  \/
  (exists (i : nat) (r : Row),
      find_rowToEdit rt (map r_id rows) eid = Z.of_nat i + 3 /\
      rows !! i = Some r /\ same r = true /\
      forall j r', (j < i)%nat -> rows !! j = Some r' -> same r' = false).
Proof.
  intros same. unfold find_rowToEdit, findIndex.
  set (p := fun id => num_eqb (Number rt id) (Number rt eid)).
  destruct (findIndex_from_range p (map r_id rows) 0) as [Hnone|Hrange].
  - left. split; [lia|].
    apply findIndex_from_none in Hnone; [|lia].
    apply Forall_fmap in Hnone. exact Hnone.
  - right.
    destruct (findIndex_from_found p (map r_id rows) 0
                (Z.to_nat (findIndex_from p 0 (map r_id rows))))
      as (x & Hx & Hpx & Hfirst); [lia|lia|].
    rewrite list_lookup_fmap in Hx.
    destruct (rows !! Z.to_nat (findIndex_from p 0 (map r_id rows)))
      as [r|] eqn:Hr; [|discriminate].
    injection Hx as <-.
    exists (Z.to_nat (findIndex_from p 0 (map r_id rows))), r.
    split; [lia|]. split; [done|]. split; [done|].
    intros j r' Hj Hr'. apply (Hfirst j (r_id r')); [done|].
    by rewrite list_lookup_fmap, Hr'.
Qed.

End Search.

(* ================================================================== *)
(** ** Deactivation *)
(* ================================================================== *)

(** C6.  For an id that a row of the sheet has, [setExpectationStatus(id,
    false)] succeeds whatever the rows of the sheet are: it reads the column
    of ids, writes [false] to the cell of column 9 of the first row with the
    id and stamps that row; it does not read the nine columns of the overlap
    check, and so never fails with the error of a conflicting expectation. *)
Theorem deactivation_makes_no_overlap_check
    (rt : Runtime) (s : Sheet) (expectationId : val) :
  (exists r, r ∈ expectations s /\
             num_eqb (Number rt (r_id r)) (Number rt expectationId) = true) ->
  let run := setExpectationStatus rt expectationId (VBool false) in
  let rowToEdit := find_rowToEdit rt (map r_id (expectations s)) expectationId in
  outcome run s = Ok tt /\
  calls run s =
    [EGetLastRow; EGetValues 3 1 (lastRow s - 2) 1;
     ESetValue rowToEdit 9 (VBool false)] ++ stamp_calls rt rowToEdit 12 13 /\
  Forall (fun e => is_overlap_read e = false) (calls run s) /\
  (exists (i : nat) (r : Row),
      rowToEdit = Z.of_nat i + 3 /\ expectations s !! i = Some r /\
      expectations (sheet_after run s) =
        <[i := stamp_row rt 12 13 (set_cell 9 (VBool false) r)]> (expectations s)).
Proof.
  intros (r0 & Hin & Hsame) run rowToEdit.
  assert (3 <= lastRow s) as Hlast.
  { apply lastRow_expectations. intros Hnil. rewrite Hnil in Hin. by inversion Hin. }
  destruct (find_rowToEdit_cases rt (expectations s) expectationId)
    as [[_ Hnone]|(i & r & Hrow & Hr & _ & _)].
  { eapply Forall_forall in Hnone; [|exact Hin]. simpl in Hnone. congruence. }
  fold rowToEdit in Hrow.
  assert (forall w' : World, sheet w' = s ->
            expectations (sheet (record (ESetValue rowToEdit 9 (VBool false))
              (with_sheet (write_row s rowToEdit (set_cell 9 (VBool false))) w'))) !! i
            = Some (set_cell 9 (VBool false) r)) as Hwritten.
  { intros w' Hw'. autorewrite with world. rewrite Hrow.
    rewrite (write_row_data s i r _ Hr). apply list_lookup_insert_eq.
    by eapply lookup_lt_Some. }
  assert (calls run s =
            [EGetLastRow; EGetValues 3 1 (lastRow s - 2) 1;
             ESetValue rowToEdit 9 (VBool false)] ++ stamp_calls rt rowToEdit 12 13)
    as Hcalls.
  { unfold calls, run. rewrite setExpectationStatus_run. autorewrite with world.
    rewrite (proj2 (Z.leb_le _ _) Hlast). cbn zeta. cbn [truthy]. fold rowToEdit.
    rewrite (proj2 (Z.leb_le 3 rowToEdit)) by lia. cbn [snd].
    rewrite Hrow.
    destruct (stamp_run rt i _ 12 13 _ (Hwritten (after_read 1 (start s)) eq_refl))
      as (_ & _ & Htrace); [lia|lia|].
    rewrite Hrow in Htrace. rewrite Htrace. reflexivity. }
  split; [|split; [exact Hcalls|split]].
  - unfold outcome, run. rewrite setExpectationStatus_run. autorewrite with world.
    rewrite (proj2 (Z.leb_le _ _) Hlast). cbn zeta. cbn [truthy]. fold rowToEdit.
    by rewrite (proj2 (Z.leb_le 3 rowToEdit)) by lia.
  - rewrite Hcalls. unfold stamp_calls. rewrite Hrow.
    replace (Z.of_nat i + 3) with (Z.pos (Pos.of_nat (i + 3))) by lia.
    destruct (truthy (employee_id rt)); repeat constructor.
  - exists i, r. split; [done|]. split; [done|].
    unfold sheet_after, run. rewrite setExpectationStatus_run. autorewrite with world.
    rewrite (proj2 (Z.leb_le _ _) Hlast). cbn zeta. cbn [truthy]. fold rowToEdit.
    rewrite (proj2 (Z.leb_le 3 rowToEdit)) by lia. cbn [snd].
    rewrite Hrow.
    destruct (stamp_run rt i _ 12 13 _ (Hwritten (after_read 1 (start s)) eq_refl))
      as (Hsheet & _ & _); [lia|lia|].
    rewrite Hrow in Hsheet. rewrite Hsheet. autorewrite with world.
    rewrite (write_row_data s i r _ Hr). by rewrite list_insert_insert_eq.
Qed.

(* ================================================================== *)
(** ** What a successful run has checked and written *)
(* ================================================================== *)

Section Success.

Variable rt : Runtime.

Lemma addNewExpectation_success (s : Sheet) (e : Expectation) (newId : val) :
  outcome (addNewExpectation rt e) s = Ok newId ->
  3 <= lastRow s /\
  add_conflict rt e (expectations s) = minus_one /\
  newId = newId_of rt (expectations s) /\
  exists r' : Row,
    expectations (sheet_after (addNewExpectation rt e) s) = expectations s ++ [r'] /\
    core r' = newRow_of newId e.
Proof.
  unfold outcome, sheet_after. rewrite addNewExpectation_run.
  autorewrite with world. cbn zeta.
  destruct (3 <=? lastRow s) eqn:Hlast; [|discriminate].
  apply Z.leb_le in Hlast.
  destruct (strict_neq (add_conflict rt e (expectations s)) minus_one) eqn:Hc;
    [discriminate|].
  cbn [fst snd]. intros [= <-].
  split; [done|]. split; [by apply strict_neq_false|]. split; [done|].
  set (newRow := newRow_of (newId_of rt (expectations s)) e).
  set (w1 := record EGetLastRow
               (record (EAppendRow newRow)
                  (with_sheet (s ++ [set_cells 1 newRow blank_row])
                     (after_read 1 (after_read 9 (start s)))))).
  assert (expectations (sheet w1) !! List.length (expectations s)
          = Some (set_cells 1 newRow blank_row)) as Hr.
  { unfold w1. autorewrite with world. rewrite expectations_app by done.
    rewrite lookup_app_r by lia. by rewrite Nat.sub_diag. }
  destruct (stamp_run rt _ _ 10 11 w1 Hr) as (Hsheet & _ & _); [lia|lia|].
  replace (Z.of_nat (List.length (expectations s)) + 3) with (lastRow s + 1)
    in Hsheet by (rewrite length_expectations; lia).
  exists (stamp_row rt 10 11 (set_cells 1 newRow blank_row)). split.
  - rewrite Hsheet. unfold w1. autorewrite with world.
    rewrite expectations_app by done.
    rewrite insert_app_r_alt by lia. by rewrite Nat.sub_diag.
  - rewrite core_stamp_row by (left; done). reflexivity.
Qed.

Lemma updateExpectationData_success (s : Sheet) (eid : val) (e : Expectation) :
  outcome (updateExpectationData rt eid e) s = Ok tt ->
  validation_condition rt e = true /\
  update_conflict rt eid e (expectations s) = minus_one /\
  exists (i : nat) (r r' : Row),
    expectations s !! i = Some r /\
    num_eqb (Number rt (r_id r)) (Number rt eid) = true /\
    expectations (sheet_after (updateExpectationData rt eid e) s)
      = <[i := r']> (expectations s) /\
    core r' = r_id r :: updatedRow_of e.
Proof.
  unfold outcome, sheet_after. rewrite updateExpectationData_run.
  autorewrite with world. cbn zeta.
  destruct (validation_condition rt e); [|discriminate].
  destruct (3 <=? lastRow s) eqn:Hlast; [|discriminate].
  destruct (find_rowToEdit_cases rt (expectations s) eid)
    as [[-> _]|(i & r & -> & Hr & Hsame & _)]; [discriminate|].
  rewrite (proj2 (Z.leb_le 3 (Z.of_nat i + 3))) by lia.
  destruct (strict_neq (update_conflict rt eid e (expectations s)) minus_one) eqn:Hc;
    [discriminate|].
  cbn [fst snd]. intros _.
  split; [done|]. split; [by apply strict_neq_false|].
  set (w1 := record (ESetValues (Z.of_nat i + 3) 2 (updatedRow_of e))
               (with_sheet (write_row s (Z.of_nat i + 3) (set_cells 2 (updatedRow_of e)))
                  (after_read 9 (after_read 1 (start s))))).
  assert (expectations (sheet w1) !! i = Some (set_cells 2 (updatedRow_of e) r)) as Hr'.
  { unfold w1. autorewrite with world. rewrite (write_row_data s i r _ Hr).
    apply list_lookup_insert_eq. by eapply lookup_lt_Some. }
  destruct (stamp_run rt _ _ 12 13 w1 Hr') as (Hsheet & _ & _); [lia|lia|].
  exists i, r, (stamp_row rt 12 13 (set_cells 2 (updatedRow_of e) r)).
  split; [done|]. split; [done|]. split.
  - rewrite Hsheet. unfold w1. autorewrite with world.
    rewrite (write_row_data s i r _ Hr). by rewrite list_insert_insert_eq.
  - rewrite core_stamp_row by (right; done). reflexivity.
Qed.

Lemma setExpectationStatus_success (s : Sheet) (eid isActive : val) :
  outcome (setExpectationStatus rt eid isActive) s = Ok tt ->
  exists (i : nat) (r r' : Row),
    expectations s !! i = Some r /\
    num_eqb (Number rt (r_id r)) (Number rt eid) = true /\
    (truthy isActive = true -> status_conflict rt r (expectations s) = minus_one) /\
    expectations (sheet_after (setExpectationStatus rt eid isActive) s)
      = <[i := r']> (expectations s) /\
    core r' = core (set_cell 9 isActive r).
Proof.
  unfold outcome, sheet_after. rewrite setExpectationStatus_run.
  autorewrite with world. cbn zeta.
  destruct (3 <=? lastRow s) eqn:Hlast; [|discriminate].
  destruct (find_rowToEdit_cases rt (expectations s) eid)
    as [[-> _]|(i & r & -> & Hr & Hsame & _)].
  { change (3 <=? 2) with false. cbv iota. run_cases; discriminate. }
  rewrite (proj2 (Z.leb_le 3 (Z.of_nat i + 3))) by lia.
  rewrite (sheet_row_data s i r Hr).
  assert (forall w', sheet w' = s ->
            expectations (sheet (stamp rt (Z.of_nat i + 3) 12 13
              (record (ESetValue (Z.of_nat i + 3) 9 isActive)
                 (with_sheet (write_row s (Z.of_nat i + 3) (set_cell 9 isActive)) w'))))
            = <[i := stamp_row rt 12 13 (set_cell 9 isActive r)]> (expectations s))
    as Hwritten.
  { intros w' Hw'.
    set (w1 := record (ESetValue (Z.of_nat i + 3) 9 isActive)
                 (with_sheet (write_row s (Z.of_nat i + 3) (set_cell 9 isActive)) w')).
    assert (expectations (sheet w1) !! i = Some (set_cell 9 isActive r)) as Hr'.
    { unfold w1. autorewrite with world. rewrite (write_row_data s i r _ Hr).
      apply list_lookup_insert_eq. by eapply lookup_lt_Some. }
    destruct (stamp_run rt _ _ 12 13 w1 Hr') as (Hsheet & _ & _); [lia|lia|].
    rewrite Hsheet. unfold w1. autorewrite with world.
    rewrite (write_row_data s i r _ Hr). by rewrite list_insert_insert_eq. }
  destruct (truthy isActive).
  - destruct (strict_neq (status_conflict rt r (expectations s)) minus_one) eqn:Hc;
      [discriminate|].
    cbn [fst snd]. intros _.
    exists i, r, (stamp_row rt 12 13 (set_cell 9 isActive r)).
    split; [done|]. split; [done|]. split; [intros _; by apply strict_neq_false|].
    split; [by apply Hwritten|]. by rewrite core_stamp_row by (right; done).
  - cbn [fst snd]. intros _.
    exists i, r, (stamp_row rt 12 13 (set_cell 9 isActive r)).
    split; [done|]. split; [done|]. split; [discriminate|].
    split; [by apply Hwritten|]. by rewrite core_stamp_row by (right; done).
Qed.

End Success.

(* ================================================================== *)
(** ** The invariant of the store *)
(* ================================================================== *)

Lemma core_fields (r : Row) (l : list val) :
  core r = l ->
  r_id r = at_index l 0 /\ r_resourceId r = at_index l 1 /\
  r_startDate r = at_index l 5 /\ r_endDate r = at_index l 6 /\
  r_expectationType r = at_index l 7 /\ r_active r = at_index l 8.
Proof. intros <-. unfold core. rewrite cells_9. by repeat split. Qed.

Section Invariant.

Variable rt : Runtime.

Lemma rows_intersect_sym (a b : Row) :
  rows_intersect rt a b -> rows_intersect rt b a.
Proof. apply intersecting_sym. Qed.

Lemma same_target_sym (a b : Row) : same_target a b = same_target b a.
Proof.
  unfold same_target.
  by rewrite (strict_eq_sym (r_resourceId a)), (strict_eq_sym (r_expectationType a)).
Qed.

(** A new last row that is clear of all rows keeps the invariant. *)
Lemma no_overlap_snoc (rows : list Row) (c : Row) :
  no_overlap rt rows ->
  (forall a, a ∈ rows -> clear_of rt c a) ->
  no_overlap rt (rows ++ [c]).
Proof.
  intros Hinv Hclear i j a b Hij Ha Hb Hact_a Hact_b Hsame Hmeet.
  apply lookup_app_Some in Ha as [Ha|[Hi Ha]];
    apply lookup_app_Some in Hb as [Hb|[Hj Hb]].
  - exact (Hinv i j a b Hij Ha Hb Hact_a Hact_b Hsame Hmeet).
  - apply list_lookup_singleton_Some in Hb as [_ <-].
    apply (Hclear a); try done. by eapply list_elem_of_lookup_2.
  - apply list_lookup_singleton_Some in Ha as [_ <-].
    apply (Hclear b); try done.
    + by eapply list_elem_of_lookup_2.
    + by rewrite same_target_sym.
    + by apply rows_intersect_sym.
  - apply list_lookup_singleton_Some in Ha as [Hi' _].
    apply list_lookup_singleton_Some in Hb as [Hj' _]. lia.
Qed.

(** A row replaced by one that is clear of all other rows keeps the
    invariant. *)
Lemma no_overlap_insert (rows : list Row) (k : nat) (c : Row) :
  no_overlap rt rows ->
  (forall j a, j <> k -> rows !! j = Some a -> clear_of rt c a) ->
  no_overlap rt (<[k := c]> rows).
Proof.
  intros Hinv Hclear i j a b Hij Ha Hb Hact_a Hact_b Hsame Hmeet.
  apply list_lookup_insert_Some in Ha as [(-> & <- & Hk)|[Hik Ha]];
    apply list_lookup_insert_Some in Hb as [(Hjk & <- & Hk')|[Hjk Hb]].
  - congruence.
  - apply (Hclear j b); try done.
    + by rewrite same_target_sym.
    + by apply rows_intersect_sym.
  - by apply (Hclear i a).
  - exact (Hinv i j a b Hij Ha Hb Hact_a Hact_b Hsame Hmeet).
Qed.

(** When no row has the id -1, the answer -1 of the overlap check means
    that no row conflicts. *)
Lemma first_conflict_none (res ty : val) (ns ne : option Z) (ig : num)
    (rows : list Row) :
  no_sentinel_id rows ->
  first_conflict rt res ty ns ne ig rows = minus_one ->
  Forall (fun r => conflicts rt res ty ns ne ig r = false) rows.
Proof.
  intros Hids. unfold first_conflict.
  destruct (List.find _ rows) as [r|] eqn:Hfind.
  - intros Hr. apply find_some in Hfind as [Hin _].
    apply list_elem_of_In in Hin.
    eapply Forall_forall in Hids; [|exact Hin]. simpl in Hids.
    rewrite Hr in Hids. discriminate.
  - intros _. by apply find_none.
Qed.

(** A row that the overlap check has compared with the new values, and
    found no conflict with, is clear of the row that gets these values. *)
Lemma not_conflicts_clear_of (res ty sd ed : val) (ig : num) (a c : Row) :
  conflicts rt res ty (new_Date rt sd) (new_Date rt ed) ig a = false ->
  strict_neq (r_id a) (VNum ig) = true ->
  r_resourceId c = res -> r_expectationType c = ty ->
  r_startDate c = sd -> r_endDate c = ed ->
  clear_of rt c a.
Proof.
  intros Hno Hid <- <- <- <- Hact_a Hact_c Hsame Hmeet.
  unfold same_target in Hsame. apply andb_true_iff in Hsame as [Hres Hty].
  apply rows_intersect_sym, intersecting_overlap_test in Hmeet.
  unfold conflicts in Hno. by rewrite Hact_a, Hres, Hty, Hid, Hmeet in Hno.
Qed.

End Invariant.

Section Preservation.

Variable rt : Runtime.

Lemma not_sentinel (rows : list Row) (a : Row) :
  no_sentinel_id rows -> a ∈ rows -> strict_neq (r_id a) (VNum (Fin (-1))) = true.
Proof.
  intros Hids Ha. eapply Forall_forall in Hids; [|exact Ha]. simpl in Hids.
  unfold strict_neq. fold minus_one. by rewrite Hids.
Qed.

(** With distinct ids, an update ignores no other row than the one it
    edits. *)
Lemma other_rows_not_ignored (rows : list Row) (eid : val) (i j : nat) (r a : Row) :
  distinct_ids rt rows -> id_read_alike rt eid ->
  rows !! i = Some r ->
  num_eqb (Number rt (r_id r)) (Number rt eid) = true ->
  j <> i -> rows !! j = Some a ->
  strict_neq (r_id a) (VNum (parseInt rt (or_default eid minus_one))) = true.
Proof.
  intros Hdistinct Hread Hr Hsame Hji Ha.
  assert (or_default eid minus_one = eid) as ->.
  { destruct eid; try reflexivity. simpl in Hsame.
    by destruct (Number rt (r_id r)). }
  destruct (strict_neq (r_id a) (VNum (parseInt rt eid))) eqn:Hneq; [reflexivity|].
  exfalso. unfold strict_neq in Hneq. apply negb_false_iff in Hneq.
  pose proof (strict_eq_eq _ _ Hneq) as Hid. rewrite Hid in Hneq. simpl in Hneq.
  pose proof (Hdistinct j i a r Hji Ha Hr) as Hd.
  rewrite Hid in Hd. simpl in Hd.
  destruct Hread as [Hread|Hread].
  - apply num_eqb_eq in Hsame. rewrite Hsame, <- Hread in Hd. congruence.
  - rewrite Hread in Hneq. discriminate.
Qed.

(** C1 (as amended).  On a sheet whose rows have distinct ids, none of
    them -1, and in which no two active expectations for the same resource
    and of the same type have intersecting intervals, every successful
    [addNewExpectation], every successful [updateExpectationData] for an id
    that [parseInt] and [Number] read alike, and every successful
    [setExpectationStatus] leaves a sheet in which again no two active
    expectations for the same resource and of the same type have
    intersecting intervals. *)
Theorem mutations_keep_no_overlap (s : Sheet) :
  no_overlap rt (expectations s) ->
  distinct_ids rt (expectations s) ->
  no_sentinel_id (expectations s) ->
  (forall (e : Expectation) (newId : val),
      outcome (addNewExpectation rt e) s = Ok newId ->
      no_overlap rt (expectations (sheet_after (addNewExpectation rt e) s))) /\
  (forall (expectationId : val) (e : Expectation),
      id_read_alike rt expectationId ->
      outcome (updateExpectationData rt expectationId e) s = Ok tt ->
      no_overlap rt
        (expectations (sheet_after (updateExpectationData rt expectationId e) s))) /\
  (forall (expectationId isActive : val),
      outcome (setExpectationStatus rt expectationId isActive) s = Ok tt ->
      no_overlap rt
        (expectations (sheet_after (setExpectationStatus rt expectationId isActive) s))).
Proof.
  intros Hinv Hdistinct Hids. split; [|split].
  - intros e newId Hok.
    apply addNewExpectation_success in Hok as (_ & Hnone & _ & r' & -> & Hcore).
    apply core_fields in Hcore as (_ & Hres & Hsd & Hed & Hty & _).
    apply first_conflict_none in Hnone; [|done].
    apply no_overlap_snoc; [done|]. intros a Ha.
    eapply Forall_forall in Hnone; [|exact Ha]. simpl in Hnone.
    apply (not_conflicts_clear_of rt (resourceId e) (expectationType e)
             (startDate e) (endDate e) (Fin (-1)) a r'); try done.
    by apply (not_sentinel (expectations s)).
  - intros eid e Hread Hok.
    apply updateExpectationData_success in Hok
      as (_ & Hnone & i & r & r' & Hr & Hsame & -> & Hcore).
    apply core_fields in Hcore as (_ & Hres & Hsd & Hed & Hty & _).
    apply first_conflict_none in Hnone; [|done].
    apply no_overlap_insert; [done|]. intros j a Hji Ha.
    eapply Forall_forall in Hnone; [|by eapply list_elem_of_lookup_2].
    simpl in Hnone.
    apply (not_conflicts_clear_of rt (resourceId e) (expectationType e)
             (startDate e) (endDate e)
             (parseInt rt (or_default eid minus_one)) a r'); try done.
    by apply (other_rows_not_ignored (expectations s) eid i j r a).
  - intros eid isActive Hok.
    apply setExpectationStatus_success in Hok
      as (i & r & r' & Hr & Hsame & Hcheck & -> & Hcore).
    apply core_fields in Hcore as (_ & Hres & Hsd & Hed & Hty & Hact).
    apply no_overlap_insert; [done|]. intros j a Hji Ha.
    destruct (truthy isActive) eqn:Hactive.
    + specialize (Hcheck eq_refl).
      apply first_conflict_none in Hcheck; [|done].
      eapply Forall_forall in Hcheck; [|by eapply list_elem_of_lookup_2].
      simpl in Hcheck.
      apply (not_conflicts_clear_of rt (r_resourceId r) (r_expectationType r)
               (r_startDate r) (r_endDate r) (Fin (-1)) a r'); try done.
      apply (not_sentinel (expectations s)); [done|].
      by eapply list_elem_of_lookup_2.
    + intros _ Hact'. rewrite Hact in Hact'.
      change (truthy isActive = true) in Hact'. congruence.
Qed.

End Preservation.

(* ================================================================== *)
(** ** The invariant on the sheets of the examples *)
(* ================================================================== *)

(** The invariant, or the distinctness of the ids, on a list of at most
    three given rows. *)
Ltac on_given_rows :=
  let i := fresh "i" in
  let j := fresh "j" in
  let Hij := fresh "Hij" in
  let Ha := fresh "Ha" in
  let Hb := fresh "Hb" in
  intros i j ? ? Hij Ha Hb;
  destruct i as [|[|[|i]]], j as [|[|[|j]]];
  simpl in Ha, Hb; try discriminate; try (exfalso; apply Hij; reflexivity);
  injection Ha as <-; injection Hb as <-.

Ltac no_date_in_both :=
  let Hsame := fresh "Hsame" in
  let H1 := fresh "H" in
  let H2 := fresh "H" in
  let H3 := fresh "H" in
  let H4 := fresh "H" in
  intros _ _ Hsame (? & ? & ? & ? & ? & H1 & H2 & H3 & H4 & ? & ?);
  vm_compute in Hsame, H1, H2, H3, H4; try discriminate;
  injection H1 as <-; injection H2 as <-; injection H3 as <-; injection H4 as <-;
  lia.

Lemma halves_no_overlap :
  no_overlap Demo.runtime
    (expectations (Demo.sheet_of [Demo.first_half; Demo.second_half])).
Proof. on_given_rows; no_date_in_both. Qed.

Lemma halves_distinct_ids :
  distinct_ids Demo.runtime
    (expectations (Demo.sheet_of [Demo.first_half; Demo.second_half])).
Proof. on_given_rows; reflexivity. Qed.

Lemma halves_no_sentinel_id :
  no_sentinel_id (expectations (Demo.sheet_of [Demo.first_half; Demo.second_half])).
Proof. repeat constructor. Qed.

(** The witness of C1: on the sheet of the two halves of 2024, adding an
    expectation for 2025, moving expectation 2 to the second half of the
    year again, and archiving expectation 1 all succeed and keep the
    invariant. *)
Lemma mutations_keep_no_overlap_witness :
  (outcome (addNewExpectation Demo.runtime Demo.year_2025)
     (Demo.sheet_of [Demo.first_half; Demo.second_half]) = Ok (VNum (Fin 3)) /\
   no_overlap Demo.runtime
     (expectations
        (sheet_after (addNewExpectation Demo.runtime Demo.year_2025)
           (Demo.sheet_of [Demo.first_half; Demo.second_half])))) /\
  (outcome (updateExpectationData Demo.runtime (VStr "2") Demo.july_to_december)
     (Demo.sheet_of [Demo.first_half; Demo.second_half]) = Ok tt /\
   no_overlap Demo.runtime
     (expectations
        (sheet_after (updateExpectationData Demo.runtime (VStr "2") Demo.july_to_december)
           (Demo.sheet_of [Demo.first_half; Demo.second_half])))) /\
  (outcome (setExpectationStatus Demo.runtime (VNum (Fin 1)) (VBool false))
     (Demo.sheet_of [Demo.first_half; Demo.second_half]) = Ok tt /\
   no_overlap Demo.runtime
     (expectations
        (sheet_after (setExpectationStatus Demo.runtime (VNum (Fin 1)) (VBool false))
           (Demo.sheet_of [Demo.first_half; Demo.second_half])))).
Proof.
  destruct (mutations_keep_no_overlap Demo.runtime
              (Demo.sheet_of [Demo.first_half; Demo.second_half])
              halves_no_overlap halves_distinct_ids halves_no_sentinel_id)
    as (Hadd & Hupdate & Hstatus).
  split; [|split].
  - split; [reflexivity|]. apply (Hadd Demo.year_2025 (VNum (Fin 3))). reflexivity.
  - split; [reflexivity|]. apply (Hupdate (VStr "2") Demo.july_to_december).
    + left. reflexivity.
    + reflexivity.
  - split; [reflexivity|]. apply (Hstatus (VNum (Fin 1)) (VBool false)). reflexivity.
Defined.

(** The invariant fails for two active rows of the sheet, the first and
    the second, that are for the same resource and of the same type and both
    contain the day [t]. *)
Ltac both_contain a b c d t :=
  let H := fresh "H" in
  intros H; eapply (H 0%nat 1%nat);
  [ lia | reflexivity | reflexivity | reflexivity | reflexivity | reflexivity
  | exists a, b, c, d, t; repeat split; try reflexivity; lia ].

(** C1 as the specification states it fails on four sheets that satisfy
    the invariant.  (1) Two rows share the id 5: the update of expectation 5
    ignores both, edits the first, and gives it the resource and the dates of
    the second.  (2) A row has the id -1: the overlap check of an addition
    ignores it, and the new expectation lies within its interval.  (3) The id
    is the string 1e1: the update edits expectation 10 and ignores
    expectation 1, whose interval it gives to expectation 10.  (4) The id is
    the number 10^21, whose notation is 1e+21: the update edits the
    expectation with this id and ignores expectation 1, whose interval it
    gives to the other. *)
Lemma mutations_keep_no_overlap_counterexample :
  (no_overlap Demo.runtime (expectations (Demo.sheet_of [Demo.twin_41; Demo.twin_42])) /\
   outcome (updateExpectationData Demo.runtime (VNum (Fin 5)) Demo.january_to_june)
     (Demo.sheet_of [Demo.twin_41; Demo.twin_42]) = Ok tt /\
   ~ no_overlap Demo.runtime
       (expectations
          (sheet_after (updateExpectationData Demo.runtime (VNum (Fin 5)) Demo.january_to_june)
             (Demo.sheet_of [Demo.twin_41; Demo.twin_42])))) /\
  (no_overlap Demo.runtime (expectations (Demo.sheet_of [Demo.sentinel_row])) /\
   outcome (addNewExpectation Demo.runtime Demo.march_to_april)
     (Demo.sheet_of [Demo.sentinel_row]) = Ok (VNum (Fin 0)) /\
   ~ no_overlap Demo.runtime
       (expectations
          (sheet_after (addNewExpectation Demo.runtime Demo.march_to_april)
             (Demo.sheet_of [Demo.sentinel_row])))) /\
  (no_overlap Demo.runtime_with_exponent
     (expectations (Demo.sheet_of [Demo.first_half; Demo.tenth])) /\
   outcome (updateExpectationData Demo.runtime_with_exponent (VStr "1e1")
              Demo.january_to_june)
     (Demo.sheet_of [Demo.first_half; Demo.tenth]) = Ok tt /\
   ~ no_overlap Demo.runtime_with_exponent
       (expectations
          (sheet_after (updateExpectationData Demo.runtime_with_exponent (VStr "1e1")
                          Demo.january_to_june)
             (Demo.sheet_of [Demo.first_half; Demo.tenth])))) /\
  (no_overlap Demo.runtime
     (expectations (Demo.sheet_of [Demo.first_half; Demo.sextillionth])) /\
   outcome (updateExpectationData Demo.runtime (VNum (Fin 1000000000000000000000))
              Demo.january_to_june)
     (Demo.sheet_of [Demo.first_half; Demo.sextillionth]) = Ok tt /\
   ~ no_overlap Demo.runtime
       (expectations
          (sheet_after (updateExpectationData Demo.runtime
                          (VNum (Fin 1000000000000000000000)) Demo.january_to_june)
             (Demo.sheet_of [Demo.first_half; Demo.sextillionth])))).
Proof.
  split; [|split; [|split]].
  - split; [on_given_rows; no_date_in_both|]. split; [reflexivity|].
    both_contain 1704067200000 1719705600000 1704067200000 1719705600000
      1704067200000.
  - split; [on_given_rows|]. split; [reflexivity|].
    both_contain 1704067200000 1719705600000 1709251200000 1714435200000
      1709251200000.
  - split; [on_given_rows; no_date_in_both|]. split; [reflexivity|].
    both_contain 1704067200000 1719705600000 1704067200000 1719705600000
      1704067200000.
  - split; [on_given_rows; no_date_in_both|]. split; [vm_compute; reflexivity|].
    match goal with
    | |- ~ no_overlap _ ?rows =>
        let written := eval vm_compute in rows in
        replace rows with written by (vm_compute; reflexivity)
    end.
    both_contain 1704067200000 1719705600000 1704067200000 1719705600000
      1704067200000.
Qed.

(* ================================================================== *)
(** ** The addition and the validator *)
(* ================================================================== *)

(** [addNewExpectation] makes no call of [validateExpectation]: whatever
    the candidate, it does not end with the validation error. *)
Lemma addNewExpectation_never_validates (rt : Runtime) (e : Expectation) (s : Sheet) :
  outcome (addNewExpectation rt e) s <> Throw ValidationFailed.
Proof.
  unfold outcome. rewrite addNewExpectation_run. cbn zeta.
  run_cases; cbn [fst]; discriminate.
Qed.

(** C2 does not hold of the code.  The validator rejects a candidate with
    the count -1 and a candidate that ends before it starts; all the same
    [addNewExpectation] accepts each of them on the sheet with expectation 1,
    returns the id 2 and appends the row. *)
Theorem addNewExpectation_skips_validator :
  (outcome (validateExpectation Demo.runtime Demo.negative_count)
     (Demo.sheet_of [Demo.first_half]) = Throw ValidationFailed /\
   outcome (addNewExpectation Demo.runtime Demo.negative_count)
     (Demo.sheet_of [Demo.first_half]) = Ok (VNum (Fin 2)) /\
   map core (expectations
               (sheet_after (addNewExpectation Demo.runtime Demo.negative_count)
                  (Demo.sheet_of [Demo.first_half])))
   = [core Demo.first_half; newRow_of (VNum (Fin 2)) Demo.negative_count]) /\
  (outcome (validateExpectation Demo.runtime Demo.ends_before_start)
     (Demo.sheet_of [Demo.first_half]) = Throw ValidationFailed /\
   outcome (addNewExpectation Demo.runtime Demo.ends_before_start)
     (Demo.sheet_of [Demo.first_half]) = Ok (VNum (Fin 2)) /\
   map core (expectations
               (sheet_after (addNewExpectation Demo.runtime Demo.ends_before_start)
                  (Demo.sheet_of [Demo.first_half])))
   = [core Demo.first_half; newRow_of (VNum (Fin 2)) Demo.ends_before_start]).
Proof. repeat split; reflexivity. Qed.

(* ================================================================== *)
(** ** The id of a new expectation *)
(* ================================================================== *)

(** The greatest of a non-empty list of integers, as [Math.max] finds
    it. *)
Lemma Math_max_integers (z : Z) (zs : list Z) :
  exists m, Math_max (map Fin (z :: zs)) = Fin m /\
            In m (z :: zs) /\ forall x, In x (z :: zs) -> x <= m.
Proof.
  revert z. induction zs as [|y zs IH]; intros z.
  - exists z. simpl. split; [reflexivity|]. split; [by left|].
    intros x [<-|[]]. lia.
  - destruct (IH y) as (m & Hm & Hin & Hmax).
    change (Math_max (map Fin (z :: y :: zs)))
      with (num_max (Fin z) (Math_max (map Fin (y :: zs)))).
    rewrite Hm. exists (Z.max z m). split; [reflexivity|]. split.
    + destruct (Z.max_spec z m) as [[_ ->]|[_ ->]]; [by right|by left].
    + intros x [<-|Hx]; [lia|]. specialize (Hmax x Hx). lia.
Qed.

(** Up to 2^53 every integer is a number. *)
Lemma Number_value_exact (x : Z) :
  Z.abs x <= 9007199254740992 -> Number_value x = Fin x.
Proof.
  intros Hx. unfold Number_value.
  by rewrite (proj2 (Z.leb_le _ _) Hx).
Qed.

(** On a sheet whose ids are integers, the id of a successful addition is
    the number that one more than the greatest of them is, which is one more
    than the greatest as long as this is not beyond 2^53; it is the id of
    the last row. *)
Lemma addNewExpectation_next_id
    (rt : Runtime) (s : Sheet) (e : Expectation) (ids : list Z) (newId : val) :
  map r_id (expectations s) = map (fun z => VNum (Fin z)) ids ->
  outcome (addNewExpectation rt e) s = Ok newId ->
  exists m : Z,
    In m ids /\ (forall z, In z ids -> z <= m) /\
    newId = VNum (Number_value (m + 1)) /\
    (Z.abs (m + 1) <= 9007199254740992 -> newId = VNum (Fin (m + 1))) /\
    exists r : Row,
      expectations (sheet_after (addNewExpectation rt e) s)
        = expectations s ++ [r] /\
      r_id r = newId.
Proof.
  intros Hids Hok.
  apply addNewExpectation_success in Hok as (Hlast & _ & -> & r & Hsheet & Hcore).
  apply core_fields in Hcore as (Hid & _).
  change (at_index (newRow_of (newId_of rt (expectations s)) e) 0)
    with (newId_of rt (expectations s)) in Hid.
  destruct ids as [|z zs].
  { apply lastRow_expectations in Hlast. destruct (expectations s); [done|discriminate]. }
  assert (map (Number rt) (map r_id (expectations s)) = map Fin (z :: zs)) as Hnums.
  { rewrite Hids, map_map. reflexivity. }
  destruct (Math_max_integers z zs) as (m & Hm & Hin & Hmax).
  assert (newId_of rt (expectations s) = VNum (Number_value (m + 1))) as Hnew.
  { unfold newId_of. by rewrite Hnums, Hm. }
  exists m. split; [done|]. split; [done|]. split; [done|]. split.
  { intros Hsmall. by rewrite Hnew, Number_value_exact. }
  exists r. split; [done|]. by rewrite Hid.
Qed.

(** On a sheet without expectations the addition ends with the exception
    of the range that has no row, and writes nothing. *)
Lemma addNewExpectation_on_empty_sheet (rt : Runtime) (s : Sheet) (e : Expectation) :
  expectations s = [] ->
  outcome (addNewExpectation rt e) s = Throw RangeException /\
  sheet_after (addNewExpectation rt e) s = s.
Proof.
  intros Hnone. unfold outcome, sheet_after. rewrite addNewExpectation_run.
  autorewrite with world.
  destruct (3 <=? lastRow s) eqn:Hlast; [|done].
  apply Z.leb_le, lastRow_expectations in Hlast. done.
Qed.

(** C7 does not hold of the code.  After the expectations 1 and 2 the new
    id is 3, one more than the greatest; but on the sheet with the two header
    rows and no expectation, [addNewExpectation] assigns no seed id: the
    overlap check asks for a range without rows and the run ends with the
    exception of the spreadsheet service, nothing written.  The formula of
    the id would not give a seed either: for an empty column of ids it gives
    minus infinity. *)
Theorem addNewExpectation_assigns_no_seed :
  outcome (addNewExpectation Demo.runtime Demo.year_2025)
    (Demo.sheet_of [Demo.first_half; Demo.second_half]) = Ok (VNum (Fin 3)) /\
  outcome (addNewExpectation Demo.runtime Demo.year_2025) (Demo.sheet_of [])
    = Throw RangeException /\
  sheet_after (addNewExpectation Demo.runtime Demo.year_2025) (Demo.sheet_of [])
    = Demo.sheet_of [] /\
  calls (addNewExpectation Demo.runtime Demo.year_2025) (Demo.sheet_of [])
    = [EGetLastRow] /\
  newId_of Demo.runtime (expectations (Demo.sheet_of [])) = VNum NegInf.
Proof. repeat split; reflexivity. Qed.

(* ================================================================== *)
(** ** The id that the overlap check ignores *)
(* ================================================================== *)

Lemma find_all_false {A : Type} (p : A -> bool) (l : list A) :
  Forall (fun x => p x = false) l -> List.find p l = None.
Proof.
  induction 1 as [|x l Hx _ IH]; simpl; [reflexivity|]. by rewrite Hx.
Qed.

Section SelfExclusion.

Variable rt : Runtime.

(** A row that conflicts when one id is ignored conflicts when none
    is. *)
Lemma conflicts_ignoring_none (res ty : val) (ns ne : option Z) (ig : num) (a : Row) :
  conflicts rt res ty ns ne NaN a = false ->
  conflicts rt res ty ns ne ig a = false.
Proof.
  unfold conflicts, strict_neq.
  destruct (truthy (r_active a)); [|done].
  destruct (strict_eq (r_resourceId a) res); [|done].
  destruct (strict_eq (r_expectationType a) ty); [|done].
  assert (strict_eq (r_id a) (VNum NaN) = false) as ->.
  { destruct (r_id a) as [| |b|n|x|t]; try reflexivity. by destruct n. }
  cbn [andb negb]. intros ->. apply andb_false_r.
Qed.

(** An update does not take the row that it edits for a conflict: when
    the candidate is valid, the row with the id is the only one with it,
    and no other row conflicts with the candidate, the update succeeds,
    whatever the dates of the row itself. *)
Lemma update_ignores_itself
    (s : Sheet) (expectationId : val) (e : Expectation) (i : nat) (r : Row) (z : Z) :
  valid_fields rt e ->
  expectations s !! i = Some r ->
  r_id r = VNum (Fin z) ->
  Number rt expectationId = Fin z ->
  parseInt rt expectationId = Fin z ->
  (forall j a, j <> i -> expectations s !! j = Some a ->
               num_eqb (Number rt (r_id a)) (Fin z) = false /\
               conflicts rt (resourceId e) (expectationType e)
                 (new_Date rt (startDate e)) (new_Date rt (endDate e)) NaN a = false) ->
  outcome (updateExpectationData rt expectationId e) s = Ok tt.
Proof.
  intros Hvalid Hr Hid Hnumber Hparse Hothers.
  apply validation_condition_spec in Hvalid.
  assert (3 <= lastRow s) as Hlast.
  { apply lastRow_expectations. intros Hnil. by rewrite Hnil in Hr. }
  unfold outcome. rewrite updateExpectationData_run. autorewrite with world.
  rewrite Hvalid, (proj2 (Z.leb_le _ _) Hlast). cbn zeta.
  destruct (find_rowToEdit_cases rt (expectations s) expectationId)
    as [[_ Hnone]|(k & r' & -> & _ & _ & _)].
  { eapply Forall_forall in Hnone; [|by eapply list_elem_of_lookup_2].
    simpl in Hnone. rewrite Hid, Hnumber in Hnone. simpl in Hnone.
    rewrite Z.eqb_refl in Hnone. discriminate. }
  rewrite (proj2 (Z.leb_le 3 (Z.of_nat k + 3))) by lia.
  assert (update_conflict rt expectationId e (expectations s) = minus_one) as ->;
    [|reflexivity].
  unfold update_conflict, first_conflict.
  assert (or_default expectationId minus_one = expectationId) as ->.
  { destruct expectationId; try reflexivity. discriminate. }
  rewrite find_all_false; [reflexivity|].
  apply Forall_lookup. intros j a Ha. simpl.
  destruct (decide (j = i)) as [->|Hji].
  - rewrite Hr in Ha. injection Ha as <-.
    unfold conflicts, strict_neq. rewrite Hid, Hparse. simpl.
    rewrite Z.eqb_refl. simpl. by rewrite !andb_false_r.
  - apply conflicts_ignoring_none. by apply (Hothers j a).
Qed.

(** Setting an active expectation active is refused: when no row has the
    id -1, and the row with the id is active with valid dates in order, the
    overlap check, which ignores no id, finds a conflict, the row itself if
    no earlier one. *)
Lemma reactivation_of_active_row_is_refused
    (s : Sheet) (expectationId isActive : val) (i : nat) (r : Row) (a b : Z) :
  truthy isActive = true ->
  no_sentinel_id (expectations s) ->
  find_rowToEdit rt (map r_id (expectations s)) expectationId = Z.of_nat i + 3 ->
  expectations s !! i = Some r ->
  truthy (r_active r) = true ->
  strict_eq (r_resourceId r) (r_resourceId r) = true ->
  strict_eq (r_expectationType r) (r_expectationType r) = true ->
  new_Date rt (r_startDate r) = Some a ->
  new_Date rt (r_endDate r) = Some b ->
  a <= b ->
  exists conflictingId,
    outcome (setExpectationStatus rt expectationId isActive) s
    = Throw (ConflictingExpectation OpStatus (r_resourceId r) conflictingId).
Proof.
  intros Hactive Hids Hrow Hr Hact Hres Hty Hstart Hend Hab.
  assert (3 <= lastRow s) as Hlast.
  { apply lastRow_expectations. intros Hnil. by rewrite Hnil in Hr. }
  unfold outcome. rewrite setExpectationStatus_run. autorewrite with world.
  rewrite (proj2 (Z.leb_le _ _) Hlast). cbn zeta. rewrite Hactive, Hrow.
  rewrite (sheet_row_data s i r Hr).
  assert (r ∈ expectations s) as Hin by (by eapply list_elem_of_lookup_2).
  assert (conflicts rt (r_resourceId r) (r_expectationType r)
            (new_Date rt (r_startDate r)) (new_Date rt (r_endDate r)) (Fin (-1)) r
          = true) as Hself.
  { unfold conflicts. rewrite Hact, Hres, Hty, (not_sentinel _ _ Hids Hin).
    rewrite Hstart, Hend. apply overlap_test_Some. lia. }
  unfold status_conflict, first_conflict.
  destruct (List.find _ (expectations s)) as [r0|] eqn:Hfind.
  - apply find_some in Hfind as [Hin0 _]. apply list_elem_of_In in Hin0.
    change minus_one with (VNum (Fin (-1))).
    rewrite (not_sentinel _ _ Hids Hin0). by eexists.
  - apply find_none in Hfind. eapply Forall_forall in Hfind; [|exact Hin].
    simpl in Hfind. congruence.
Qed.

End SelfExclusion.

(** Setting active an expectation that is active already.
    [setExpectationStatus] calls [checkForOverlap] without an id to ignore:
    on the sheet with the active expectation 1 alone, setting expectation 1
    active ends with the error of a conflicting expectation that names
    expectation 1, and the calls show the overlap check run on the details
    of row 3 against all rows.  [updateExpectationData] on the same sheet,
    with the same dates, passes the id and succeeds. *)
Example active_row_set_active :
  outcome (setExpectationStatus Demo.runtime (VNum (Fin 1)) (VBool true))
    (Demo.sheet_of [Demo.first_half])
  = Throw (ConflictingExpectation OpStatus (VNum (Fin 42)) (VNum (Fin 1))) /\
  calls (setExpectationStatus Demo.runtime (VNum (Fin 1)) (VBool true))
    (Demo.sheet_of [Demo.first_half])
  = [EGetLastRow; EGetValues 3 1 1 1; EGetValues 3 2 1 7;
     EGetLastRow; EGetValues 3 1 1 9] /\
  outcome (updateExpectationData Demo.runtime (VNum (Fin 1)) Demo.january_to_june)
    (Demo.sheet_of [Demo.first_half])
  = Ok tt.
Proof. repeat split; reflexivity. Qed.

(* ================================================================== *)
(** ** The lock *)
(* ================================================================== *)

Lemma trace_record (e : Event) (w : World) : trace (record e w) = trace w ++ [e].
Proof. reflexivity. Qed.

Lemma trace_with_sheet (s : Sheet) (w : World) : trace (with_sheet s w) = trace w.
Proof. reflexivity. Qed.

Lemma trace_after_read (numCols : Z) (w : World) :
  trace (after_read numCols w) =
  trace w ++ [EGetLastRow; EGetValues 3 1 (lastRow (sheet w) - 2) numCols].
Proof. unfold after_read. rewrite !trace_record, <- app_assoc. reflexivity. Qed.

(** [updateModifiedBy] adds calls to the trace, and takes none away. *)
Lemma trace_stamp (rt : Runtime) (row c1 c2 : Z) (w : World) :
  exists more, trace (stamp rt row c1 c2 w) = trace w ++ more.
Proof.
  unfold stamp, not_awaited, updateModifiedBy, getUserEmID, setValue,
    mbind, M_bind, mret, M_ret, throw.
  destruct (negb (truthy (employee_id rt))); [exists []; by rewrite app_nil_r|].
  destruct ((1 <=? row) && (1 <=? c1)); [|exists []; by rewrite app_nil_r].
  cbn [sheet record with_sheet].
  destruct ((1 <=? row) && (1 <=? c2)); cbn [snd].
  - eexists. rewrite !trace_record, trace_with_sheet, !trace_record, trace_with_sheet.
    rewrite <- app_assoc. reflexivity.
  - eexists. rewrite !trace_record, trace_with_sheet. reflexivity.
Qed.

(** A run that starts by asking for the last row accesses the sheet without
    the lock. *)
Lemma starts_unlocked (tr more : list Event) :
  tr = EGetLastRow :: more -> under_lock false tr = false.
Proof. intros ->. reflexivity. Qed.

(** C9 does not hold of the code.  Not one of the three operations takes
    the script lock: each begins by reading the sheet, with no [waitLock]
    before, so its reads and its write are outside any critical section and
    no timeout of the lock can end it.  (An update reads once its candidate
    is valid.)  The lock is what [_withLock] of the other script takes:
    [_addRow] appends under it, and the promise of [_withLock] is rejected
    with the timeout, nothing written, when the lock cannot be obtained. *)
Theorem mutations_take_no_lock (rt : Runtime) (s : Sheet) :
  (forall e : Expectation,
      under_lock false (calls (addNewExpectation rt e) s) = false /\
      outcome (addNewExpectation rt e) s <> Throw LockTimeout) /\
  (forall (expectationId : val) (e : Expectation),
      (valid_fields rt e ->
       under_lock false (calls (updateExpectationData rt expectationId e) s) = false) /\
      outcome (updateExpectationData rt expectationId e) s <> Throw LockTimeout) /\
  (forall expectationId isActive : val,
      under_lock false (calls (setExpectationStatus rt expectationId isActive) s) = false /\
      outcome (setExpectationStatus rt expectationId isActive) s <> Throw LockTimeout) /\
  (forall data : list val,
      under_lock false (calls (_addRow rt data) s) = true /\
      under_lock false (calls (_withLock rt (appendRow data)) s) = true /\
      (lock_obtainable rt = false ->
       outcome (_withLock rt (appendRow data)) s = Throw LockTimeout /\
       sheet_after (_withLock rt (appendRow data)) s = s)).
Proof.
  unfold calls, outcome, sheet_after. split; [|split; [|split]].
  - intros e. rewrite addNewExpectation_run. autorewrite with world. cbn zeta. split.
    + run_cases; cbn [snd].
      * eapply starts_unlocked. rewrite trace_after_read. reflexivity.
      * destruct (trace_stamp rt (lastRow s + 1) 10 11
                    (record EGetLastRow
                       (record (EAppendRow
                                  (newRow_of (newId_of rt (expectations s)) e))
                          (with_sheet
                             (s ++ [set_cells 1
                                      (newRow_of (newId_of rt (expectations s)) e)
                                      blank_row])
                             (after_read 1 (after_read 9 (start s)))))))
          as (more & ->).
        eapply starts_unlocked.
        rewrite !trace_record, trace_with_sheet, !trace_after_read. reflexivity.
      * reflexivity.
    + run_cases; cbn [fst]; discriminate.
  - intros eid e. rewrite updateExpectationData_run. autorewrite with world.
    cbn zeta. split.
    + intros Hvalid. apply validation_condition_spec in Hvalid. rewrite Hvalid.
      run_cases; cbn [snd].
      * eapply starts_unlocked. rewrite !trace_after_read. reflexivity.
      * match goal with
        | |- context [stamp rt ?row 12 13 ?w] =>
            destruct (trace_stamp rt row 12 13 w) as (more & ->)
        end.
        eapply starts_unlocked.
        rewrite !trace_record, trace_with_sheet, !trace_after_read. reflexivity.
      * eapply starts_unlocked. rewrite !trace_after_read. reflexivity.
      * reflexivity.
    + run_cases; cbn [fst]; discriminate.
  - intros eid isActive. rewrite setExpectationStatus_run. autorewrite with world.
    cbn zeta. split.
    + run_cases; cbn [snd];
        try match goal with
          | |- context [stamp rt ?row 12 13 ?w] =>
              destruct (trace_stamp rt row 12 13 w) as (more & ->)
          end;
        try reflexivity;
        eapply starts_unlocked;
        rewrite ?trace_record, ?trace_with_sheet, ?trace_after_read,
          ?trace_record, ?trace_after_read; reflexivity.
    + run_cases; cbn [fst]; discriminate.
  - intros data. unfold _addRow, not_awaited, _withLock, appendRow.
    destruct (lock_obtainable rt); repeat split; try reflexivity; discriminate.
Qed.

(* ================================================================== *)
(** ** Runs of the examples *)
(* ================================================================== *)

(** The witness of C6: expectation 3 overlaps expectations 1 and 2, and
    all three are active; archiving expectation 3 succeeds without a read of
    the nine columns. *)
Lemma deactivation_makes_no_overlap_check_witness :
  outcome (setExpectationStatus Demo.runtime (VNum (Fin 3)) (VBool false))
    (Demo.sheet_of [Demo.first_half; Demo.second_half; Demo.whole_year]) = Ok tt /\
  calls (setExpectationStatus Demo.runtime (VNum (Fin 3)) (VBool false))
    (Demo.sheet_of [Demo.first_half; Demo.second_half; Demo.whole_year])
  = [EGetLastRow; EGetValues 3 1 3 1; ESetValue 5 9 (VBool false);
     ESetValue 5 12 (VNum (Fin 7)); ESetValue 5 13 (VStr "2024-03-01")] /\
  Forall (fun e => is_overlap_read e = false)
    (calls (setExpectationStatus Demo.runtime (VNum (Fin 3)) (VBool false))
       (Demo.sheet_of [Demo.first_half; Demo.second_half; Demo.whole_year])).
Proof.
  destruct (deactivation_makes_no_overlap_check Demo.runtime
              (Demo.sheet_of [Demo.first_half; Demo.second_half; Demo.whole_year])
              (VNum (Fin 3)))
    as (Hok & Hcalls & Hreads & _).
  - exists Demo.whole_year. split; [|reflexivity].
    apply list_elem_of_In. simpl. auto.
  - split; [exact Hok|]. split; [exact Hcalls|exact Hreads].
Defined.

(** The witness of C8: an addition that conflicts, an update with a
    negative count, and a change of status for an id that no row has, each
    ends with its error and leaves the sheet as it was. *)
Lemma failure_leaves_sheet_witness :
  (outcome (addNewExpectation Demo.runtime Demo.march_to_april)
     (Demo.sheet_of [Demo.first_half])
   = Throw (ConflictingExpectation OpAdd (VNum (Fin 42)) (VNum (Fin 1))) /\
   sheet_after (addNewExpectation Demo.runtime Demo.march_to_april)
     (Demo.sheet_of [Demo.first_half]) = Demo.sheet_of [Demo.first_half]) /\
  (outcome (updateExpectationData Demo.runtime (VNum (Fin 1)) Demo.negative_count)
     (Demo.sheet_of [Demo.first_half])
   = Throw ValidationFailed /\
   sheet_after (updateExpectationData Demo.runtime (VNum (Fin 1)) Demo.negative_count)
     (Demo.sheet_of [Demo.first_half]) = Demo.sheet_of [Demo.first_half]) /\
  (outcome (setExpectationStatus Demo.runtime (VNum (Fin 9)) (VBool false))
     (Demo.sheet_of [Demo.first_half])
   = Throw (ExpectationNotFound (VNum (Fin 9))) /\
   sheet_after (setExpectationStatus Demo.runtime (VNum (Fin 9)) (VBool false))
     (Demo.sheet_of [Demo.first_half]) = Demo.sheet_of [Demo.first_half]).
Proof.
  destruct (failure_leaves_sheet Demo.runtime (Demo.sheet_of [Demo.first_half]))
    as (Hadd & Hupdate & Hstatus).
  split; [|split].
  - split; [reflexivity|]. eapply Hadd. reflexivity.
  - split; [reflexivity|]. eapply Hupdate. reflexivity.
  - split; [reflexivity|]. eapply Hstatus. reflexivity.
Defined.

(** The example of the specification, end to end, but for the seed: on the
    sheet with expectation 1, an addition for the second half of the year
    gets the id 2 and the audit cells of its creation; an addition that
    overlaps it is refused with the id of the conflict. *)
Example add_then_conflict :
  outcome (addNewExpectation Demo.runtime Demo.july_to_december)
    (Demo.sheet_of [Demo.first_half]) = Ok (VNum (Fin 2)) /\
  (r_createdBy <$>
     last (sheet_after (addNewExpectation Demo.runtime Demo.july_to_december)
             (Demo.sheet_of [Demo.first_half]))) = Some (VNum (Fin 7)) /\
  (r_createdDate <$>
     last (sheet_after (addNewExpectation Demo.runtime Demo.july_to_december)
             (Demo.sheet_of [Demo.first_half]))) = Some (VStr "2024-03-01") /\
  outcome (addNewExpectation Demo.runtime Demo.year_2025)
    (sheet_after (addNewExpectation Demo.runtime Demo.july_to_december)
       (Demo.sheet_of [Demo.first_half])) = Ok (VNum (Fin 3)) /\
  outcome (addNewExpectation Demo.runtime Demo.july_to_december)
    (sheet_after (addNewExpectation Demo.runtime Demo.july_to_december)
       (Demo.sheet_of [Demo.first_half]))
  = Throw (ConflictingExpectation OpAdd (VNum (Fin 42)) (VNum (Fin 2))).
Proof. repeat split; reflexivity. Qed.

(** An inactive row is no conflict. *)
Example inactive_rows_do_not_conflict :
  outcome (addNewExpectation Demo.runtime Demo.march_to_april)
    (Demo.sheet_of [Demo.stored 1 42 "Agent" (Demo.date 2024 1 1)
                      (Demo.date 2024 6 30) (VBool false)])
  = Ok (VNum (Fin 2)).
Proof. reflexivity. Qed.

(* ================================================================== *)
(** ** Ids that stay proper *)
(* ================================================================== *)

Section ProperIds.

Variable rt : Runtime.

(** An id that is a number is read alike by [parseInt] and [Number] as
    long as its notation has no exponent, that is below 10^21; an id that
    is neither a number nor a string is not read by [parseInt] at all. *)
Lemma id_read_alike_plain (expectationId : val) :
  match expectationId with
  | VStr _ => False
  | VNum (Fin z) => Z.abs z < 1000000000000000000000
  | _ => True
  end ->
  id_read_alike rt expectationId.
Proof.
  unfold id_read_alike.
  destruct expectationId as [| |b|[| |z|]|x|t]; simpl; try (by right); try done.
  intros Hz. left. unfold Number_parseInt.
  by rewrite (proj2 (Z.ltb_lt _ _) Hz).
Qed.

(** From 10^21 on, [parseInt] reads the first digit of a number; and an
    id of 2^53 is followed by itself. *)
Example numbers_beyond_the_integers :
  parseInt rt (VNum (Fin (10 ^ 21))) = Fin 1 /\
  parseInt rt (VNum (Fin (- 2 ^ 70))) = Fin (-1) /\
  parseInt rt (VNum (Fin (2 ^ 60))) = Fin (2 ^ 60) /\
  ~ id_read_alike rt (VNum (Fin (10 ^ 21))) /\
  Number_toString (10 ^ 21) = "1e+21" /\
  Number_toString (2 ^ 70) = "1.1805916207174113e+21" /\
  Number_toString (2 ^ 60) = "1152921504606847000" /\
  Number_toString 99999999999999991611392 = "1e+23" /\
  add1 (Fin (2 ^ 53 - 1)) = Fin (2 ^ 53) /\
  add1 (Fin (2 ^ 53)) = Fin (2 ^ 53) /\
  add1 (Fin (2 ^ 53 + 2)) = Fin (2 ^ 53 + 4).
Proof.
  repeat split; try (vm_compute; reflexivity).
  intros [H|H]; vm_compute in H; discriminate.
Qed.

Lemma lookup_proper_id (rows : list Row) (ids : list Z) (i : nat) (r : Row) :
  map r_id rows = map (fun z => VNum (Fin z)) ids ->
  rows !! i = Some r ->
  exists z, ids !! i = Some z /\ r_id r = VNum (Fin z).
Proof.
  intros Hids Hr.
  assert (map r_id rows !! i = Some (r_id r)) as H by (by rewrite list_lookup_fmap, Hr).
  rewrite Hids, list_lookup_fmap in H.
  destruct (ids !! i) as [z|]; [|discriminate]. injection H as H.
  by exists z.
Qed.

(** Proper ids are distinct, and none is -1. *)
Lemma proper_ids_usable (rows : list Row) :
  proper_ids rows -> distinct_ids rt rows /\ no_sentinel_id rows.
Proof.
  intros (ids & Hids & Hnodup & Hpos). split.
  - intros i j a b Hij Ha Hb.
    destruct (lookup_proper_id rows ids i a Hids Ha) as (x & Hx & ->).
    destruct (lookup_proper_id rows ids j b Hids Hb) as (y & Hy & ->).
    simpl. apply Z.eqb_neq. intros ->.
    apply Hij. by eapply NoDup_lookup.
  - apply Forall_lookup. intros i r Hr.
    destruct (lookup_proper_id rows ids i r Hids Hr) as (z & Hz & ->).
    simpl. apply Z.eqb_neq. intros ->.
    eapply Forall_lookup in Hpos; [|exact Hz]. simpl in Hpos. lia.
Qed.

Lemma map_r_id_insert (rows : list Row) (i : nat) (r r' : Row) :
  rows !! i = Some r -> r_id r' = r_id r ->
  map r_id (<[i := r']> rows) = map r_id rows.
Proof.
  intros Hr Hid. rewrite list_fmap_insert, Hid.
  apply list_insert_id. by rewrite list_lookup_fmap, Hr.
Qed.

(** Proper ids stay proper: a successful addition gives the new row an id
    greater than all, as long as the ids are below 2^53, and an update or a
    change of status leaves the ids alone. *)
Lemma mutations_keep_proper_ids (s : Sheet) :
  proper_ids (expectations s) ->
  (forall (e : Expectation) (newId : val),
      Forall (fun r => forall z, r_id r = VNum (Fin z) -> z < 9007199254740992)
        (expectations s) ->
      outcome (addNewExpectation rt e) s = Ok newId ->
      proper_ids (expectations (sheet_after (addNewExpectation rt e) s))) /\
  (forall (expectationId : val) (e : Expectation),
      outcome (updateExpectationData rt expectationId e) s = Ok tt ->
      proper_ids
        (expectations (sheet_after (updateExpectationData rt expectationId e) s))) /\
  (forall (expectationId isActive : val),
      outcome (setExpectationStatus rt expectationId isActive) s = Ok tt ->
      proper_ids
        (expectations (sheet_after (setExpectationStatus rt expectationId isActive) s))).
Proof.
  intros (ids & Hids & Hnodup & Hpos). split; [|split].
  - intros e newId Hsafe Hok.
    destruct (addNewExpectation_next_id rt s e ids newId Hids Hok)
      as (m & Hin & Hmax & _ & Hnext & r & -> & Hr).
    assert (0 <= m < 9007199254740992) as Hm.
    { apply list_elem_of_In in Hin. split.
      - eapply Forall_forall in Hpos; [|exact Hin]. exact Hpos.
      - apply list_elem_of_lookup in Hin as [i Hi].
        assert (map r_id (expectations s) !! i = Some (VNum (Fin m))) as Hcell.
        { by rewrite Hids, list_lookup_fmap, Hi. }
        rewrite list_lookup_fmap in Hcell.
        destruct (expectations s !! i) as [row|] eqn:Hrow; [|discriminate].
        injection Hcell as Hcell.
        eapply Forall_lookup in Hsafe; [|exact Hrow]. by apply Hsafe. }
    rewrite Hnext in Hr by lia.
    exists (ids ++ [m + 1]). split; [|split].
    + rewrite !map_app, Hids. simpl. by rewrite Hr.
    + apply NoDup_app. split; [done|]. split; [|apply NoDup_singleton].
      intros z Hz Hz'. apply list_elem_of_singleton in Hz'. subst z.
      apply list_elem_of_In in Hz. specialize (Hmax _ Hz). lia.
    + apply Forall_app. split; [done|]. constructor; [|constructor]. lia.
  - intros eid e Hok.
    apply updateExpectationData_success in Hok
      as (_ & _ & i & r & r' & Hr & _ & -> & Hcore).
    apply core_fields in Hcore as (Hid & _).
    exists ids. split; [|done].
    by rewrite (map_r_id_insert _ i r r' Hr Hid).
  - intros eid isActive Hok.
    apply setExpectationStatus_success in Hok
      as (i & r & r' & Hr & _ & _ & -> & Hcore).
    apply core_fields in Hcore as (Hid & _).
    exists ids. split; [|done].
    by rewrite (map_r_id_insert _ i r r' Hr Hid).
Qed.

End ProperIds.

(* ================================================================== *)
(** ** What a successful operation writes *)
(* ================================================================== *)

Lemma write_row_at (s : Sheet) (i : nat) (r : Row) (f : Row -> Row) :
  s !! i = Some r -> write_row s (Z.of_nat i + 1) f = <[i := f r]> s.
Proof.
  unfold write_row. intros H.
  replace (Z.to_nat (Z.of_nat i + 1 - 1)) with i by lia. by rewrite H.
Qed.

Lemma expectations_lookup (s : Sheet) (i : nat) :
  expectations s !! i = s !! S (S i).
Proof. unfold expectations, HEADER_ROWS. by rewrite lookup_drop. Qed.

Section Written.

Variable rt : Runtime.

(** The whole sheet after [updateModifiedBy] has run without being
    awaited. *)
Lemma stamp_sheet (i : nat) (r : Row) (c1 c2 : Z) (w : World) :
  sheet w !! i = Some r -> 1 <= c1 -> 1 <= c2 ->
  sheet (stamp rt (Z.of_nat i + 1) c1 c2 w) = <[i := stamp_row rt c1 c2 r]> (sheet w).
Proof.
  intros Hr Hc1 Hc2.
  unfold stamp, not_awaited, updateModifiedBy, getUserEmID, stamp_row,
    mbind, M_bind, mret, M_ret, throw.
  destruct (truthy (employee_id rt)); cbn [negb].
  - unfold setValue.
    rewrite (proj2 (Z.leb_le 1 (Z.of_nat i + 1))) by lia.
    rewrite (proj2 (Z.leb_le 1 c1)), (proj2 (Z.leb_le 1 c2)) by lia.
    cbn [andb snd sheet record with_sheet trace].
    rewrite (write_row_at (sheet w) i r _ Hr).
    rewrite (write_row_at _ i (set_cell c1 (employee_id rt) r)).
    + by rewrite list_insert_insert_eq.
    + apply list_lookup_insert_eq. by eapply lookup_lt_Some.
  - cbn [snd]. by rewrite list_insert_id.
Qed.

Lemma first_with_id_found (rows : list Row) (eid : val) (i : nat) :
  find_rowToEdit rt (map r_id rows) eid = Z.of_nat i + 3 ->
  exists r, first_with_id rt eid rows i r.
Proof.
  intros Hfound.
  destruct (find_rowToEdit_cases rt rows eid)
    as [[H2 _]|(k & r & Hk & Hr & Hsame & Hfirst)]; [lia|].
  assert (k = i) as -> by lia. by exists r.
Qed.

(** The sheet after [setExpectationStatus] has written the status of the
    row at index [i] of the expectations and stamped it. *)
Lemma status_written (s : Sheet) (i : nat) (r : Row) (isActive : val) (w : World) :
  expectations s !! i = Some r ->
  sheet (stamp rt (Z.of_nat i + 3) 12 13
           (record (ESetValue (Z.of_nat i + 3) 9 isActive)
              (with_sheet (write_row s (Z.of_nat i + 3) (set_cell 9 isActive)) w)))
  = <[S (S i) := toggled_row rt isActive r]> s.
Proof.
  intros Hr. rewrite expectations_lookup in Hr.
  replace (Z.of_nat i + 3) with (Z.of_nat (S (S i)) + 1) by lia.
  rewrite (stamp_sheet (S (S i)) (set_cell 9 isActive r)); [| |lia|lia].
  - autorewrite with world. rewrite (write_row_at s _ r _ Hr).
    rewrite list_insert_insert_eq. f_equal.
    unfold stamp_row, toggled_row, stamped_by, stamped_on.
    destruct (truthy (employee_id rt)); reflexivity.
  - autorewrite with world. rewrite (write_row_at s _ r _ Hr).
    apply list_lookup_insert_eq. by eapply lookup_lt_Some.
Qed.

(** The row that the search by id finds is the first with the id. *)
Lemma first_with_id_row (rows : list Row) (eid : val) (i : nat) (r : Row) :
  first_with_id rt eid rows i r ->
  find_rowToEdit rt (map r_id rows) eid = Z.of_nat i + 3.
Proof.
  intros (Hr & Hsame & Hfirst).
  destruct (find_rowToEdit_cases rt rows eid)
    as [[_ Hnone]|(k & r' & Hk & Hr' & Hsame' & Hfirst')].
  - eapply Forall_forall in Hnone; [|by eapply list_elem_of_lookup_2].
    simpl in Hnone. congruence.
  - destruct (Nat.lt_trichotomy k i) as [Hlt|[->|Hgt]]; [|done|].
    + rewrite (Hfirst k r' Hlt Hr') in Hsame'. discriminate.
    + rewrite (Hfirst' i r Hgt Hr) in Hsame. discriminate.
Qed.

(** An id that no row has sends the search to the header row 2. *)
Lemma unknown_id_row (rows : list Row) (eid : val) :
  unknown_id rt eid rows -> find_rowToEdit rt (map r_id rows) eid = 2.
Proof.
  intros Hunknown.
  destruct (find_rowToEdit_cases rt rows eid)
    as [[H2 _]|(i & r & _ & Hr & Hsame & _)]; [done|].
  eapply Forall_forall in Hunknown; [|by eapply list_elem_of_lookup_2].
  simpl in Hunknown. congruence.
Qed.

(** Without a row to edit, neither an update nor a change of status
    succeeds. *)
Lemma no_row_no_success (s : Sheet) (eid : val) :
  find_rowToEdit rt (map r_id (expectations s)) eid = 2 ->
  (forall e, outcome (updateExpectationData rt eid e) s <> Ok tt) /\
  (forall isActive, outcome (setExpectationStatus rt eid isActive) s <> Ok tt).
Proof.
  intros Hrow. split.
  - intros e. unfold outcome. rewrite updateExpectationData_run.
    autorewrite with world. cbn zeta. rewrite Hrow.
    change (3 <=? 2) with false. cbv iota. run_cases; discriminate.
  - intros isActive. unfold outcome. rewrite setExpectationStatus_run.
    autorewrite with world. cbn zeta. rewrite Hrow.
    change (3 <=? 2) with false. cbv iota. run_cases; discriminate.
Qed.

(** X1.  A successful [addNewExpectation] leaves the sheet as it was, with
    one more row below the last: the new id, the eight fields of the
    candidate as they were given, the employee id of the user and the date
    of the day in the cells of the creation (both blank when the user has no
    employee id), and blank cells of the modification. *)
Theorem addNewExpectation_appends_one_row
    (s : Sheet) (e : Expectation) (newId : val) :
  outcome (addNewExpectation rt e) s = Ok newId ->
  sheet_after (addNewExpectation rt e) s = s ++ [added_row rt newId e].
Proof.
  unfold outcome, sheet_after. rewrite addNewExpectation_run.
  autorewrite with world. cbn zeta.
  destruct (3 <=? lastRow s) eqn:Hlast; [|discriminate].
  destruct (strict_neq (add_conflict rt e (expectations s)) minus_one);
    [discriminate|].
  cbn [fst snd]. intros [= <-].
  set (newRow := newRow_of (newId_of rt (expectations s)) e).
  unfold lastRow.
  rewrite (stamp_sheet (List.length s) (set_cells 1 newRow blank_row)); [| |lia|lia].
  - autorewrite with world.
    rewrite insert_app_r_alt by lia. rewrite Nat.sub_diag. simpl.
    do 2 f_equal.
    unfold stamp_row, added_row, stamped_by, stamped_on.
    destruct (truthy (employee_id rt)); reflexivity.
  - autorewrite with world. rewrite lookup_app_r by lia.
    by rewrite Nat.sub_diag.
Qed.

(** X2.  A successful [updateExpectationData] writes to one row only, the
    first whose id is the number that the id argument is: the row keeps its
    id and the cells of its creation, takes the eight fields of the
    candidate, and gets the employee id of the user and the date of the day
    in the cells of the modification (which stay as they were when the user
    has no employee id).  No row is added or removed. *)
Theorem updateExpectationData_writes_one_row
    (s : Sheet) (expectationId : val) (e : Expectation) :
  outcome (updateExpectationData rt expectationId e) s = Ok tt ->
  exists (i : nat) (r : Row),
    first_with_id rt expectationId (expectations s) i r /\
    sheet_after (updateExpectationData rt expectationId e) s
    = <[S (S i) := updated_row rt e r]> s.
Proof.
  unfold outcome, sheet_after. rewrite updateExpectationData_run.
  autorewrite with world. cbn zeta.
  destruct (validation_condition rt e); [|discriminate].
  destruct (3 <=? lastRow s) eqn:Hlast; [|discriminate].
  destruct (find_rowToEdit_cases rt (expectations s) expectationId)
    as [[-> _]|(i & r & Hfound & Hr & Hsame & Hfirst)]; [discriminate|].
  rewrite Hfound.
  rewrite (proj2 (Z.leb_le 3 (Z.of_nat i + 3))) by lia.
  destruct (strict_neq (update_conflict rt expectationId e (expectations s)) minus_one);
    [discriminate|].
  cbn [fst snd]. intros _. exists i, r. split; [done|].
  rewrite expectations_lookup in Hr.
  replace (Z.of_nat i + 3) with (Z.of_nat (S (S i)) + 1) by lia.
  rewrite (stamp_sheet (S (S i)) (set_cells 2 (updatedRow_of e) r)); [| |lia|lia].
  - autorewrite with world. rewrite (write_row_at s _ r _ Hr).
    rewrite list_insert_insert_eq. f_equal.
    unfold stamp_row, updated_row, stamped_by, stamped_on.
    destruct (truthy (employee_id rt)); reflexivity.
  - autorewrite with world. rewrite (write_row_at s _ r _ Hr).
    apply list_lookup_insert_eq. by eapply lookup_lt_Some.
Qed.

(** X3.  A successful [setExpectationStatus] writes to one row only, the
    first whose id is the number that the id argument is: the cell of the
    status takes the value given, as it was given, the cells of the
    modification get the employee id of the user and the date of the day,
    and every other cell of the row stays. *)
Theorem setExpectationStatus_writes_one_cell
    (s : Sheet) (expectationId isActive : val) :
  outcome (setExpectationStatus rt expectationId isActive) s = Ok tt ->
  exists (i : nat) (r : Row),
    first_with_id rt expectationId (expectations s) i r /\
    sheet_after (setExpectationStatus rt expectationId isActive) s
    = <[S (S i) := toggled_row rt isActive r]> s.
Proof.
  unfold outcome, sheet_after. rewrite setExpectationStatus_run.
  autorewrite with world. cbn zeta.
  destruct (3 <=? lastRow s) eqn:Hlast; [|discriminate].
  destruct (find_rowToEdit_cases rt (expectations s) expectationId)
    as [[-> _]|(i & r & Hfound & Hr & Hsame & Hfirst)].
  { change (3 <=? 2) with false. cbv iota. run_cases; discriminate. }
  rewrite Hfound.
  rewrite (proj2 (Z.leb_le 3 (Z.of_nat i + 3))) by lia.
  destruct (truthy isActive).
  - destruct (strict_neq _ minus_one); [discriminate|].
    cbn [fst snd]. intros _. exists i, r. split; [done|]. by apply status_written.
  - cbn [fst snd]. intros _. exists i, r. split; [done|]. by apply status_written.
Qed.

(** X4.  The error of [getUserEmID] never reaches the caller of an
    operation.  [updateModifiedBy] itself is rejected with 'Employee ID not
    found.' and writes nothing when the user has no employee id; but the
    three operations do not await it, so none of them ends with that
    error. *)
Theorem identity_error_is_lost (s : Sheet) :
  (forall rowToEdit emIdColumn dateColumn : Z,
      truthy (employee_id rt) = false ->
      outcome (updateModifiedBy rt rowToEdit emIdColumn dateColumn) s
      = Throw EmployeeIdNotFound /\
      sheet_after (updateModifiedBy rt rowToEdit emIdColumn dateColumn) s = s /\
      calls (updateModifiedBy rt rowToEdit emIdColumn dateColumn) s = []) /\
  (forall e : Expectation,
      outcome (addNewExpectation rt e) s <> Throw EmployeeIdNotFound) /\
  (forall (expectationId : val) (e : Expectation),
      outcome (updateExpectationData rt expectationId e) s
      <> Throw EmployeeIdNotFound) /\
  (forall expectationId isActive : val,
      outcome (setExpectationStatus rt expectationId isActive) s
      <> Throw EmployeeIdNotFound).
Proof.
  split; [|split; [|split]].
  - intros rowToEdit c1 c2 Hnone.
    unfold outcome, sheet_after, calls, updateModifiedBy, getUserEmID,
      mbind, M_bind, throw.
    rewrite Hnone. done.
  - intros e. unfold outcome. rewrite addNewExpectation_run. cbn zeta.
    run_cases; discriminate.
  - intros eid e. unfold outcome. rewrite updateExpectationData_run. cbn zeta.
    run_cases; discriminate.
  - intros eid isActive. unfold outcome. rewrite setExpectationStatus_run. cbn zeta.
    run_cases; discriminate.
Qed.

(** X5.  An id that no row has.  [updateExpectationData] and
    [setExpectationStatus] never succeed for it and leave the sheet as it
    was; with a valid candidate, and for a deactivation, on a sheet that has
    expectations, the error is 'Expectation ID (...) not found.'. *)
Theorem unknown_id_is_refused (s : Sheet) (expectationId : val) :
  unknown_id rt expectationId (expectations s) ->
  (forall e : Expectation,
      outcome (updateExpectationData rt expectationId e) s <> Ok tt /\
      sheet_after (updateExpectationData rt expectationId e) s = s /\
      (valid_fields rt e -> expectations s <> [] ->
       outcome (updateExpectationData rt expectationId e) s
       = Throw (ExpectationNotFound expectationId))) /\
  (forall isActive : val,
      outcome (setExpectationStatus rt expectationId isActive) s <> Ok tt /\
      sheet_after (setExpectationStatus rt expectationId isActive) s = s /\
      (truthy isActive = false -> expectations s <> [] ->
       outcome (setExpectationStatus rt expectationId isActive) s
       = Throw (ExpectationNotFound expectationId))).
Proof.
  intros Hunknown. pose proof (unknown_id_row _ _ Hunknown) as Hrow.
  destruct (no_row_no_success s expectationId Hrow) as [Hupdate Hstatus].
  split.
  - intros e. split; [apply Hupdate|].
    unfold outcome, sheet_after. rewrite updateExpectationData_run.
    autorewrite with world. cbn zeta. rewrite Hrow.
    change (3 <=? 2) with false. cbv iota. split.
    + run_cases; reflexivity.
    + intros Hvalid Hrows. apply validation_condition_spec in Hvalid.
      apply lastRow_expectations, Z.leb_le in Hrows. by rewrite Hvalid, Hrows.
  - intros isActive. split; [apply Hstatus|].
    unfold outcome, sheet_after. rewrite setExpectationStatus_run.
    autorewrite with world. cbn zeta. rewrite Hrow.
    change (3 <=? 2) with false. cbv iota. split.
    + run_cases; reflexivity.
    + intros Hoff Hrows.
      apply lastRow_expectations, Z.leb_le in Hrows. by rewrite Hoff, Hrows.
Qed.

(** The rows that conflict with an inactive row of the sheet, when it is
    set active, are other rows. *)
Lemma archived_row_has_no_conflict (rows : list Row) (i : nat) (r : Row) :
  no_overlap rt rows ->
  Forall (row_in_order rt) rows ->
  rows !! i = Some r ->
  truthy (r_active r) = true ->
  dated rt r ->
  status_conflict rt (toggled_row rt (VBool false) r)
    (<[i := toggled_row rt (VBool false) r]> rows) = minus_one.
Proof.
  intros Hinv Horder Hr Hact (a & b & Hstart & Hend & Hab).
  unfold status_conflict, first_conflict.
  rewrite find_all_false; [reflexivity|].
  apply Forall_lookup. intros j c Hc. simpl.
  apply list_lookup_insert_Some in Hc as [(-> & <- & _)|[Hij Hc]].
  { reflexivity. }
  destruct (conflicts rt _ _ _ _ _ c) eqn:Hconf; [exfalso|reflexivity].
  unfold conflicts in Hconf. cbn [toggled_row r_resourceId r_expectationType
    r_startDate r_endDate] in Hconf.
  rewrite !andb_true_iff in Hconf.
  destruct Hconf as ((((Hact_c & Hres) & Hty) & _) & Htest).
  apply (Hinv j i c r); try done.
  - unfold same_target. by rewrite Hres, Hty.
  - apply rows_intersect_sym. unfold rows_intersect.
    rewrite Hstart, Hend in Htest |- *.
    apply overlap_test_intersecting; [done| |done].
    eapply Forall_lookup in Horder; [|exact Hc]. exact Horder.
Qed.

(** X6.  Archiving and reactivating.  On a sheet that satisfies the
    invariant, with rows whose dates are in order, an active expectation
    with valid dates can be set inactive, and then active again: both calls
    succeed, and the rows hold in their nine columns what they held
    before. *)
Theorem archive_then_reactivate
    (s : Sheet) (expectationId : val) (i : nat) (r : Row) :
  no_overlap rt (expectations s) ->
  Forall (row_in_order rt) (expectations s) ->
  first_with_id rt expectationId (expectations s) i r ->
  r_active r = VBool true ->
  dated rt r ->
  let archive := setExpectationStatus rt expectationId (VBool false) in
  let reactivate := setExpectationStatus rt expectationId (VBool true) in
  outcome archive s = Ok tt /\
  outcome reactivate (sheet_after archive s) = Ok tt /\
  map core (expectations (sheet_after reactivate (sheet_after archive s)))
  = map core (expectations s).
Proof.
  intros Hinv Horder Hfirst Hact Hdated archive reactivate.
  pose proof (first_with_id_row _ _ _ _ Hfirst) as Hrow.
  destruct Hfirst as (Hr & Hsame & Hfirst).
  assert (3 <= lastRow s) as Hlast.
  { apply lastRow_expectations. intros Hnil. by rewrite Hnil in Hr. }
  set (r' := toggled_row rt (VBool false) r).
  (* the archive *)
  assert (outcome archive s = Ok tt /\
          sheet_after archive s = <[S (S i) := r']> s) as [Harchive Hs1].
  { unfold archive, outcome, sheet_after. rewrite setExpectationStatus_run.
    autorewrite with world. cbn zeta.
    rewrite (proj2 (Z.leb_le _ _) Hlast), Hrow.
    rewrite (proj2 (Z.leb_le 3 (Z.of_nat i + 3))) by lia.
    cbn [truthy fst snd]. split; [reflexivity|]. by apply status_written. }
  assert (expectations (sheet_after archive s) = <[i := r']> (expectations s)) as Hrows1.
  { rewrite Hs1. unfold expectations, HEADER_ROWS.
    rewrite drop_insert_ge by lia. f_equal. lia. }
  assert (expectations (sheet_after archive s) !! i = Some r') as Hr'.
  { rewrite Hrows1. apply list_lookup_insert_eq. by eapply lookup_lt_Some. }
  assert (lastRow (sheet_after archive s) = lastRow s) as Hlast1.
  { rewrite Hs1. unfold lastRow. by rewrite length_insert. }
  assert (find_rowToEdit rt (map r_id (expectations (sheet_after archive s)))
            expectationId = Z.of_nat i + 3) as Hrow1.
  { rewrite Hrows1, <- Hrow. f_equal.
    rewrite list_fmap_insert. apply list_insert_id.
    rewrite list_lookup_fmap, Hr. reflexivity. }
  (* the reactivation *)
  remember (sheet_after archive s) as s1 eqn:Hs1'.
  assert (outcome reactivate s1 = Ok tt /\
          sheet_after reactivate s1 = <[S (S i) := toggled_row rt (VBool true) r']> s1)
    as [Hreactivate Hs2].
  { unfold reactivate, outcome, sheet_after.
    rewrite setExpectationStatus_run.
    autorewrite with world. cbn zeta.
    rewrite Hlast1, (proj2 (Z.leb_le _ _) Hlast), Hrow1.
    rewrite (proj2 (Z.leb_le 3 (Z.of_nat i + 3))) by lia.
    rewrite (sheet_row_data _ i r' Hr'). cbn [truthy].
    rewrite Hrows1. unfold r'.
    rewrite (archived_row_has_no_conflict (expectations s) i r); try done;
      [|by rewrite Hact].
    change (strict_neq minus_one minus_one) with false. cbv iota. cbn [fst snd].
    split; [reflexivity|]. by apply status_written. }
  split; [done|]. split; [done|].
  rewrite Hs2. unfold expectations at 1, HEADER_ROWS.
  rewrite drop_insert_ge by lia.
  replace (S (S i) - 2)%nat with i by lia.
  change (drop 2 s1) with (expectations s1).
  rewrite Hrows1.
  rewrite list_insert_insert_eq, list_fmap_insert.
  apply list_insert_id. rewrite list_lookup_fmap, Hr. simpl. f_equal.
  unfold core. rewrite !cells_9. cbn [toggled_row r' r_id r_resourceId r_performance
    r_oneToOne r_sideBySide r_startDate r_endDate r_expectationType r_active].
  by rewrite Hact.
Qed.

(** One argument that is [NaN] makes [Math.max] give [NaN]. *)
Lemma Math_max_NaN (l : list num) : In NaN l -> Math_max l = NaN.
Proof.
  induction l as [|x l IH]; [intros []|].
  intros [->|Hin]; [reflexivity|].
  change (Math_max (x :: l)) with (num_max x (Math_max l)).
  rewrite (IH Hin). by destruct x.
Qed.

(** X7.  One cell of the column of ids that is not a number ([Number]
    gives [NaN] for it) spoils the ids of all the expectations added after:
    a successful [addNewExpectation] returns, and stores, the id [NaN].  No
    search by id finds such a row: on no sheet does
    [updateExpectationData] or [setExpectationStatus] succeed for the id
    [NaN]. *)
Theorem bad_id_makes_new_ids_NaN
    (s : Sheet) (e : Expectation) (newId : val) (r : Row) :
  r ∈ expectations s ->
  Number rt (r_id r) = NaN ->
  outcome (addNewExpectation rt e) s = Ok newId ->
  newId = VNum NaN /\
  (exists added : Row,
      sheet_after (addNewExpectation rt e) s = s ++ [added] /\ r_id added = VNum NaN) /\
  forall s' : Sheet,
    (forall e' : Expectation,
        outcome (updateExpectationData rt newId e') s' <> Ok tt) /\
    (forall isActive : val,
        outcome (setExpectationStatus rt newId isActive) s' <> Ok tt).
Proof.
  intros Hin Hbad Hok.
  assert (newId_of rt (expectations s) = VNum NaN) as Hnew.
  { unfold newId_of. rewrite Math_max_NaN; [reflexivity|].
    rewrite <- Hbad. apply in_map, in_map. by apply list_elem_of_In. }
  assert (newId = VNum NaN) as ->.
  { apply addNewExpectation_success in Hok as (_ & _ & -> & _). exact Hnew. }
  split; [reflexivity|]. split.
  - exists (added_row rt (VNum NaN) e). split; [|reflexivity].
    unfold outcome, sheet_after in *. revert Hok. rewrite addNewExpectation_run.
    autorewrite with world. cbn zeta.
    destruct (3 <=? lastRow s) eqn:Hlast; [|discriminate].
    destruct (strict_neq (add_conflict rt e (expectations s)) minus_one);
      [discriminate|].
    cbn [fst snd]. intros _. rewrite Hnew.
    unfold lastRow.
    rewrite (stamp_sheet (List.length s)
               (set_cells 1 (newRow_of (VNum NaN) e) blank_row)); [| |lia|lia].
    + autorewrite with world.
      rewrite insert_app_r_alt by lia. rewrite Nat.sub_diag. simpl.
      do 2 f_equal.
      unfold stamp_row, added_row, stamped_by, stamped_on.
      destruct (truthy (employee_id rt)); reflexivity.
    + autorewrite with world. rewrite lookup_app_r by lia.
      by rewrite Nat.sub_diag.
  - intros s'. apply no_row_no_success, unknown_id_row.
    apply Forall_forall. intros r' _. simpl. by destruct (Number rt (r_id r')).
Qed.




End Written.



(** On the sheet of the two halves of 2024, an addition for 2025 gets
    the id 3 and the row of employee 7 on 2024-03-01. *)
Lemma addNewExpectation_appends_one_row_witness :
  outcome (addNewExpectation Demo.runtime Demo.year_2025)
    (Demo.sheet_of [Demo.first_half; Demo.second_half]) = Ok (VNum (Fin 3)) /\
  sheet_after (addNewExpectation Demo.runtime Demo.year_2025)
    (Demo.sheet_of [Demo.first_half; Demo.second_half])
  = Demo.sheet_of [Demo.first_half; Demo.second_half]
    ++ [added_row Demo.runtime (VNum (Fin 3)) Demo.year_2025].
Proof.
  split; [reflexivity|].
  apply (addNewExpectation_appends_one_row Demo.runtime
           (Demo.sheet_of [Demo.first_half; Demo.second_half])
           Demo.year_2025 (VNum (Fin 3))).
  reflexivity.
Defined.

(** On the same sheet, an update of expectation 2, given as the text 2,
    writes to the second row of the expectations. *)
Lemma updateExpectationData_writes_one_row_witness :
  outcome (updateExpectationData Demo.runtime (VStr "2") Demo.july_to_december)
    (Demo.sheet_of [Demo.first_half; Demo.second_half]) = Ok tt /\
  exists (i : nat) (r : Row),
    first_with_id Demo.runtime (VStr "2")
      (expectations (Demo.sheet_of [Demo.first_half; Demo.second_half])) i r /\
    sheet_after (updateExpectationData Demo.runtime (VStr "2") Demo.july_to_december)
      (Demo.sheet_of [Demo.first_half; Demo.second_half])
    = <[S (S i) := updated_row Demo.runtime Demo.july_to_december r]>
        (Demo.sheet_of [Demo.first_half; Demo.second_half]).
Proof.
  split; [reflexivity|].
  apply (updateExpectationData_writes_one_row Demo.runtime
           (Demo.sheet_of [Demo.first_half; Demo.second_half])
           (VStr "2") Demo.july_to_december).
  reflexivity.
Defined.

(** Archiving expectation 1 writes to the first row of the
    expectations. *)
Lemma setExpectationStatus_writes_one_cell_witness :
  outcome (setExpectationStatus Demo.runtime (VNum (Fin 1)) (VBool false))
    (Demo.sheet_of [Demo.first_half; Demo.second_half]) = Ok tt /\
  exists (i : nat) (r : Row),
    first_with_id Demo.runtime (VNum (Fin 1))
      (expectations (Demo.sheet_of [Demo.first_half; Demo.second_half])) i r /\
    sheet_after (setExpectationStatus Demo.runtime (VNum (Fin 1)) (VBool false))
      (Demo.sheet_of [Demo.first_half; Demo.second_half])
    = <[S (S i) := toggled_row Demo.runtime (VBool false) r]>
        (Demo.sheet_of [Demo.first_half; Demo.second_half]).
Proof.
  split; [reflexivity|].
  apply (setExpectationStatus_writes_one_cell Demo.runtime
           (Demo.sheet_of [Demo.first_half; Demo.second_half])
           (VNum (Fin 1)) (VBool false)).
  reflexivity.
Defined.

(** No row of the two halves has the id 9. *)
Lemma unknown_id_is_refused_witness :
  unknown_id Demo.runtime (VNum (Fin 9))
    (expectations (Demo.sheet_of [Demo.first_half; Demo.second_half])) /\
  outcome (updateExpectationData Demo.runtime (VNum (Fin 9)) Demo.year_2025)
    (Demo.sheet_of [Demo.first_half; Demo.second_half])
  = Throw (ExpectationNotFound (VNum (Fin 9))) /\
  outcome (setExpectationStatus Demo.runtime (VNum (Fin 9)) (VBool false))
    (Demo.sheet_of [Demo.first_half; Demo.second_half])
  = Throw (ExpectationNotFound (VNum (Fin 9))).
Proof.
  assert (unknown_id Demo.runtime (VNum (Fin 9))
            (expectations (Demo.sheet_of [Demo.first_half; Demo.second_half])))
    as Hunknown by (repeat constructor).
  destruct (unknown_id_is_refused Demo.runtime
              (Demo.sheet_of [Demo.first_half; Demo.second_half])
              (VNum (Fin 9)) Hunknown) as (Hupdate & Hstatus).
  split; [exact Hunknown|]. split.
  - destruct (Hupdate Demo.year_2025) as (_ & _ & Hnot_found).
    apply Hnot_found; [|discriminate].
    apply validation_condition_spec. reflexivity.
  - destruct (Hstatus (VBool false)) as (_ & _ & Hnot_found).
    apply Hnot_found; [reflexivity|discriminate].
Defined.

Lemma halves_in_order :
  Forall (row_in_order Demo.runtime)
    (expectations (Demo.sheet_of [Demo.first_half; Demo.second_half])).
Proof.
  repeat constructor; intros a b Ha Hb; vm_compute in Ha, Hb;
    injection Ha as <-; injection Hb as <-; lia.
Qed.

(** Expectation 1 of the two halves of 2024 is archived, and set active
    again. *)
Lemma archive_then_reactivate_witness :
  outcome (setExpectationStatus Demo.runtime (VNum (Fin 1)) (VBool false))
    (Demo.sheet_of [Demo.first_half; Demo.second_half]) = Ok tt /\
  outcome (setExpectationStatus Demo.runtime (VNum (Fin 1)) (VBool true))
    (sheet_after (setExpectationStatus Demo.runtime (VNum (Fin 1)) (VBool false))
       (Demo.sheet_of [Demo.first_half; Demo.second_half])) = Ok tt /\
  map core
    (expectations
       (sheet_after (setExpectationStatus Demo.runtime (VNum (Fin 1)) (VBool true))
          (sheet_after (setExpectationStatus Demo.runtime (VNum (Fin 1)) (VBool false))
             (Demo.sheet_of [Demo.first_half; Demo.second_half]))))
  = map core (expectations (Demo.sheet_of [Demo.first_half; Demo.second_half])).
Proof.
  apply (archive_then_reactivate Demo.runtime
           (Demo.sheet_of [Demo.first_half; Demo.second_half])
           (VNum (Fin 1)) 0%nat Demo.first_half).
  - exact halves_no_overlap.
  - exact halves_in_order.
  - split; [reflexivity|]. split; [reflexivity|]. intros j r' Hj. lia.
  - reflexivity.
  - exists 1704067200000, 1719705600000. split; [reflexivity|].
    split; [reflexivity|]. lia.
Defined.

(** On a sheet whose second expectation has the text A-2 for its id, an
    addition succeeds with the id [NaN]. *)
Lemma bad_id_makes_new_ids_NaN_witness :
  outcome (addNewExpectation Demo.runtime Demo.year_2025)
    (Demo.sheet_of [Demo.first_half; lettered]) = Ok (VNum NaN) /\
  forall e' : Expectation,
    outcome (updateExpectationData Demo.runtime (VNum NaN) e')
      (sheet_after (addNewExpectation Demo.runtime Demo.year_2025)
         (Demo.sheet_of [Demo.first_half; lettered])) <> Ok tt.
Proof.
  split; [reflexivity|].
  destruct (bad_id_makes_new_ids_NaN Demo.runtime
              (Demo.sheet_of [Demo.first_half; lettered]) Demo.year_2025
              (VNum NaN) lettered) as (_ & _ & Hlost).
  - apply list_elem_of_In. simpl. auto.
  - reflexivity.
  - reflexivity.
  - intros e'. apply (Hlost _).
Defined.

(* ================================================================== *)
(** ** The queue *)
(* ================================================================== *)

Section QueueFacts.

Variables Arg Ret : Type.
Variable globals : string -> option (list Arg -> M Ret).

Lemma processQueue_loop_app (first later : list (Call Arg)) (w : World) :
  processQueue_loop Arg Ret globals (first ++ later) w =
  match processQueue_loop Arg Ret globals first w with
  | (None, _, w') => processQueue_loop Arg Ret globals later w'
  | (Some error, rest, w') => (Some error, rest ++ later, w')
  end.
Proof.
  revert w. induction first as [|call first IH]; intros w; [reflexivity|].
  simpl. destruct (globals (functionName call)) as [f|]; [|reflexivity].
  destruct (f (params call) w) as [[v|error] w']; [apply IH|reflexivity].
Qed.

(** While the queue is being processed, [enqueue] only queues. *)
Lemma enqueue_all_while_processing (later : list (Call Arg)) (sv : Server Arg) :
  isProcessing sv = true ->
  enqueue_all Arg Ret globals later sv
  = (None, {| functionQueue := functionQueue sv ++ later;
              isProcessing := true;
              world := world sv |}).
Proof.
  revert sv. induction later as [|call later IH]; intros sv Hbusy.
  - simpl. rewrite app_nil_r. destruct sv. simpl in Hbusy. by subst.
  - simpl. unfold enqueue. cbn [isProcessing]. rewrite Hbusy. cbn [negb].
    rewrite IH by done. cbn [functionQueue world].
    rewrite <- app_assoc. by destruct call.
Qed.

(** X8.  A call through the queue of a server that is not processing and
    has nothing queued.  A name that is no function of the script gives the
    error 'Function ... does not exist.', the sheet untouched.  Otherwise the
    function is called with the parameters: when it returns, [enqueue]
    returns, without the value that the function returned; when it throws,
    [enqueue] throws the same error.  After an error the flag
    [isProcessing] is left set. *)
Theorem enqueue_calls_the_function (name : string) (ps : list Arg) (w : World) :
  enqueue Arg Ret globals name ps (idle w) =
  match globals name with
  | None =>
      (Some (FunctionDoesNotExist name),
       {| functionQueue := []; isProcessing := true; world := w |})
  | Some f =>
      match f ps w with
      | (Ok _, w') => (None, idle w')
      | (Throw error, w') =>
          (Some (Rethrown error),
           {| functionQueue := []; isProcessing := true; world := w' |})
      end
  end.
Proof.
  unfold enqueue, processQueue, idle. simpl.
  destruct (globals name) as [f|]; [|reflexivity].
  destruct (f ps w) as [[v|error] w']; reflexivity.
Qed.

(** X9.  After a call of [enqueue] that ended with an error, the flag
    [isProcessing] stays set: as long as the globals of the script live,
    every later call of [enqueue] returns at once, its entry queued behind
    what was left, and no function is called. *)
Theorem failed_enqueue_blocks_the_queue
    (name : string) (ps : list Arg) (sv sv' : Server Arg) (error : QueueError)
    (later : list (Call Arg)) :
  enqueue Arg Ret globals name ps sv = (Some error, sv') ->
  enqueue_all Arg Ret globals later sv'
  = (None, {| functionQueue := functionQueue sv' ++ later;
              isProcessing := true;
              world := world sv' |}).
Proof.
  intros Hfailed. apply enqueue_all_while_processing.
  unfold enqueue, processQueue in Hfailed. cbn [isProcessing functionQueue world] in Hfailed.
  destruct (isProcessing sv); cbn [negb] in Hfailed; [discriminate|].
  destruct (processQueue_loop Arg Ret globals _ (world sv)) as [[[e|] rest] w'].
  - injection Hfailed as _ <-. reflexivity.
  - discriminate.
Qed.

(** The loop on entries whose calls all return, and on entries of which
    one fails. *)
Lemma processQueue_loop_all_return (queue : list (Call Arg)) (w w' : World) :
  all_return globals queue w w' ->
  processQueue_loop Arg Ret globals queue w = (None, [], w').
Proof.
  induction 1 as [w|call rest f v w w1 w2 Hf Hcall _ IH]; [reflexivity|].
  simpl. by rewrite Hf, Hcall.
Qed.

Lemma processQueue_loop_call_fails
    (first later : list (Call Arg)) (call : Call Arg) (error : QueueError)
    (w w1 w2 : World) :
  all_return globals first w w1 ->
  call_fails globals call w1 error w2 ->
  processQueue_loop Arg Ret globals (first ++ call :: later) w
  = (Some error, later, w2).
Proof.
  intros Hfirst Hfails. rewrite processQueue_loop_app.
  rewrite (processQueue_loop_all_return _ _ _ Hfirst). simpl.
  destruct Hfails as [Hnone|f e w' Hf Hcall].
  - by rewrite Hnone.
  - by rewrite Hf, Hcall.
Qed.

Lemma all_return_or_call_fails (queue : list (Call Arg)) (w : World) :
  (exists w', all_return globals queue w w') \/
  (exists (first later : list (Call Arg)) (call : Call Arg) (error : QueueError)
          (w1 w2 : World),
      queue = first ++ call :: later /\
      all_return globals first w w1 /\
      call_fails globals call w1 error w2).
Proof.
  revert w. induction queue as [|call queue IH]; intros w.
  - left. exists w. constructor.
  - destruct (globals (functionName call)) as [f|] eqn:Hf.
    + destruct (f (params call) w) as [[v|e] w1] eqn:Hcall.
      * destruct (IH w1) as [[w' Hall]|(first & later & c & error & w2 & w3 & -> & Hall & Hfails)].
        -- left. exists w'. by econstructor.
        -- right. exists (call :: first), later, c, error, w2, w3.
           split; [reflexivity|]. split; [by econstructor|done].
      * right. exists [], queue, call, (Rethrown e), w, w1.
        split; [reflexivity|]. split; [constructor|]. by econstructor.
    + right. exists [], queue, call, (FunctionDoesNotExist (functionName call)), w, w.
      split; [reflexivity|]. split; [constructor|]. by constructor.
Qed.

(** X10.  [processQueue] takes the entries first in, first out, and stops
    at the first call that fails.  When the functions of all the entries,
    called one after the other, each on the sheet as the call before has
    left it, return, [processQueue] returns with the queue empty and the
    sheet as the last call has left it.  When the calls of the first entries
    return and the call of the next fails, [processQueue] throws the error
    of this call (of the function, or that the name is no function): the
    failed entry has been taken off, the entries behind it are still queued,
    none of them called, and the sheet is as the failed call has left it.
    One of the two is the case for every queue. *)
Theorem processQueue_first_in_first_out
    (queue : list (Call Arg)) (busy : bool) (w : World) :
  (forall w' : World,
      all_return globals queue w w' ->
      processQueue Arg Ret globals
        {| functionQueue := queue; isProcessing := busy; world := w |}
      = (None, {| functionQueue := []; isProcessing := busy; world := w' |})) /\
  (forall (first later : list (Call Arg)) (call : Call Arg) (error : QueueError)
          (w1 w2 : World),
      queue = first ++ call :: later ->
      all_return globals first w w1 ->
      call_fails globals call w1 error w2 ->
      processQueue Arg Ret globals
        {| functionQueue := queue; isProcessing := busy; world := w |}
      = (Some error,
         {| functionQueue := later; isProcessing := busy; world := w2 |})) /\
  ((exists w' : World, all_return globals queue w w') \/
   (exists (first later : list (Call Arg)) (call : Call Arg) (error : QueueError)
           (w1 w2 : World),
       queue = first ++ call :: later /\
       all_return globals first w w1 /\
       call_fails globals call w1 error w2)).
Proof.
  split; [|split].
  - intros w' Hall. unfold processQueue. cbn [functionQueue isProcessing world].
    by rewrite (processQueue_loop_all_return _ _ _ Hall).
  - intros first later call error w1 w2 -> Hfirst Hfails.
    unfold processQueue. cbn [functionQueue isProcessing world].
    by rewrite (processQueue_loop_call_fails _ _ _ _ _ _ _ Hfirst Hfails).
  - apply all_return_or_call_fails.
Qed.

End QueueFacts.

(** A failed call through the queue: no row has the id 9.  The error is
    the error of the function, and a later call, that would succeed, is
    only queued. *)
Lemma failed_enqueue_blocks_the_queue_witness :
  let w := start (Demo.sheet_of [Demo.first_half; Demo.second_half]) in
  let sv' :=
    snd (enqueue val val (value_functions Demo.runtime) "setExpectationStatus"
           [VNum (Fin 9); VBool false] (idle w)) in
  fst (enqueue val val (value_functions Demo.runtime) "setExpectationStatus"
         [VNum (Fin 9); VBool false] (idle w))
  = Some (Rethrown (ExpectationNotFound (VNum (Fin 9)))) /\
  enqueue_all val val (value_functions Demo.runtime)
    [{| functionName := "setExpectationStatus";
        params := [VNum (Fin 1); VBool false] |}] sv'
  = (None,
     {| functionQueue :=
          functionQueue sv'
          ++ [{| functionName := "setExpectationStatus";
                 params := [VNum (Fin 1); VBool false] |}];
        isProcessing := true;
        world := world sv' |}).
Proof.
  intros w sv'. split; [reflexivity|].
  apply (failed_enqueue_blocks_the_queue val val (value_functions Demo.runtime)
           "setExpectationStatus" [VNum (Fin 9); VBool false] (idle w) sv'
           (Rethrown (ExpectationNotFound (VNum (Fin 9))))).
  reflexivity.
Defined.

(** Through the queue, archiving expectation 1 does to the sheet what the
    function does; a name that the script does not have is an error. *)
Example enqueue_examples :
  let s := Demo.sheet_of [Demo.first_half; Demo.second_half] in
  (let '(result, sv) :=
     enqueue val val (value_functions Demo.runtime) "setExpectationStatus"
       [VNum (Fin 1); VBool false] (idle (start s)) in
   result = None /\
   sheet (world sv)
   = sheet_after (setExpectationStatus Demo.runtime (VNum (Fin 1)) (VBool false)) s /\
   isProcessing sv = false /\ functionQueue sv = []) /\
  fst (enqueue val val (value_functions Demo.runtime) "dropTable" [] (idle (start s)))
  = Some (FunctionDoesNotExist "dropTable").
Proof. vm_compute. repeat split. Qed.

(** Three entries: expectation 1 is archived; no row has the id 9, and
    the call fails; the entry for expectation 2 stays in the queue, and
    expectation 2 stays active. *)
Example processQueue_example :
  let s := Demo.sheet_of [Demo.first_half; Demo.second_half] in
  let archive (id : Z) : Call val :=
    {| functionName := "setExpectationStatus";
       params := [VNum (Fin id); VBool false] |} in
  let '(result, sv) :=
    processQueue val val (value_functions Demo.runtime)
      {| functionQueue := [archive 1; archive 9; archive 2];
         isProcessing := true;
         world := start s |} in
  result = Some (Rethrown (ExpectationNotFound (VNum (Fin 9)))) /\
  functionQueue sv = [archive 2] /\
  map r_active (expectations (sheet (world sv))) = [VBool false; VBool true].
Proof. vm_compute. repeat split. Qed.

(* ================================================================== *)
(** ** The users and their roles: facts *)
(* ================================================================== *)

Lemma looked_is_defaulted (v : Looked) (role : string) :
  role <> "" ->
  looked_is (if negb (truthy_looked v) then Undefined else v) role = looked_is v role.
Proof.
  intros Hrole. destruct v as [r| |]; simpl; try reflexivity.
  destruct (String.eqb r "") eqn:Hr; simpl; [|reflexivity].
  apply String.eqb_eq in Hr as ->. symmetry. apply String.eqb_neq. congruence.
Qed.

Lemma looked_is_role (users : Users) (email role : string) :
  looked_is (get_user users email) role = true <-> users !! email = Some role.
Proof.
  unfold get_user. destruct (users !! email) as [r|]; simpl.
  - rewrite String.eqb_eq. split; congruence.
  - destruct (inherited email); simpl; split; discriminate.
Qed.

Section AuthenticationFacts.

Variable activeUser : string.

Lemma authenticate_run (email : string) (property : option Users) :
  authenticate email property =
  if String.eqb email ""
  then (Thrown EmailRequiredForAuthentication, property)
  else (Returned (if negb (truthy_looked (get_user (default ∅ property) email))
                  then Undefined
                  else get_user (default ∅ property) email),
        property).
Proof. unfold authenticate. destruct (String.eqb email ""); reflexivity. Qed.

Lemma validateAdmin_run (property : option Users) :
  validateAdmin activeUser property =
  if String.eqb activeUser ""
  then (Thrown EmailRequiredForAuthentication, property)
  else if negb (looked_is (get_user (default ∅ property) activeUser) ROLES_ADMIN)
          && negb (looked_is (get_user (default ∅ property) activeUser) ROLES_OWNER)
       then (Thrown OnlyAdmins, property)
       else (Returned tt, property).
Proof.
  unfold validateAdmin, mbind, P_bind. rewrite authenticate_run.
  destruct (String.eqb activeUser ""); [reflexivity|].
  rewrite !looked_is_defaulted by discriminate.
  destruct (negb _ && negb _); reflexivity.
Qed.

Lemma validateOwner_run (property : option Users) :
  validateOwner activeUser property =
  if String.eqb activeUser ""
  then (Thrown EmailRequiredForAuthentication, property)
  else (Returned (looked_is (get_user (default ∅ property) activeUser) ROLES_OWNER),
        property).
Proof.
  unfold validateOwner, mbind, P_bind. rewrite authenticate_run.
  destruct (String.eqb activeUser ""); [reflexivity|].
  rewrite looked_is_defaulted by discriminate.
  unfold mret, P_ret. by destruct (looked_is _ ROLES_OWNER).
Qed.

Lemma owner_by_other_run (role : string) (property : option Users) :
  owner_by_other activeUser role property =
  if String.eqb role ROLES_OWNER
  then
    if String.eqb activeUser ""
    then (Thrown EmailRequiredForAuthentication, property)
    else (Returned
            (negb (looked_is (get_user (default ∅ property) activeUser) ROLES_OWNER)),
          property)
  else (Returned false, property).
Proof.
  unfold owner_by_other. destruct (String.eqb role ROLES_OWNER); [|reflexivity].
  unfold mbind, P_bind. rewrite validateOwner_run.
  destruct (String.eqb activeUser ""); reflexivity.
Qed.

(** Take the next step of a run. *)
Ltac users_step :=
  first
    [ rewrite validateAdmin_run
    | rewrite owner_by_other_run
    | progress cbv beta iota
    | progress unfold fail, mret, P_ret, getUsers, setProperty
    | match goal with
      | |- context [if ?c then _ else _] => destruct c eqn:?
      end ].

Lemma addNewUser_run (email role : string) (property : option Users) :
  addNewUser activeUser email role property =
  let mine := get_user (default ∅ property) activeUser in
  if String.eqb activeUser ""
  then (Thrown EmailRequiredForAuthentication, property)
  else if negb (looked_is mine ROLES_ADMIN) && negb (looked_is mine ROLES_OWNER)
  then (Thrown OnlyAdmins, property)
  else if String.eqb email "" || String.eqb role ""
  then (Thrown BothEmailAndRoleRequired, property)
  else if negb (existsb (String.eqb role) ROLES_values)
  then (Thrown InvalidRole, property)
  else if String.eqb role ROLES_OWNER && negb (looked_is mine ROLES_OWNER)
  then (Thrown OnlyOwner, property)
  else (Returned tt, Some (set_user (default ∅ property) email role)).
Proof.
  unfold addNewUser, mbind, P_bind. cbv zeta.
  repeat users_step; try reflexivity; simpl in *; congruence.
Qed.

Lemma editUser_run (email newRole : string) (property : option Users) :
  editUser activeUser email newRole property =
  let mine := get_user (default ∅ property) activeUser in
  if String.eqb activeUser ""
  then (Thrown EmailRequiredForAuthentication, property)
  else if negb (looked_is mine ROLES_ADMIN) && negb (looked_is mine ROLES_OWNER)
  then (Thrown OnlyAdmins, property)
  else if String.eqb email "" || String.eqb newRole ""
  then (Thrown BothEmailAndNewRoleRequired, property)
  else if negb (existsb (String.eqb newRole) ROLES_values)
  then (Thrown InvalidRole, property)
  else if String.eqb newRole ROLES_OWNER && negb (looked_is mine ROLES_OWNER)
  then (Thrown OnlyOwner, property)
  else if negb (truthy_looked (get_user (default ∅ property) email))
  then (Thrown UserDoesNotExist, property)
  else (Returned tt, Some (set_user (default ∅ property) email newRole)).
Proof.
  unfold editUser, mbind, P_bind. cbv zeta.
  repeat users_step; try reflexivity; simpl in *; congruence.
Qed.

Lemma removeUser_run (email : string) (property : option Users) :
  removeUser activeUser email property =
  let mine := get_user (default ∅ property) activeUser in
  if String.eqb activeUser ""
  then (Thrown EmailRequiredForAuthentication, property)
  else if negb (looked_is mine ROLES_ADMIN) && negb (looked_is mine ROLES_OWNER)
  then (Thrown OnlyAdmins, property)
  else if String.eqb email ""
  then (Thrown EmailRequired, property)
  else if negb (truthy_looked (get_user (default ∅ property) email))
  then (Thrown UserDoesNotExist, property)
  else (Returned tt, Some (delete email (default ∅ property))).
Proof.
  unfold removeUser, mbind, P_bind. cbv zeta.
  repeat users_step; try reflexivity; simpl in *; congruence.
Qed.

(** [validateAdmin] returns for the admins and the owner, and for nobody
    else. *)
Lemma validateAdmin_spec (property : option Users) :
  (is_admin activeUser property ->
   validateAdmin activeUser property = (Returned tt, property)) /\
  (~ is_admin activeUser property ->
   exists e, validateAdmin activeUser property = (Thrown e, property)).
Proof.
  rewrite validateAdmin_run. unfold is_admin, has_role.
  destruct (String.eqb activeUser "") eqn:Hemail.
  { apply String.eqb_eq in Hemail. split; [intros [? _]; done|]. intros _. by eexists. }
  apply String.eqb_neq in Hemail.
  destruct (looked_is (get_user (default ∅ property) activeUser) ROLES_ADMIN) eqn:Hadmin.
  { split; [done|]. intros Hnot. exfalso. apply Hnot. split; [done|]. left.
    by apply looked_is_role. }
  destruct (looked_is (get_user (default ∅ property) activeUser) ROLES_OWNER) eqn:Howner.
  { split; [done|]. intros Hnot. exfalso. apply Hnot. split; [done|]. right.
    by apply looked_is_role. }
  simpl. split; [|intros _; by eexists].
  intros [_ [H|H]]; apply looked_is_role in H; congruence.
Qed.

(** X11.  A user who is not in the list.  For an email that is no key of
    the object of users (and no name of a property of [Object.prototype]),
    [authenticate] returns [undefined], the value of [ROLES.VIEWER], which
    does not exist; it does not return a role "viewer".  For such a user who
    is signed in, the three flags of [injectRole] are false and
    [validateAdmin] throws 'Only admins can perform this action'. *)
Theorem authenticate_has_no_viewer (property : option Users) :
  activeUser <> "" ->
  default ∅ property !! activeUser = None ->
  inherited activeUser = false ->
  authenticate activeUser property = (Returned Undefined, property) /\
  getUserRole activeUser property = (Returned Undefined, property) /\
  injectRole activeUser property = (Returned (false, false, false), property) /\
  validateAdmin activeUser property = (Thrown OnlyAdmins, property).
Proof.
  intros Hemail Hnone Hproto. apply String.eqb_neq in Hemail.
  assert (get_user (default ∅ property) activeUser = Undefined) as Hget.
  { unfold get_user. by rewrite Hnone, Hproto. }
  assert (authenticate activeUser property = (Returned Undefined, property)) as Hauth.
  { rewrite authenticate_run, Hemail, Hget. reflexivity. }
  split; [done|]. split; [done|]. split.
  - unfold injectRole, mbind, P_bind. by rewrite Hauth.
  - rewrite validateAdmin_run, Hemail, Hget. reflexivity.
Qed.

(** X12.  Only an admin or the owner changes the list of users: for
    every other user who is signed in (and when nobody is), [addNewUser],
    [editUser] and [removeUser] throw, whatever their arguments, and leave
    the property as it was.  So while the property is not set, it cannot be
    set through these functions. *)
Theorem only_admins_change_the_users (property : option Users) :
  ~ is_admin activeUser property ->
  forall email role : string,
    (exists e, addNewUser activeUser email role property = (Thrown e, property)) /\
    (exists e, editUser activeUser email role property = (Thrown e, property)) /\
    (exists e, removeUser activeUser email property = (Thrown e, property)).
Proof.
  intros Hnot email role.
  destruct (proj2 (validateAdmin_spec property) Hnot) as (e & He).
  unfold addNewUser, editUser, removeUser, mbind, P_bind. rewrite He.
  repeat split; by exists e.
Qed.

(** X13.  A call of [addNewUser], [editUser] or [removeUser] that throws
    leaves the property as it was: every check comes before the write. *)
Theorem failed_change_leaves_users
    (property property' : option Users) (email role : string) (e : UserError) :
  addNewUser activeUser email role property = (Thrown e, property') \/
  editUser activeUser email role property = (Thrown e, property') \/
  removeUser activeUser email property = (Thrown e, property') ->
  property' = property.
Proof.
  rewrite addNewUser_run, editUser_run, removeUser_run. cbv zeta.
  intros [H|[H|H]]; revert H;
    repeat match goal with
           | |- context [if ?c then _ else _] => destruct c
           end; congruence.
Qed.

(** X14.  After [addNewUser] or [editUser] has returned, the role is one
    of the three roles, [authenticate] returns it for the email, and the
    other users have the roles that they had. *)
Theorem changed_user_has_the_role
    (property property' : option Users) (email role : string) :
  addNewUser activeUser email role property = (Returned tt, property') \/
  editUser activeUser email role property = (Returned tt, property') ->
  email <> "__proto__" ->
  In role ROLES_values /\
  authenticate email property' = (Returned (Role role), property') /\
  forall other : string,
    other <> email ->
    get_user (default ∅ property') other = get_user (default ∅ property) other.
Proof.
  intros Hdone Hproto.
  assert ((String.eqb email "" || String.eqb role "") = false /\
          existsb (String.eqb role) ROLES_values = true /\
          property' = Some (<[email := role]> (default ∅ property)))
    as (Hgiven & Hin & ->).
  { assert (set_user (default ∅ property) email role
            = <[email := role]> (default ∅ property)) as Hset.
    { unfold set_user. apply String.eqb_neq in Hproto. rewrite Hproto.
      by destruct (default ∅ property !! email). }
    revert Hdone. rewrite addNewUser_run, editUser_run, Hset. cbv zeta.
    destruct (String.eqb email "" || String.eqb role "");
      destruct (existsb (String.eqb role) ROLES_values); cbn [negb];
      intros [H|H]; revert H;
      repeat match goal with
             | |- context [if ?c then _ else _] => destruct c
             end; try discriminate; intros [= <-]; done. }
  apply orb_false_iff in Hgiven as [Hemail Hrole].
  split.
  { apply existsb_exists in Hin as (x & Hx & Heq).
    apply String.eqb_eq in Heq. by subst. }
  split.
  - rewrite authenticate_run, Hemail.
    cbn [from_option id]. unfold get_user. rewrite lookup_insert_eq. simpl.
    by rewrite Hrole.
  - intros other Hother. cbn [from_option id]. unfold get_user.
    by rewrite lookup_insert_ne.
Qed.

(** X15.  After [removeUser] has returned, the email is no key of the
    object any more, [authenticate] returns [undefined] for it, and the
    other users have the roles that they had. *)
Theorem removed_user_has_no_role
    (property property' : option Users) (email : string) :
  removeUser activeUser email property = (Returned tt, property') ->
  property' = Some (delete email (default ∅ property)) /\
  (inherited email = false ->
   authenticate email property' = (Returned Undefined, property')) /\
  forall other : string,
    other <> email ->
    get_user (default ∅ property') other = get_user (default ∅ property) other.
Proof.
  rewrite removeUser_run. cbv zeta.
  destruct (String.eqb activeUser ""); [discriminate|].
  destruct (negb _ && negb _); [discriminate|].
  destruct (String.eqb email "") eqn:Hemail; [discriminate|].
  destruct (negb (truthy_looked _)); [discriminate|].
  intros [= <-]. split; [done|]. split.
  - intros Hproto. rewrite authenticate_run, Hemail. cbn [from_option id].
    unfold get_user. by rewrite lookup_delete_eq, Hproto.
  - intros other Hother. cbn [from_option id]. unfold get_user.
    by rewrite lookup_delete_ne.
Qed.

(** X16.  The owner is protected on one side only.  An admin who is not
    the owner cannot give the role of the owner, by [addNewUser] or by
    [editUser]: 'Only the current owner can modify owners'.  But the admin
    can take it away: [removeUser] removes the owner, and [editUser] makes
    the owner an editor. *)
Theorem admin_cannot_make_but_can_unmake_owner (property : option Users) :
  activeUser <> "" ->
  has_role property activeUser ROLES_ADMIN ->
  (forall email : string,
      email <> "" ->
      addNewUser activeUser email ROLES_OWNER property = (Thrown OnlyOwner, property) /\
      editUser activeUser email ROLES_OWNER property = (Thrown OnlyOwner, property)) /\
  (forall owner : string,
      owner <> "" ->
      has_role property owner ROLES_OWNER ->
      removeUser activeUser owner property
      = (Returned tt, Some (delete owner (default ∅ property))) /\
      editUser activeUser owner ROLES_EDITOR property
      = (Returned tt, Some (<[owner := ROLES_EDITOR]> (default ∅ property)))).
Proof.
  intros Hactive Hadmin. unfold has_role in Hadmin.
  apply String.eqb_neq in Hactive.
  assert (get_user (default ∅ property) activeUser = Role ROLES_ADMIN) as Hget.
  { unfold get_user. by rewrite Hadmin. }
  split.
  - intros email Hemail. apply String.eqb_neq in Hemail.
    rewrite addNewUser_run, editUser_run. cbv zeta.
    rewrite Hactive, Hget, Hemail. split; reflexivity.
  - intros owner Howner Hrole. unfold has_role in Hrole.
    apply String.eqb_neq in Howner.
    rewrite removeUser_run, editUser_run. cbv zeta.
    rewrite Hactive, Hget, Howner.
    unfold set_user, get_user. rewrite Hrole.
    split; reflexivity.
Qed.

End AuthenticationFacts.

(** A guest, who is not in the list of the examples. *)
Lemma authenticate_has_no_viewer_witness :
  authenticate "guest@example.com" some_users = (Returned Undefined, some_users) /\
  getUserRole "guest@example.com" some_users = (Returned Undefined, some_users) /\
  injectRole "guest@example.com" some_users
  = (Returned (false, false, false), some_users) /\
  validateAdmin "guest@example.com" some_users = (Thrown OnlyAdmins, some_users).
Proof.
  apply (authenticate_has_no_viewer "guest@example.com" some_users).
  - discriminate.
  - reflexivity.
  - reflexivity.
Defined.

(** The editor of the examples is no admin; and nobody is while the
    property is not set. *)
Lemma only_admins_change_the_users_witness :
  (exists e, addNewUser "editor@example.com" "new@example.com" "editor" some_users
             = (Thrown e, some_users)) /\
  (exists e, addNewUser "owner@example.com" "owner@example.com" "owner" None
             = (Thrown e, None)).
Proof.
  split.
  - apply (only_admins_change_the_users "editor@example.com" some_users).
    intros [_ [H|H]]; vm_compute in H; discriminate.
  - apply (only_admins_change_the_users "owner@example.com" None).
    intros [_ [H|H]]; vm_compute in H; discriminate.
Defined.

(** The admin of the examples asks for a role that does not exist. *)
Lemma failed_change_leaves_users_witness :
  addNewUser "admin@example.com" "new@example.com" "viewer" some_users
  = (Thrown InvalidRole, some_users).
Proof.
  assert (exists property',
             addNewUser "admin@example.com" "new@example.com" "viewer" some_users
             = (Thrown InvalidRole, property')) as (property' & Hrun)
    by (eexists; reflexivity).
  rewrite Hrun. f_equal.
  apply (failed_change_leaves_users "admin@example.com" some_users property'
           "new@example.com" "viewer" InvalidRole).
  left. exact Hrun.
Defined.

(** The owner of the examples makes a new user an admin. *)
Lemma changed_user_has_the_role_witness :
  let property' :=
    snd (addNewUser "owner@example.com" "new@example.com" "admin" some_users) in
  authenticate "new@example.com" property' = (Returned (Role "admin"), property') /\
  get_user (default ∅ property') "editor@example.com" = Role "editor".
Proof.
  intros property'.
  destruct (changed_user_has_the_role "owner@example.com" some_users property'
              "new@example.com" "admin") as (_ & Hrole & Hothers).
  - left. reflexivity.
  - discriminate.
  - split; [exact Hrole|]. rewrite Hothers by discriminate. reflexivity.
Defined.

(** The admin of the examples removes the editor. *)
Lemma removed_user_has_no_role_witness :
  let property' := snd (removeUser "admin@example.com" "editor@example.com" some_users) in
  authenticate "editor@example.com" property' = (Returned Undefined, property') /\
  get_user (default ∅ property') "owner@example.com" = Role "owner".
Proof.
  intros property'.
  destruct (removed_user_has_no_role "admin@example.com" some_users property'
              "editor@example.com") as (_ & Hnone & Hothers).
  - reflexivity.
  - split; [by apply Hnone|]. rewrite Hothers by discriminate. reflexivity.
Defined.

(** The admin of the examples and the owner. *)
Lemma admin_cannot_make_but_can_unmake_owner_witness :
  addNewUser "admin@example.com" "admin@example.com" ROLES_OWNER some_users
  = (Thrown OnlyOwner, some_users) /\
  removeUser "admin@example.com" "owner@example.com" some_users
  = (Returned tt, Some (delete "owner@example.com" (default ∅ some_users))).
Proof.
  destruct (admin_cannot_make_but_can_unmake_owner "admin@example.com" some_users)
    as (Hmake & Hunmake).
  - discriminate.
  - reflexivity.
  - split.
    + apply (Hmake "admin@example.com"). discriminate.
    + apply (Hunmake "owner@example.com"); [discriminate|reflexivity].
Defined.

(* ================================================================== *)
(** ** The data of the forms: facts *)
(* ================================================================== *)

Lemma same_value_zero_eq (a b : val) : same_value_zero a b = true -> a = b.
Proof.
  unfold same_value_zero.
  destruct a as [| |x|[| |x|]|x|x], b as [| |y|[| |y|]|y|y];
    try discriminate; try reflexivity; apply strict_eq_eq.
Qed.

Lemma same_value_zero_refl (v : val) : no_date v -> same_value_zero v v = true.
Proof.
  destruct v as [| |x|[| |x|]|x|x]; simpl; try done.
  - intros _. by destruct x.
  - intros _. apply Z.eqb_refl.
  - intros _. apply String.eqb_refl.
Qed.

(** The elements of a [Set] after more values have been added. *)
Lemma Set_add_elements (l set : list val) (v : val) :
  v ∈ foldl Set_add set l <-> v ∈ set \/ v ∈ l.
Proof.
  revert set. induction l as [|x l IH]; intros set; simpl.
  - rewrite elem_of_nil. tauto.
  - rewrite IH, elem_of_cons. unfold Set_add.
    destruct (existsb (same_value_zero x) set) eqn:Hseen.
    + apply existsb_exists in Hseen as (y & Hy & Hxy).
      apply same_value_zero_eq in Hxy as ->. apply list_elem_of_In in Hy.
      split; [tauto|]. intros [H|[->|H]]; tauto.
    + rewrite elem_of_app, list_elem_of_singleton. tauto.
Qed.

Lemma Set_add_NoDup (l set : list val) :
  NoDup set -> Forall no_date l -> NoDup (foldl Set_add set l).
Proof.
  revert set. induction l as [|x l IH]; intros set Hset Hl; simpl; [done|].
  apply Forall_cons in Hl as [Hx Hl]. apply IH; [|done].
  unfold Set_add. destruct (existsb (same_value_zero x) set) eqn:Hseen; [done|].
  apply NoDup_app. split; [done|]. split; [|apply NoDup_singleton].
  intros y Hy Hyx. apply list_elem_of_singleton in Hyx as ->.
  assert (existsb (same_value_zero x) set = true); [|congruence].
  apply existsb_exists. exists x. split; [by apply list_elem_of_In|].
  by apply same_value_zero_refl.
Qed.

Section ProjectorFacts.

Variable date_to_string : option Z -> string.

Lemma last_with_key_cons (k : string) (row : list val) (rows : list (list val)) :
  last_with_key date_to_string k (row :: rows) =
  match last_with_key date_to_string k rows with
  | Some r => Some r
  | None => if has_key date_to_string k row then Some row else None
  end.
Proof.
  unfold last_with_key. rewrite filter_cons.
  destruct (decide (has_key date_to_string k row = true)) as [Hk|Hk].
  - rewrite Hk. destruct (filter _ rows) as [|r rs] eqn:Hf; [reflexivity|].
    rewrite last_cons. by destruct (last (r :: rs)).
  - apply not_true_is_false in Hk. rewrite Hk.
    by destruct (last (filter _ rows)).
Qed.

(** A table filled by [data[row[0]] = value]: under every key, the value
    of the last row that has the key. *)
Lemma each_row_put {A : Type} (g : list val -> A) (rows : list (list val))
    (data data' : gmap string A) :
  each_row (fun data row => put date_to_string data (at_index row 0) (g row)) data rows
  = Loaded data' ->
  forall k : string,
    data' !! k = match last_with_key date_to_string k rows with
                 | Some r => Some (g r)
                 | None => data !! k
                 end.
Proof.
  revert data. induction rows as [|row rows IH]; intros data; simpl.
  - intros [= <-] k. reflexivity.
  - unfold put at 1. destruct (String.eqb (to_key date_to_string (at_index row 0)) "__proto__");
      [discriminate|].
    intros Hrest k. rewrite (IH _ Hrest k), last_with_key_cons.
    destruct (last_with_key date_to_string k rows); [reflexivity|].
    unfold has_key.
    destruct (String.eqb (to_key date_to_string (at_index row 0)) k) eqn:Hk.
    + apply String.eqb_eq in Hk as <-. by rewrite lookup_insert_eq.
    + apply String.eqb_neq in Hk. by rewrite lookup_insert_ne.
Qed.

(** The forms after the questions of the rows have been pushed: every
    form has got the questions of the rows with its key, in the order of the
    rows. *)
Lemma each_row_add_question (tblQuestions : gmap string (list val))
    (rows : list (list val)) (formData formData' : gmap string Form) :
  each_row (add_question date_to_string tblQuestions) formData rows = Loaded formData' ->
  forall k : string,
    formData' !! k =
    (fun form =>
       {| f_id := f_id form; f_name := f_name form; f_versions := f_versions form;
          f_performanceCoaching := f_performanceCoaching form;
          f_oneToOne := f_oneToOne form; f_sideBySide := f_sideBySide form;
          f_modifiedBy := f_modifiedBy form; f_modifiedDate := f_modifiedDate form;
          f_questions :=
            f_questions form
            ++ map (question_of date_to_string tblQuestions)
                 (filter (fun row => has_key date_to_string k row = true) rows) |})
    <$> formData !! k.
Proof.
  revert formData. induction rows as [|row rows IH]; intros formData; simpl.
  - intros [= <-] k.
    destruct (formData !! k) as [form|]; [|reflexivity].
    simpl. rewrite app_nil_r. by destruct form.
  - unfold add_question at 1.
    destruct (formData !! to_key date_to_string (at_index row 0)) as [form|] eqn:Hform.
    + intros Hrest k. rewrite (IH _ Hrest k), filter_cons.
      destruct (decide (has_key date_to_string k row = true)) as [Hk|Hk].
      * unfold has_key in Hk. apply String.eqb_eq in Hk as <-.
        rewrite lookup_insert_eq, Hform. simpl.
        by rewrite <- app_assoc.
      * unfold has_key in Hk. apply not_true_is_false, String.eqb_neq in Hk.
        by rewrite lookup_insert_ne.
    + destruct (inherited (to_key date_to_string (at_index row 0))); [discriminate|].
      intros Hrest k. rewrite (IH _ Hrest k), filter_cons.
      destruct (decide (has_key date_to_string k row = true)) as [Hk|Hk];
        [|reflexivity].
      unfold has_key in Hk. apply String.eqb_eq in Hk as <-. by rewrite Hform.
Qed.

Lemma getRows_loaded (sheet : Grid) (skipRows columnCount : nat)
    (rows : list (list val)) :
  getRows sheet skipRows columnCount = Loaded rows ->
  (skipRows < List.length sheet)%nat /\ rows = data_rows sheet skipRows columnCount.
Proof.
  unfold getRows, data_rows.
  destruct (List.length sheet <=? skipRows)%nat eqn:Hrows; [discriminate|].
  destruct (columnCount =? 0)%nat; [discriminate|].
  apply Nat.leb_gt in Hrows. intros [= <-]. done.
Qed.

(** The steps of [getFormData], when it returns. *)
Lemma getFormData_loaded
    (tbl_coaching_forms forms tbl_coaching_questions questions : Grid)
    (formData : gmap string Form) :
  getFormData date_to_string tbl_coaching_forms forms tbl_coaching_questions questions
  = Loaded formData ->
  ((2 < List.length tbl_coaching_forms)%nat /\ (1 < List.length forms)%nat /\
   (2 < List.length tbl_coaching_questions)%nat /\ (1 < List.length questions)%nat) /\
  forall k : string,
    formData !! k =
    joined_form date_to_string
      (data_rows tbl_coaching_forms 2 7) (data_rows forms 1 2)
      (data_rows tbl_coaching_questions 2 7) (data_rows questions 1 5) k.
Proof.
  unfold getFormData, populateData, mbind, Load_bind, mret, Load_ret.
  destruct (getRows tbl_coaching_forms 2 7) as [rows1|] eqn:Hrows1; [|discriminate].
  apply getRows_loaded in Hrows1 as [Hlen1 ->].
  destruct (each_row (by_first_cell date_to_string) ∅ _) as [tblForms|] eqn:Htbl1;
    [|discriminate].
  destruct (getRows forms 1 2) as [rows2|] eqn:Hrows2; [|discriminate].
  apply getRows_loaded in Hrows2 as [Hlen2 ->].
  destruct (each_row _ ∅ (data_rows forms 1 2)) as [formData1|] eqn:Hforms;
    [|discriminate].
  destruct (getRows tbl_coaching_questions 2 7) as [rows3|] eqn:Hrows3; [|discriminate].
  apply getRows_loaded in Hrows3 as [Hlen3 ->].
  destruct (each_row (by_first_cell date_to_string) ∅ (data_rows tbl_coaching_questions 2 7))
    as [tblQuestions|] eqn:Htbl3; [|discriminate].
  destruct (getRows questions 1 5) as [rows4|] eqn:Hrows4; [|discriminate].
  apply getRows_loaded in Hrows4 as [Hlen4 ->].
  destruct (each_row _ formData1 (data_rows questions 1 5)) as [formData2|] eqn:Hquestions;
    [|discriminate].
  intros [= <-]. split; [done|]. intros k.
  assert (forall key, row_of date_to_string tblForms key
                      = table_of date_to_string (data_rows tbl_coaching_forms 2 7) key)
    as Htable1.
  { intros key. unfold row_of, table_of.
    rewrite (each_row_put (fun row => row) _ _ _ Htbl1).
    destruct (last_with_key date_to_string _ _); [reflexivity|]. by rewrite lookup_empty. }
  assert (forall key, row_of date_to_string tblQuestions key
                      = table_of date_to_string (data_rows tbl_coaching_questions 2 7) key)
    as Htable3.
  { intros key. unfold row_of, table_of.
    rewrite (each_row_put (fun row => row) _ _ _ Htbl3).
    destruct (last_with_key date_to_string _ _); [reflexivity|]. by rewrite lookup_empty. }
  rewrite lookup_fmap, (each_row_add_question _ _ _ _ Hquestions k).
  rewrite (each_row_put (form_of date_to_string tblForms) _ _ _ Hforms k).
  unfold joined_form.
  destruct (last_with_key date_to_string k (data_rows forms 1 2)) as [row|]; simpl;
    [|by rewrite lookup_empty].
  unfold versions_of, set_versions, form_of. simpl.
  rewrite Htable1.
  assert (map (question_of date_to_string tblQuestions)
            (filter (fun row => has_key date_to_string k row = true) (data_rows questions 1 5))
          = map (fun q =>
                   let tblRow := table_of date_to_string
                                   (data_rows tbl_coaching_questions 2 7) (at_index q 2) in
                   {| q_id := at_index q 2;
                      q_version := at_index q 1;
                      q_rank := at_index q 3;
                      q_text := at_index tblRow 2;
                      q_type := at_index q 4;
                      q_category := at_index tblRow 3;
                      q_hidden := at_index tblRow 4;
                      q_modifiedBy := at_index tblRow 5;
                      q_modifiedDate := at_index tblRow 6 |})
              (filter (fun row => has_key date_to_string k row = true) (data_rows questions 1 5)))
    as ->.
  { apply map_ext. intros q. unfold question_of. cbv zeta. by rewrite Htable3. }
  reflexivity.
Qed.

(** X17.  [getFormData] is the join of its four sheets.  When it
    returns, each of the four sheets has rows below its headers, and the
    object has under a key the form of the last row of [forms] with that key
    (a number and its decimal notation are the same key): the flags and the
    audit cells of the last row of [tbl_coaching_forms] with the key, and the
    questions of all the rows of [questions] with the key, in the order of
    the sheet, each with the text of the last row of [tbl_coaching_questions]
    for its id.  A question for a key that no row of [forms] has is in no
    form. *)
Theorem getFormData_is_the_join
    (tbl_coaching_forms forms tbl_coaching_questions questions : Grid)
    (formData : gmap string Form) :
  getFormData date_to_string tbl_coaching_forms forms tbl_coaching_questions questions
  = Loaded formData ->
  (forall k : string,
      formData !! k =
      joined_form date_to_string
        (data_rows tbl_coaching_forms 2 7) (data_rows forms 1 2)
        (data_rows tbl_coaching_questions 2 7) (data_rows questions 1 5) k) /\
  (forall row : list val,
      row ∈ data_rows questions 1 5 ->
      Forall (fun form => has_key date_to_string (to_key date_to_string (at_index row 0)) form = false)
        (data_rows forms 1 2) ->
      formData !! to_key date_to_string (at_index row 0) = None).
Proof.
  intros Hloaded. apply getFormData_loaded in Hloaded as [_ Hjoin].
  split; [exact Hjoin|].
  intros row _ Hnone. rewrite Hjoin. unfold joined_form, last_with_key.
  assert (filter (fun r => has_key date_to_string (to_key date_to_string (at_index row 0)) r = true)
            (data_rows forms 1 2) = []) as ->; [|reflexivity].
  clear Hjoin. induction Hnone as [|r rs Hr _ IH]; [reflexivity|].
  rewrite filter_cons. destruct (decide _) as [Hk|_]; [congruence|exact IH].
Qed.

(** X18.  The versions of a form are the versions of its questions:
    every question of the form has its version among them, every one of them
    is the version of a question of the form, and none is there twice, as
    long as no version is a [Date] (two dates are two objects for a
    [Set]). *)
Theorem versions_are_those_of_the_questions
    (tbl_coaching_forms forms tbl_coaching_questions questions : Grid)
    (formData : gmap string Form) (k : string) (form : Form) :
  getFormData date_to_string tbl_coaching_forms forms tbl_coaching_questions questions
  = Loaded formData ->
  formData !! k = Some form ->
  (forall v : val, v ∈ f_versions form <-> v ∈ map q_version (f_questions form)) /\
  (Forall no_date (map q_version (f_questions form)) -> NoDup (f_versions form)).
Proof.
  intros Hloaded Hform. apply getFormData_loaded in Hloaded as [_ Hjoin].
  rewrite Hjoin in Hform. unfold joined_form in Hform.
  destruct (last_with_key date_to_string k (data_rows forms 1 2)) as [row|]; [|discriminate].
  simpl in Hform. injection Hform as <-. simpl. split.
  - intros v. rewrite Set_add_elements, elem_of_nil. tauto.
  - intros Hdates. apply Set_add_NoDup; [apply NoDup_nil_2|done].
Qed.

(** X19.  [getFormData] needs rows in all four sheets: when one of them
    has no row below its header rows (two for the sheets of the tool, one
    for the sheets of the forms and of the questions), the range that
    [populateData] asks for has no row, and [getFormData] does not
    return. *)
Theorem getFormData_needs_rows
    (tbl_coaching_forms forms tbl_coaching_questions questions : Grid) :
  (List.length tbl_coaching_forms <= 2)%nat \/ (List.length forms <= 1)%nat \/
  (List.length tbl_coaching_questions <= 2)%nat \/ (List.length questions <= 1)%nat ->
  exists e : LoadError,
    getFormData date_to_string tbl_coaching_forms forms tbl_coaching_questions questions
    = Failed e.
Proof.
  intros Hempty.
  destruct (getFormData date_to_string tbl_coaching_forms forms
              tbl_coaching_questions questions) as [formData|e] eqn:Hrun;
    [|by exists e].
  apply getFormData_loaded in Hrun as [(H1 & H2 & H3 & H4) _]. lia.
Qed.

End ProjectorFacts.

(** The join of the sheets of the examples: form 1 has three questions,
    one of them from a row that gives the id of the form as a text; form 2
    has none; the question for form 9 is dropped. *)
Lemma getFormData_is_the_join_witness :
  exists formData : gmap string Form,
    getFormData Sheets.date_to_string Sheets.tbl_coaching_forms Sheets.forms
      Sheets.tbl_coaching_questions Sheets.questions = Loaded formData /\
    (List.length ∘ f_questions) <$> formData !! "1" = Some 3%nat /\
    (List.length ∘ f_questions) <$> formData !! "2" = Some 0%nat /\
    formData !! "9" = None.
Proof.
  eexists. split; [reflexivity|].
  edestruct (getFormData_is_the_join Sheets.date_to_string Sheets.tbl_coaching_forms
               Sheets.forms Sheets.tbl_coaching_questions Sheets.questions)
    as [Hjoin Hdropped]; [reflexivity|].
  split; [|split].
  - rewrite Hjoin. reflexivity.
  - rewrite Hjoin. reflexivity.
  - apply (Hdropped [VNum (Fin 9); VNum (Fin 1); VNum (Fin 12); VNum (Fin 1); VStr "text"]).
    + apply list_elem_of_In. simpl. auto 10.
    + repeat constructor.
Defined.

(** Form 1 of the examples has the versions 1 and 2. *)
Lemma versions_are_those_of_the_questions_witness :
  getFormData Sheets.date_to_string Sheets.tbl_coaching_forms Sheets.forms
    Sheets.tbl_coaching_questions Sheets.questions = Loaded Sheets.formData /\
  f_versions <$> Sheets.formData !! "1" = Some [VNum (Fin 1); VNum (Fin 2)] /\
  forall form : Form,
    Sheets.formData !! "1" = Some form -> NoDup (f_versions form).
Proof.
  split; [reflexivity|]. split; [reflexivity|].
  intros form Hform.
  apply (versions_are_those_of_the_questions Sheets.date_to_string
           Sheets.tbl_coaching_forms Sheets.forms Sheets.tbl_coaching_questions
           Sheets.questions Sheets.formData "1" form); [reflexivity|exact Hform|].
  vm_compute in Hform. injection Hform as <-. repeat constructor.
Defined.

(** As long as the sheet of the questions has its heading only, the data
    of the forms cannot be read. *)
Lemma getFormData_needs_rows_witness :
  exists e : LoadError,
    getFormData Sheets.date_to_string Sheets.tbl_coaching_forms Sheets.forms
      Sheets.tbl_coaching_questions
      [Sheets.heading ["form_id"; "version"; "question_id"; "rank"; "type"]]
    = Failed e.
Proof.
  apply (getFormData_needs_rows Sheets.date_to_string).
  right. right. right. simpl. lia.
Defined.

(* ================================================================== *)
(** ** The forms of the sheet of the configuration: facts *)
(* ================================================================== *)

Module ConfigFacts.

Import Config.

Lemma tabs_note (step : Step) (b : Book) : tabs (note step b) = tabs b.
Proof. reflexivity. Qed.

Lemma steps_note (step : Step) (b : Book) : steps (note step b) = steps b ++ [step].
Proof. reflexivity. Qed.

Section ScriptFacts.

Variable rt : Runtime.
Variable email : string.

Lemma getValues_A3_A_run (name : SheetName) (b : Book) :
  getValues_A3_A name b =
  if 3 <=? maxRows (tabs b name)
  then (Fine (grid_values (content (tabs b name)) 3 1 (maxRows (tabs b name) - 2) 1),
        note (GetValues name) b)
  else (Raise OutOfRange, b).
Proof.
  unfold getValues_A3_A, getValues.
  destruct (3 <=? maxRows (tabs b name)) eqn:Hrows.
  - apply Z.leb_le in Hrows.
    rewrite (proj2 (Z.leb_le 1 (maxRows (tabs b name) - 2))) by lia.
    rewrite (proj2 (Z.leb_le (3 + (maxRows (tabs b name) - 2) - 1) _)) by lia.
    reflexivity.
  - apply Z.leb_gt in Hrows.
    rewrite (proj2 (Z.leb_gt 1 (maxRows (tabs b name) - 2))) by lia.
    reflexivity.
Qed.

Lemma _getFormIDs_run (b : Book) :
  _getFormIDs rt b =
  let b1 := note (WaitLock LOCK_WAIT_TIME) b in
  if lock_obtainable rt
  then
    if 3 <=? maxRows (tabs b tbl_coaching_forms)
    then (Fine (numbers rt (column_A3_A (tabs b tbl_coaching_forms))),
          note ReleaseLock (note (GetValues tbl_coaching_forms) b1))
    else (Raise OutOfRange, note ReleaseLock b1)
  else (Raise LockNotObtained, note ReleaseLock b1).
Proof.
  unfold _getFormIDs, _withLock, mbind, Api_bind. cbv zeta.
  destruct (lock_obtainable rt); [|reflexivity].
  rewrite getValues_A3_A_run, tabs_note.
  destruct (3 <=? maxRows (tabs b tbl_coaching_forms)); reflexivity.
Qed.

Lemma _getCurrentUserID_run (b : Book) :
  _getCurrentUserID rt email b =
  let b1 := note (WaitLock LOCK_WAIT_TIME) b in
  if lock_obtainable rt
  then
    let b2 := note ReleaseLock (note (GetValues User_IDs) b1) in
    match List.find (fun row => strict_eq (at_index row 1) (VStr email))
            (data_range (tabs b User_IDs)) with
    | Some row => (Fine (parseInt rt (at_index row 0)), b2)
    | None => (Raise (NoUserID email), b2)
    end
  else (Raise TypeError, note ReleaseLock b1).
Proof.
  unfold _getCurrentUserID, _getSheetData, _withLock, getDataRange_getValues,
    mbind, Api_bind. cbv zeta.
  destruct (lock_obtainable rt); [|reflexivity].
  rewrite tabs_note. fold (data_range (tabs b User_IDs)).
  destruct (List.find _ (data_range (tabs b User_IDs))); reflexivity.
Qed.

(** What the validator of the id of a form leaves behind: a promise, and
    the steps of [_getFormIDs]. *)
Lemma validateValue_Form_ID_run (value : num) (b : Book) :
  exists valid : Promise bool,
    validateValue_Form_ID rt value b = (Fine valid, snd (_getFormIDs rt b)).
Proof.
  unfold validateValue_Form_ID, promise_of, FormIdValidator_validate,
    mbind, Api_bind, mret, Api_ret.
  destruct (_getFormIDs rt b) as [[ids|e] b']; eexists; reflexivity.
Qed.

Lemma _addForm_run (formId : val) (b : Book) :
  _addForm rt email formId b =
  match _getFormIDs rt (snd (_getFormIDs rt b)) with
  | (Fine existingFormIds, b2) =>
      if includes existingFormIds (parseInt rt formId)
      then (Raise (FormAlreadyExists (parseInt rt formId)), b2)
      else _withLock rt (_addForm_callback rt email (parseInt rt formId)) b2
  | (Raise e, b2) => (Raise e, b2)
  end.
Proof.
  unfold _addForm, mbind, Api_bind. cbv zeta.
  destruct (validateValue_Form_ID_run (parseInt rt formId) b) as [valid ->].
  unfold truthy_promise. cbn [negb].
  destruct (_getFormIDs rt (snd (_getFormIDs rt b))) as [[ids|e] b2]; [|reflexivity].
  destruct (includes ids (parseInt rt formId)); reflexivity.
Qed.

Lemma _removeForm_run (formId : val) (b : Book) :
  _removeForm rt formId b =
  match _getFormIDs rt (snd (_getFormIDs rt b)) with
  | (Fine existingFormIds, b2) =>
      if negb (includes existingFormIds (parseInt rt formId))
      then (Raise (FormDoesNotExist (parseInt rt formId)), b2)
      else _withLock rt (_removeForm_callback (parseInt rt formId)) b2
  | (Raise e, b2) => (Raise e, b2)
  end.
Proof.
  unfold _removeForm, mbind, Api_bind. cbv zeta.
  destruct (validateValue_Form_ID_run (parseInt rt formId) b) as [valid ->].
  unfold truthy_promise. cbn [negb].
  destruct (_getFormIDs rt (snd (_getFormIDs rt b))) as [[ids|e] b2]; [|reflexivity].
  destruct (negb (includes ids (parseInt rt formId))); reflexivity.
Qed.

(** The first element that passes the filter is the element found. *)
Lemma filter_find {A : Type} (p : A -> bool) (l : list A) :
  List.find p l = match List.filter p l with
                  | [] => None
                  | x :: _ => Some x
                  end.
Proof.
  induction l as [|x l IH]; [reflexivity|]. simpl. by destruct (p x).
Qed.

(** The callback of [_addForm], when the lock can be obtained. *)
Lemma _addForm_callback_run (id : num) (b : Book) :
  lock_obtainable rt = true ->
  _addForm_callback rt email id b =
  let last := Z.of_nat (List.length (content (tabs b forms))) in
  let b1 := note (GetLastRow forms) b in
  if (1 <=? last - 1) && (2 + (last - 1) - 1 <=? maxRows (tabs b forms))
  then
    let b2 := note (GetValues forms) b1 in
    match List.find (fun row => strict_eq (at_index row 0) (VNum id))
            (forms_rows (tabs b forms)) with
    | None => (Raise TypeError, b2)
    | Some forminfo =>
        let b3 := note ReleaseLock
                    (note (GetValues User_IDs) (note (WaitLock LOCK_WAIT_TIME) b2)) in
        match List.find (fun row => strict_eq (at_index row 1) (VStr email))
                (data_range (tabs b User_IDs)) with
        | None => (Raise (NoUserID email), b3)
        | Some user =>
            appendRow tbl_coaching_forms
              [VNum id; at_index forminfo 1; VBool false; VBool false; VBool false;
               VNum (parseInt rt (at_index user 0)); VStr (today rt)] b3
        end
    end
  else (Raise OutOfRange, b1).
Proof.
  intros Hlock. unfold _addForm_callback, mbind, Api_bind, getLastRow. cbv zeta.
  unfold getValues. rewrite tabs_note.
  change ((1 <=? 2) && (1 <=? 1)) with true. cbn [andb].
  change (1 <=? 2) with true. rewrite andb_true_r.
  destruct ((1 <=? _ - 1) && (2 + _ - 1 <=? _)); [|reflexivity].
  fold (forms_rows (tabs b forms)). rewrite filter_find.
  destruct (List.filter _ (forms_rows (tabs b forms))) as [|forminfo rest];
    [reflexivity|].
  rewrite _getCurrentUserID_run, Hlock. cbv zeta. rewrite !tabs_note.
  destruct (List.find _ (data_range (tabs b User_IDs))); reflexivity.
Qed.

(** A successful [addForm], step by step. *)
Lemma addForm_success (formId : val) (b b' : Book) :
  addForm rt email formId b = (Fine tt, b') ->
  exists forminfo user : list val,
    let newRow :=
      [VNum (parseInt rt formId); at_index forminfo 1;
       VBool false; VBool false; VBool false;
       VNum (parseInt rt (at_index user 0)); VStr (today rt)] in
    truthy formId = true /\
    lock_obtainable rt = true /\
    includes (numbers rt (column_A3_A (tabs b tbl_coaching_forms))) (parseInt rt formId)
    = false /\
    List.find (fun row => strict_eq (at_index row 0) (VNum (parseInt rt formId)))
      (forms_rows (tabs b forms)) = Some forminfo /\
    List.find (fun row => strict_eq (at_index row 1) (VStr email))
      (data_range (tabs b User_IDs)) = Some user /\
    tabs b' tbl_coaching_forms
    = {| content := content (tabs b tbl_coaching_forms) ++ [newRow];
         emptyRows := Nat.pred (emptyRows (tabs b tbl_coaching_forms)) |} /\
    tabs b' forms = tabs b forms /\
    tabs b' User_IDs = tabs b User_IDs /\
    steps b' = steps b ++ addForm_steps newRow.
Proof.
  unfold addForm. destruct (truthy formId); cbn [negb]; [|discriminate].
  rewrite _addForm_run, !_getFormIDs_run. cbv zeta.
  destruct (lock_obtainable rt) eqn:Hlock; [|discriminate].
  destruct (3 <=? maxRows (tabs b tbl_coaching_forms)) eqn:Hrows; cbn [snd].
  2:{ rewrite !tabs_note, Hrows. discriminate. }
  rewrite !tabs_note, Hrows.
  destruct (includes _ (parseInt rt formId)) eqn:Hnew; [discriminate|].
  unfold _withLock. rewrite Hlock, (_addForm_callback_run _ _ Hlock). cbv zeta.
  rewrite !tabs_note.
  destruct ((1 <=? _ - 1) && (2 + _ - 1 <=? _)); [|discriminate].
  destruct (List.find _ (forms_rows (tabs b forms))) as [forminfo|]; [|discriminate].
  destruct (List.find _ (data_range (tabs b User_IDs))) as [user|]; [|discriminate].
  unfold appendRow. intros [= <-]. exists forminfo, user. cbv zeta.
  repeat split; try reflexivity.
  cbn [steps note with_tab]. rewrite <- !app_assoc. reflexivity.
Qed.

(** X20.  A successful [addForm] appends one row to the sheet
    [tbl_coaching_forms], and changes nothing else: the id as [parseInt]
    reads it, the name of the first row of the sheet [forms] whose id is this
    number, three flags that are false, the id of the user who is signed in
    (of the first row of the sheet [User IDs] with the email) and the date
    of the day.  The id was not among the numbers of column A of the sheet
    from row 3 on. *)
Theorem addForm_appends_the_form (formId : val) (b b' : Book) :
  addForm rt email formId b = (Fine tt, b') ->
  exists forminfo user : list val,
    List.find (fun row => strict_eq (at_index row 0) (VNum (parseInt rt formId)))
      (forms_rows (tabs b forms)) = Some forminfo /\
    List.find (fun row => strict_eq (at_index row 1) (VStr email))
      (data_range (tabs b User_IDs)) = Some user /\
    includes (numbers rt (column_A3_A (tabs b tbl_coaching_forms))) (parseInt rt formId)
    = false /\
    content (tabs b' tbl_coaching_forms)
    = content (tabs b tbl_coaching_forms)
      ++ [[VNum (parseInt rt formId); at_index forminfo 1;
           VBool false; VBool false; VBool false;
           VNum (parseInt rt (at_index user 0)); VStr (today rt)]] /\
    tabs b' forms = tabs b forms /\
    tabs b' User_IDs = tabs b User_IDs.
Proof.
  intros Hdone.
  destruct (addForm_success formId b b' Hdone)
    as (forminfo & user & _ & _ & Hnew & Hform & Huser & Htool & Hforms & Hids & _).
  exists forminfo, user. rewrite Htool. done.
Qed.

(** X21.  [_withLock] is not reentrant, and [addForm] writes without the
    lock.  The callback that [_addForm] runs under the lock calls
    [_getCurrentUserID], which reads the sheet of the users through
    [_getSheetData], under a [_withLock] of its own: its [releaseLock] gives
    the lock up, and the row is appended after that, before the
    [releaseLock] of the outer [_withLock].  The steps of every successful
    [addForm] are these. *)
Theorem addForm_appends_without_the_lock (formId : val) (b b' : Book) :
  addForm rt email formId b = (Fine tt, b') ->
  exists newRow : list val,
    steps b' = steps b ++ addForm_steps newRow /\
    locked false (addForm_steps newRow) = false /\
    exists before : list Step,
      addForm_steps newRow
      = before ++ [ReleaseLock; AppendRow tbl_coaching_forms newRow; ReleaseLock].
Proof.
  intros Hdone.
  destruct (addForm_success formId b b' Hdone)
    as (forminfo & user & _ & _ & _ & _ & _ & _ & _ & _ & Hsteps).
  eexists. split; [exact Hsteps|]. split; [reflexivity|].
  exists [ WaitLock LOCK_WAIT_TIME; GetValues tbl_coaching_forms; ReleaseLock;
           WaitLock LOCK_WAIT_TIME; GetValues tbl_coaching_forms; ReleaseLock;
           WaitLock LOCK_WAIT_TIME; GetLastRow forms; GetValues forms;
           WaitLock LOCK_WAIT_TIME; GetValues User_IDs ].
  reflexivity.
Qed.

Lemma findIndex_from_all_false {A : Type} (p : A -> bool) (l : list A) (k : Z) :
  Forall (fun x => p x = false) l -> findIndex_from p k l = -1.
Proof.
  intros Hall. revert k. induction Hall as [|x l Hx _ IH]; intros k; simpl.
  - reflexivity.
  - rewrite Hx. apply IH.
Qed.

(** The callback of [_removeForm]. *)
Lemma _removeForm_callback_run (id : num) (b : Book) :
  _removeForm_callback id b =
  let t := tabs b tbl_coaching_forms in
  let found := findIndex (fun cell => strict_eq cell (VNum id)) (id_column t) in
  if 3 <=? Z.of_nat (List.length (content t))
  then
    (Fine tt,
     note (DeleteRow tbl_coaching_forms (found + 2 + 1))
       (with_tab tbl_coaching_forms
          {| content := trim (delete (Z.to_nat (found + 2)) (content t));
             emptyRows :=
               Z.to_nat (maxRows t - 1)
               - List.length (trim (delete (Z.to_nat (found + 2)) (content t))) |}
          (note (GetValues tbl_coaching_forms) (note (GetLastRow tbl_coaching_forms) b))))
  else (Raise OutOfRange, note (GetLastRow tbl_coaching_forms) b).
Proof.
  unfold _removeForm_callback, mbind, Api_bind, getLastRow. cbv zeta.
  unfold getValues. rewrite tabs_note.
  change ((1 <=? 3) && (1 <=? 1)) with true. cbn [andb].
  change (1 <=? 1) with true. rewrite andb_true_r.
  set (t := tabs b tbl_coaching_forms).
  destruct (3 <=? Z.of_nat (List.length (content t))) eqn:Hrows.
  - apply Z.leb_le in Hrows.
    assert (maxRows t >= Z.of_nat (List.length (content t))) as Hmax
      by (unfold maxRows; lia).
    rewrite (proj2 (Z.leb_le 1 (Z.of_nat (List.length (content t)) - 2))) by lia.
    rewrite (proj2 (Z.leb_le (3 + (Z.of_nat (List.length (content t)) - 2) - 1) _))
      by lia.
    cbn [andb]. fold (id_column t).
    set (found := findIndex (fun cell => strict_eq cell (VNum id)) (id_column t)).
    assert (-1 <= found < Z.of_nat (List.length (content t)) - 2) as Hfound.
    { assert (List.length (id_column t)
              = Z.to_nat (Z.of_nat (List.length (content t)) - 2)) as Hlength.
      { unfold id_column, grid_values. by rewrite !length_map, length_seq. }
      unfold found, findIndex.
      destruct (findIndex_from_range (fun cell => strict_eq cell (VNum id))
                  (id_column t) 0) as [->|Hrange]; [lia|].
      rewrite Hlength in Hrange. lia. }
    unfold deleteRow. rewrite !tabs_note. fold t.
    rewrite (proj2 (Z.leb_le 1 (found + 2 + 1))) by lia.
    rewrite (proj2 (Z.leb_le (found + 2 + 1) (maxRows t))) by lia.
    rewrite (proj2 (Z.leb_le 2 (maxRows t))) by lia.
    cbn [andb]. replace (found + 2 + 1 - 1) with (found + 2) by lia.
    reflexivity.
  - apply Z.leb_gt in Hrows.
    rewrite (proj2 (Z.leb_gt 1 (Z.of_nat (List.length (content t)) - 2))) by lia.
    reflexivity.
Qed.

(** X22.  A successful [removeForm] deletes one row of the sheet
    [tbl_coaching_forms]: the row of the first cell of column A, from row
    3 on, that is the number of the id.  The check before it looks for the
    number among what [Number] makes of the cells of the column down to the
    end of the grid; so when the id is found there but no cell is the number
    itself (the id is in the sheet as a text; or the id is 0 and the grid has
    empty rows, whose blank cells [Number] reads as 0), the row deleted is
    row 2, a header row. *)
Theorem removeForm_deletes_a_row (formId : val) (b b' : Book) :
  removeForm rt formId b = (Fine tt, b') ->
  let t := tabs b tbl_coaching_forms in
  let found :=
    findIndex (fun cell => strict_eq cell (VNum (parseInt rt formId))) (id_column t) in
  includes (numbers rt (column_A3_A t)) (parseInt rt formId) = true /\
  content (tabs b' tbl_coaching_forms)
  = trim (delete (Z.to_nat (found + 2)) (content t)) /\
  tabs b' forms = tabs b forms /\
  tabs b' User_IDs = tabs b User_IDs /\
  (Forall (fun cell => strict_eq cell (VNum (parseInt rt formId)) = false) (id_column t) ->
   content (tabs b' tbl_coaching_forms) = trim (delete 1%nat (content t))).
Proof.
  unfold removeForm. destruct (truthy formId); cbn [negb]; [|discriminate].
  rewrite _removeForm_run, !_getFormIDs_run. cbv zeta.
  destruct (lock_obtainable rt) eqn:Hlock; [|discriminate].
  destruct (3 <=? maxRows (tabs b tbl_coaching_forms)) eqn:Hrows; cbn [snd].
  2:{ rewrite !tabs_note, Hrows. discriminate. }
  rewrite !tabs_note, Hrows.
  destruct (includes _ (parseInt rt formId)) eqn:Hfound; cbn [negb]; [|discriminate].
  unfold _withLock. rewrite Hlock, _removeForm_callback_run. cbv zeta.
  rewrite !tabs_note.
  destruct (3 <=? Z.of_nat (List.length (content (tabs b tbl_coaching_forms))));
    [|discriminate].
  intros [= <-]. cbv zeta. split; [reflexivity|].
  split; [reflexivity|]. split; [reflexivity|]. split; [reflexivity|].
  intros Hnone. cbn [tabs note with_tab content].
  destruct (decide (tbl_coaching_forms = tbl_coaching_forms)); [|done].
  cbn [content]. unfold findIndex.
  by rewrite (findIndex_from_all_false _ _ 0 Hnone).
Qed.

(** X23.  The error 'Invalid Form ID.' is never thrown: [validateValue]
    returns the promise of the validator, which is [async], and [_addForm]
    and [_removeForm] test the promise itself, which is an object. *)
Theorem form_id_is_never_invalid (formId : val) (b : Book) :
  fst (addForm rt email formId b) <> Raise InvalidFormID /\
  fst (removeForm rt formId b) <> Raise InvalidFormID.
Proof.
  unfold addForm, removeForm.
  destruct (truthy formId); cbn [negb]; [|split; discriminate].
  rewrite _addForm_run, _removeForm_run, !_getFormIDs_run. cbv zeta.
  destruct (lock_obtainable rt) eqn:Hlock; [|split; discriminate].
  destruct (3 <=? maxRows (tabs b tbl_coaching_forms)) eqn:Hrows; cbn [snd];
    rewrite !tabs_note, Hrows; [|split; discriminate].
  destruct (includes _ (parseInt rt formId)); cbn [negb]; split; try discriminate.
  - unfold _withLock. rewrite Hlock, _removeForm_callback_run. cbv zeta.
    rewrite !tabs_note.
    destruct (3 <=? Z.of_nat (List.length (content (tabs b tbl_coaching_forms))));
      simpl; discriminate.
  - unfold _withLock. rewrite Hlock, (_addForm_callback_run _ _ Hlock). cbv zeta.
    unfold appendRow.
    repeat match goal with
           | |- context [if ?c then _ else _] => destruct c
           | |- context [match ?c with Some _ => _ | None => _ end] => destruct c
           end; simpl; discriminate.
Qed.

(** X24.  A lock that cannot be obtained.  [_getFormIDs] is rejected
    with the error of [waitLock], and so are [addForm] and [removeForm],
    with nothing written.  But [_getSheetData] drops the promise of
    [_withLock] and returns [undefined]; [_getCurrentUserID], which reads the
    length of what it returns, throws a [TypeError] instead. *)
Theorem lock_timeout_in_the_helpers (b : Book) :
  lock_obtainable rt = false ->
  (forall name : SheetName, fst (_getSheetData rt name b) = Fine None) /\
  fst (_getCurrentUserID rt email b) = Raise TypeError /\
  fst (_getFormIDs rt b) = Raise LockNotObtained /\
  (forall formId : val,
      truthy formId = true ->
      fst (addForm rt email formId b) = Raise LockNotObtained /\
      tabs (snd (addForm rt email formId b)) = tabs b /\
      fst (removeForm rt formId b) = Raise LockNotObtained /\
      tabs (snd (removeForm rt formId b)) = tabs b).
Proof.
  intros Hlock. split; [|split; [|split]].
  - intros name. unfold _getSheetData, _withLock. by rewrite Hlock.
  - by rewrite _getCurrentUserID_run, Hlock.
  - by rewrite _getFormIDs_run, Hlock.
  - intros formId Hgiven. unfold addForm, removeForm. rewrite Hgiven. cbn [negb].
    rewrite _addForm_run, _removeForm_run, !_getFormIDs_run, Hlock. done.
Qed.

End ScriptFacts.

(** The user of the examples adds form 2. *)
Lemma addForm_appends_the_form_witness :
  let b := book tool_forms database_forms user_ids in
  let b' := snd (addForm Demo.runtime "coach@example.com" (VStr "2") b) in
  fst (addForm Demo.runtime "coach@example.com" (VStr "2") b) = Fine tt /\
  content (tabs b' tbl_coaching_forms)
  = content tool_forms
    ++ [[VNum (Fin 2); VStr "Sales"; VBool false; VBool false; VBool false;
         VNum (Fin 7); VStr "2024-03-01"]].
Proof.
  intros b b'. split; [reflexivity|].
  destruct (addForm_appends_the_form Demo.runtime "coach@example.com" (VStr "2") b b')
    as (forminfo & user & Hform & Huser & _ & Hcontent & _); [reflexivity|].
  vm_compute in Hform, Huser.
  injection Hform as <-. injection Huser as <-. exact Hcontent.
Defined.

Lemma addForm_appends_without_the_lock_witness :
  let b := book tool_forms database_forms user_ids in
  let b' := snd (addForm Demo.runtime "coach@example.com" (VStr "2") b) in
  locked false (steps b') = false.
Proof.
  intros b b'.
  destruct (addForm_appends_without_the_lock Demo.runtime "coach@example.com"
              (VStr "2") b b') as (newRow & Hsteps & Hlocked & _); [reflexivity|].
  rewrite Hsteps. exact Hlocked.
Defined.

(** Removing the form 0, which the sheet does not have, deletes the
    second header row. *)
Lemma removeForm_deletes_a_row_witness :
  let b := book tool_forms database_forms user_ids in
  let b' := snd (removeForm Demo.runtime (VStr "0") b) in
  fst (removeForm Demo.runtime (VStr "0") b) = Fine tt /\
  content (tabs b' tbl_coaching_forms)
  = [ Sheets.heading ["Forms"];
      [VNum (Fin 1); VStr "Quality"; VBool true; VBool false; VBool true;
       VNum (Fin 7); VStr "2024-01-15"] ].
Proof.
  intros b b'. split; [reflexivity|].
  destruct (removeForm_deletes_a_row Demo.runtime (VStr "0") b b')
    as (_ & _ & _ & _ & Hheader); [reflexivity|].
  rewrite Hheader; [reflexivity|]. repeat constructor.
Defined.

Lemma lock_timeout_in_the_helpers_witness :
  let b := book tool_forms database_forms user_ids in
  fst (_getCurrentUserID busy_runtime "coach@example.com" b) = Raise TypeError /\
  fst (addForm busy_runtime "coach@example.com" (VStr "2") b) = Raise LockNotObtained.
Proof.
  intros b.
  destruct (lock_timeout_in_the_helpers busy_runtime "coach@example.com" b)
    as (_ & Huser & _ & Hadd); [reflexivity|].
  split; [exact Huser|]. apply (Hadd (VStr "2")). reflexivity.
Defined.

(** Form 2 of the database is not used by the tool yet. *)
Example getUnusedForms_example :
  fst (getUnusedForms Demo.runtime (book tool_forms database_forms user_ids))
  = Fine [(VNum (Fin 2), VStr "Sales")].
Proof. reflexivity. Qed.

End ConfigFacts.

(* ================================================================== *)
(** ** The alerts of the page: facts *)
(* ================================================================== *)

Module AlertsFacts.

Import Alerts.

(** [updateDisplay] shows the next alert when there is room. *)
Lemma updateDisplay_counted (k : nat) (p : Page) :
  activeAlerts p = Z.of_nat (List.length (alertContainer p)) + Z.of_nat k ->
  activeAlerts p <= 3 ->
  (tail (alertQueue p) <> [] -> 2 <= activeAlerts p) ->
  counted k (updateDisplay p).
Proof.
  intros Hcount Hmost Htail. unfold updateDisplay, counted.
  destruct (alertQueue p) as [|nextAlert rest] eqn:Hq; cbn [tail] in *.
  - simpl. rewrite Hq. done.
  - destruct (activeAlerts p <? 3) eqn:Hroom.
    + apply Z.ltb_lt in Hroom. simpl. rewrite length_app. simpl.
      split; [lia|]. split; [lia|]. intros Hrest.
      specialize (Htail Hrest). lia.
    + apply Z.ltb_ge in Hroom. simpl. rewrite Hq.
      split; [done|]. split; [done|]. intros _. lia.
Qed.

Lemma step_counted (e : Event) (k : nat) (p p' : Page) :
  counted k p -> step e p = Some p' ->
  counted (k + acknowledgements [e]) p'.
Proof.
  intros (Hcount & Hmost & Hfull) Hstep. destruct e as [a|i|i]; simpl in Hstep.
  - replace (k + acknowledgements [Build a])%nat with k
      by (unfold acknowledgements; simpl; lia).
    unfold build in Hstep.
    destruct (type a) as [t|]; [|by injection Hstep as <-].
    destruct (String.eqb (message a) ""); [by injection Hstep as <-|].
    destruct (is_acknowledge a && _); [by injection Hstep as <-|].
    injection Hstep as <-. apply updateDisplay_counted; cbn [activeAlerts
      alertQueue alertContainer]; try done.
    intros Hwaiting.
    destruct (alertQueue p) as [|x q]; [by simpl in Hwaiting|].
    rewrite Hfull by done. lia.
  - replace (k + acknowledgements [Close i])%nat with k
      by (unfold acknowledgements; simpl; lia).
    destruct (alertContainer p !! i) as [a|] eqn:Ha; [|discriminate].
    destruct (is_acknowledge a); [discriminate|].
    injection Hstep as <-. unfold remove.
    assert (List.length (delete i (alertContainer p))
            = (List.length (alertContainer p) - 1)%nat) as Hlen
      by (apply length_delete; by eexists).
    apply lookup_lt_Some in Ha.
    apply updateDisplay_counted; cbn [activeAlerts alertQueue alertContainer].
    + rewrite Hlen. lia.
    + lia.
    + intros Hwaiting.
      destruct (alertQueue p) as [|x q]; [by simpl in Hwaiting|].
      rewrite Hfull by done. lia.
  - replace (k + acknowledgements [Acknowledged i])%nat with (S k)
      by (unfold acknowledgements; simpl; lia).
    destruct (alertContainer p !! i) as [a|] eqn:Ha; [|discriminate].
    destruct (is_acknowledge a); [|discriminate].
    injection Hstep as <-. unfold acknowledge, counted.
    cbn [activeAlerts alertQueue alertContainer].
    assert (List.length (delete i (alertContainer p))
            = (List.length (alertContainer p) - 1)%nat) as Hlen
      by (apply length_delete; by eexists).
    apply lookup_lt_Some in Ha.
    split; [rewrite Hlen; lia|]. done.
Qed.

Lemma run_counted (events : list Event) (k : nat) (p p' : Page) :
  counted k p -> run events p = Some p' ->
  counted (k + acknowledgements events) p'.
Proof.
  revert k p. induction events as [|e events IH]; intros k p Hp; simpl.
  - intros [= <-]. by rewrite Nat.add_0_r.
  - destruct (step e p) as [p1|] eqn:Hstep; [|discriminate].
    intros Hrun. pose proof (step_counted e k p p1 Hp Hstep) as Hp1.
    pose proof (IH _ _ Hp1 Hrun) as Hp'.
    replace (k + acknowledgements (e :: events))%nat
      with (k + acknowledgements [e] + acknowledgements events)%nat; [done|].
    unfold acknowledgements. simpl. destruct e; simpl; lia.
Qed.

Lemma run_app (events later : list Event) (p p' p'' : Page) :
  run events p = Some p' -> run later p' = Some p'' ->
  run (events ++ later) p = Some p''.
Proof.
  revert p. induction events as [|e events IH]; intros p; simpl.
  - by intros [= <-].
  - destruct (step e p) as [p1|]; [|discriminate]. apply IH.
Qed.

Lemma loaded_counted : counted 0 loaded.
Proof. unfold counted, loaded. simpl. split; [done|]. split; [lia|done]. Qed.

(** X25.  At most three alerts are shown at a time.  Whatever alerts are
    built and whatever buttons the user clicks, the container holds at most
    three alerts, an alert waits in the queue only while the counter is 3,
    and the counter is the number of the alerts shown plus the number of the
    alerts that were acknowledged: the button to acknowledge takes the alert
    out of the document, and leaves the counter as it is. *)
Theorem at_most_three_alerts_are_shown (events : list Event) (p : Page) :
  run events loaded = Some p ->
  (List.length (alertContainer p) <= 3)%nat /\
  (alertQueue p <> [] -> activeAlerts p = 3) /\
  activeAlerts p
  = Z.of_nat (List.length (alertContainer p)) + Z.of_nat (acknowledgements events).
Proof.
  intros Hrun.
  destruct (run_counted events 0 loaded p loaded_counted Hrun)
    as (Hcount & Hmost & Hfull).
  simpl in Hcount. split; [lia|]. done.
Qed.

(** X26.  Acknowledged alerts keep their places.  Once the user has
    acknowledged three alerts, the counter stays at 3 with no alert in the
    container: no alert is shown any more, whatever is built after, and the
    errors of the server wait in the queue for good. *)
Theorem acknowledged_alerts_keep_their_places
    (events later : list Event) (p p' : Page) :
  run events loaded = Some p ->
  (3 <= acknowledgements events)%nat ->
  run later p = Some p' ->
  alertContainer p = [] /\ alertContainer p' = [] /\ activeAlerts p' = 3.
Proof.
  intros Hrun Hthree Hlater.
  pose proof (run_app _ _ _ _ _ Hrun Hlater) as Hall.
  destruct (run_counted events 0 loaded p loaded_counted Hrun)
    as (Hcount & Hmost & _).
  destruct (run_counted _ 0 loaded p' loaded_counted Hall)
    as (Hcount' & Hmost' & _).
  simpl in Hcount, Hcount'.
  assert (acknowledgements (events ++ later) >= acknowledgements events)%nat as Hmore.
  { unfold acknowledgements. rewrite List.filter_app, length_app. lia. }
  split; [|split].
  - destruct (alertContainer p); [done|]. simpl in Hcount. lia.
  - destruct (alertContainer p'); [done|]. simpl in Hcount'. lia.
  - destruct (alertContainer p'); simpl in Hcount'; lia.
Qed.

(** Three warnings are built and acknowledged; the error that comes then
    is not shown. *)
Lemma acknowledged_alerts_keep_their_places_witness :
  let events :=
    [Build archive_warning; Build archive_warning; Build archive_warning;
     Acknowledged 0; Acknowledged 0; Acknowledged 0] in
  let later := [Build (error_alert "Validation failed.")] in
  exists p p' : Page,
    run events loaded = Some p /\ run later p = Some p' /\
    alertContainer p' = [] /\
    alertQueue p' = [error_alert "Validation failed."] /\
    additionalAlerts p' = Some 1%nat.
Proof.
  intros events later. eexists. eexists.
  split; [reflexivity|]. split; [reflexivity|]. split.
  - destruct (acknowledged_alerts_keep_their_places events later
                (default loaded (run events loaded))
                (default loaded (run (events ++ later) loaded)))
      as (_ & Hnone & _); [reflexivity| |reflexivity|exact Hnone].
    unfold acknowledgements, events. simpl. lia.
  - split; reflexivity.
Defined.

(** Four errors: three are shown, one waits; closing one shows it. *)
Lemma at_most_three_alerts_are_shown_witness :
  let events :=
    [Build (error_alert "a"); Build (error_alert "b"); Build (error_alert "c");
     Build (error_alert "d")] in
  exists p : Page,
    run events loaded = Some p /\
    (List.length (alertContainer p) <= 3)%nat /\
    alertQueue p = [error_alert "d"] /\
    (alertContainer <$> run [Close 0%nat] p)
    = Some [error_alert "b"; error_alert "c"; error_alert "d"].
Proof.
  intros events. eexists. split; [reflexivity|]. split.
  - eapply (at_most_three_alerts_are_shown events). reflexivity.
  - split; reflexivity.
Defined.

End AlertsFacts.
